(* ===== verification/_CoqProject ===== *)
-Q . S2P
Prelude.v
PyStr.v
PyObj.v
Utf8.v
JsonEncode.v
JsonDecode.v
Json.v
World.v
Database.v
Utils.v
Main.v
