(* ===== verification/Prelude.v ===== *)
(** * A verification development of the Modular notes manager

    The repository is a small command-line notes manager in Python with three
    source files:
    - [src/database.py]: class [Database], the storage layer.  It keeps a file
      name and [self.notes]; [load] reads the file with [json.load], [save]
      rewrites it with [json.dump(..., ensure_ascii=False, indent=2)], and
      [add_note], [remove_note], [clear_all] change the list and then call
      [save].
    - [src/utils.py]: the note operations.  [create_note] builds the dict
      [{'text': ..., 'created': strftime(...)}], [add_note] validates the text
      with [strip()], [delete_note] turns a 1-based number into an index,
      [search_notes] does a case-insensitive substring search, [show_all_notes]
      and [display_search_results] print, and [format_note] renders a line.
    - [src/main.py]: [main()] loads the store, then loops: it prints the
      menu, reads a choice with [input()], calls a [handle_*] function, and
      catches [KeyboardInterrupt] (exit with status 0) and [Exception]
      (print and go on).
    The [Database] object is created once in [main()] and passed to every
    function of [utils.py]; the file [notes.json] is the only persistent
    state.

    ** Layout of the library (in dependency order)

    - [Prelude] (this file): the [py_scope] notation scope, the [notes] hint
      database, the tactics ([cmp_case], [dlia], [bool_lia], [app_norm]) and
      generic lemmas on lists and [enumerate].
    - [PyStr] (Module [Str]): Python [str] as a list of code points ([N]);
      [str.isspace], [str.strip], [str(int)], the substring test [in] (equal
      to "is a factor of"), and [str.lower] as the class [CaseMap] (the
      theorems hold for every instance; [basic_case_map] maps ASCII and
      Cyrillic capitals).
    - [PyObj]: the values [pyval] ([None], [bool], [int], [float] as its
      text, [str], [list], [dict] as an association list), the exceptions
      with their classes ([isinstance]), the builtins the program calls with
      the exceptions they raise ([len], [append], [pop], subscripting,
      iteration, truthiness, [int()]), the monad [PyM S A := S -> outcome A * S]
      with [try_except], [try_excepts] (several [except] clauses) and
      [for_each], the predicate [raises_in] (which exceptions a statement
      can raise), and the interface [JsonLib]/[JsonLibLaws] of the [json]
      module the storage layer is proved against.
    - [Utf8] (Module [Utf8]): CPython's strict UTF-8 encoder and decoder,
      with their round trip.
    - [JsonEncode], [JsonDecode], [Json]: the [json] module: the chunks
      [json.dump] writes with [indent=2] (the pure-Python [_make_iterencode]),
      [json.loads] (the scanner, on fuel), and the instance [json_lib] of
      [JsonLib] with its laws.
    - [World]: the process state [world]: the [Database] record (the
      object's attributes), the file system ([gmap] from paths to bytes, with
      the paths that cannot be read or written), the printed messages (one
      constructor of [msg] per [print] call site, with the values it
      interpolates), the input lines (and [Ctrl-C]s) still to be read, and
      the clock; [print], [input], [os.path.exists], and text-mode
      [open]/[read]/[write] (strict UTF-8, universal newlines on read, one
      [write] per chunk so that an encoding error leaves the chunks before
      it in the truncated file).
    - [Database] (Module [Db]): one definition per method of [Database]
      ([init], [load], [save], [get_all_notes], [add_note], [remove_note],
      [clear_all], [get_notes_count]), generic over [JsonLib]; method calls
      as the step relation [reach].
    - [Utils] (Module [Utils]): one definition per function of [utils.py],
      generic over [JsonLib] and [CaseMap]; [strftime] for the time stamp.
    - [Main] (Module [Main]): the four handlers, the [if]/[elif] chain
      ([dispatch]), one iteration of the loop ([loop_body], with its two
      [except] clauses), [main_start], and [main] on fuel, ending in
      [Exited code], [Crashed exception] or [Running].

    ** What is proved

    - Storage ([Database]): the store invariant [db_inv] ([self.notes] is a
      list of values [json] writes back, the file holds its dump or is
      absent while the list is empty, the file can be read and written) is
      kept by every method, every call under it returns, and a process
      restarted at any reached world loads the notes in memory (C1, by
      induction on [reach]); [save] then [load] round trip (C2); the count
      law of the spec (C3); each method's behaviour on each branch, errors
      included (C9, C10, C18, C19).
    - Note operations ([Utils]): [add_note] refuses exactly the empty and
      all-whitespace texts and otherwise stores the text verbatim (C5);
      [search_notes] returns exactly the matching numbered notes, in order
      (C6); [delete_note]'s numbering (C7); [show_all_notes]' output (C16);
      the time stamp reads back in the format of the spec (C17).
    - Shell ([Main]): an iteration of the loop raises nothing but
      [SystemExit(0)] (C4, with [raises_in] propagated through every
      function); [0] and [Ctrl-C] at the menu exit with status 0 (C20,
      C21); [Ctrl-C] at the number prompt of a deletion cancels it (C23).
    - What modelling showed (the findings), each a theorem over every state
      where its situation arises: at the end of input the loop never ends
      (C11); a note that UTF-8 cannot encode (a lone surrogate) makes
      [save] truncate the file to a prefix of the dump and raise (C8), and
      in a deletion the same error is reported as a wrong number (C15); an
      undecodable file, a JSON value that is not an array, and one that has
      no length are not handled as the spec says (C13, C12, C24); the
      stored text is stripped, unlike the spec (C14); [Ctrl-C] while a
      note's text is typed ends the program (C22).
    - Libraries: the [json] model's laws ([JsonLibLaws]: [loads] reads back
      what [dumps] writes, proved on fuel, and the text holds only scalar
      values and no carriage return) are the instance the storage theorems
      are used with; they are lemmas of [Json], not claims of their own.

    ** Bounds and fuel

    Integers are [Z] (Python's are unbounded; [json] refuses more than
    4300 digits, which [json_ok] and [int()] reflect).  The JSON parser runs
    on fuel [2 * length s + 2], proved sufficient for every text [json.dump]
    writes.  [main] runs the loop for a given number of iterations; [Running]
    is the outcome when they are used up, and the theorem on exhausted input
    shows that no number of iterations reaches an exit there.

    ** What is not modelled

    The text of the messages (in Russian): a [print] call is its call site
    and interpolated values.  [str()] of floats, lists and dicts (a
    parameter of [format_note]).  Floats are kept as the text [json] read,
    so [json_ok] excludes them from the round trip.  [int()] accepts ASCII
    digits only.  The [RecursionError] of deeply nested JSON, I/O errors
    other than a path that cannot be opened, signals other than [Ctrl-C]
    while waiting for input, and the interpreter's own failures (memory). *)

From stdpp Require Import base list.
From Stdlib Require Import ZArith NArith Lia.
From Stdlib Require String.

(** String literals ["..."%string] without importing [String], whose
    [length] would hide the one of lists. *)
Export String.StringSyntax.
Delimit Scope string_scope with string.

Declare Scope py_scope.
Delimit Scope py_scope with py.

Create HintDb notes discriminated.
#[export] Hint Constants Transparent : notes.

(** ** Tactics *)

(** [cmp_case] splits on the first comparison of [N] or [Z] numbers of the
    goal, with the arithmetic fact of each branch in the context. *)
Ltac cmp_case :=
  match goal with
  | |- context [(?a <? ?b)%N] => destruct (N.ltb_spec a b)
  | |- context [(?a <=? ?b)%N] => destruct (N.leb_spec a b)
  | |- context [(?a =? ?b)%N] => destruct (N.eqb_spec a b)
  | |- context [(?a <? ?b)%Z] => destruct (Z.ltb_spec a b)
  | |- context [(?a <=? ?b)%Z] => destruct (Z.leb_spec a b)
  | |- context [(?a =? ?b)%Z] => destruct (Z.eqb_spec a b)
  end.

(** [lia] with division and remainder by constants, on [N] and [Z]. *)
Ltac dlia := zify; Z.div_mod_to_equations; Z.quot_rem_to_equations; lia.

(** [bool_lia] turns the boolean comparisons of [N] numbers of the goal and
    the context into propositions and calls [lia]. *)
Ltac bool_lia :=
  repeat first
    [ rewrite andb_true_r in * | rewrite orb_false_r in *
    | rewrite orb_true_iff in * | rewrite andb_true_iff in *
    | rewrite orb_false_iff in * | rewrite andb_false_iff in *
    | rewrite negb_true_iff in * | rewrite negb_false_iff in *
    | rewrite N.eqb_eq in * | rewrite N.eqb_neq in *
    | rewrite N.leb_le in * | rewrite N.leb_gt in *
    | rewrite N.ltb_lt in * | rewrite N.ltb_ge in * ];
  lia.

(** [app_norm] puts the concatenations of the goal in the right-nested
    form [a :: (l ++ (m ++ n))]. *)
Ltac app_norm := repeat (rewrite <- List.app_assoc || rewrite <- List.app_comm_cons).

(** The longest prefix whose elements satisfy [p]. *)
Fixpoint take_while {A} (p : A -> bool) (l : list A) : list A :=
  match l with
  | [] => []
  | x :: l' => if p x then x :: take_while p l' else []
  end.

(** ** Python's [enumerate(xs, start=k)] *)

Fixpoint enumerate {A} (k : Z) (xs : list A) : list (Z * A) :=
  match xs with
  | [] => []
  | x :: xs' => (k, x) :: enumerate (k + 1) xs'
  end.

(** ** Lemmas on lists *)

Lemma Forall_rev_iff {A} (P : A -> Prop) (l : list A) : Forall P (rev l) <-> Forall P l.
Proof.
  split; [|apply Forall_rev]. intros H.
  rewrite <- (rev_involutive l). by apply Forall_rev.
Qed.

Lemma forallb_Forall {A} (f : A -> bool) (l : list A) :
  forallb f l = true <-> Forall (fun x => f x = true) l.
Proof.
  induction l as [|x l IH]; simpl; [split; auto|].
  rewrite andb_true_iff, Forall_cons, IH. reflexivity.
Qed.

Lemma Forall_and_inv {A} (P Q : A -> Prop) (l : list A) :
  Forall P l -> Forall Q l -> Forall (fun x => P x /\ Q x) l.
Proof. intros HP HQ. induction HP; inversion HQ; constructor; auto. Qed.

Lemma Forall_flat_map {A B} (P : B -> Prop) (f : A -> list B) (l : list A) :
  Forall (fun x => Forall P (f x)) l -> Forall P (flat_map f l).
Proof. induction 1; simpl; [constructor | apply Forall_app; auto]. Qed.

Lemma Forall_concat_map {A B} (P : B -> Prop) (f : A -> list B) (l : list A) :
  Forall (fun x => Forall P (f x)) l -> Forall P (concat (map f l)).
Proof. induction 1; simpl; [constructor | apply Forall_app; auto]. Qed.

Lemma enumerate_length {A} k (xs : list A) :
  length (enumerate k xs) = length xs.
Proof. revert k; induction xs; intros; simpl; auto. Qed.

Lemma enumerate_lookup {A} k (xs : list A) i :
  enumerate k xs !! i = (fun x => (k + Z.of_nat i, x)%Z) <$> xs !! i.
Proof.
  revert k i; induction xs as [|x xs IH]; intros k [|i]; simpl; auto.
  - f_equal. f_equal. lia.
  - rewrite IH. destruct (xs !! i); simpl; auto. f_equal. f_equal. lia.
Qed.

Lemma enumerate_app {A} k (xs ys : list A) :
  enumerate k (xs ++ ys) = enumerate k xs ++ enumerate (k + Z.of_nat (length xs)) ys.
Proof.
  revert k; induction xs as [|x xs IH]; intros k; simpl.
  - now rewrite Z.add_0_r.
  - rewrite IH. do 3 f_equal. lia.
Qed.

Lemma enumerate_fst {A} k (xs : list A) :
  map fst (enumerate k xs) = map (fun i => k + Z.of_nat i)%Z (seq 0 (length xs)).
Proof.
  revert k; induction xs as [|x xs IH]; intros k; simpl; auto.
  rewrite IH, Z.add_0_r. f_equal.
  rewrite <- (seq_shift (length xs) 0), map_map. apply map_ext. intros; lia.
Qed.

Lemma enumerate_snd {A} k (xs : list A) : map snd (enumerate k xs) = xs.
Proof. revert k; induction xs as [|x xs IH]; intros k; simpl; [done | by rewrite IH]. Qed.

Lemma Forall_enumerate {A} (P : A -> Prop) k (xs : list A) :
  Forall P xs -> Forall (fun p => P p.2) (enumerate k xs).
Proof. intros H. rewrite <- (enumerate_snd k xs), Forall_map in H. exact H. Qed.


