(* ===== verification/PyStr.v ===== *)
(** * Python [str]: the string methods the program calls

    A Python string is a sequence of Unicode code points; it is modelled as
    [list N].  This file gives [str.isspace] on one code point (CPython's
    [Py_UNICODE_ISSPACE] table), [str.strip()] without argument, the
    substring test [needle in hay] with its specification, and the case
    mapping [str.lower] as a type class: Python's [lower] follows the full
    Unicode case tables (with context rules such as the final sigma), so the
    theorems of the development are stated for every [CaseMap] instance, and
    the one instance given here (ASCII and the basic Cyrillic block, the
    alphabets of the program's own messages) only serves concrete runs. *)

From stdpp Require Import base list.
From Stdlib Require Import NArith ZArith Lia.
From Stdlib Require String Ascii.
From S2P Require Import Prelude.

Abbreviation pystr := (list N).

Module Str.

Local Open Scope N_scope.

(** [Py_UNICODE_ISSPACE]: the ASCII whitespace [\t\n\v\f\r], the
    separators [\x1c]-[\x1f], the space, and the Unicode characters of
    bidirectional type WS, B or S or of category Zs. *)
Definition isspace_char (c : N) : bool :=
  ((9 <=? c) && (c <=? 13)) || ((28 <=? c) && (c <=? 32)) ||
  (c =? 133) || (c =? 160) || (c =? 5760) ||
  ((8192 <=? c) && (c <=? 8202)) ||
  (c =? 8232) || (c =? 8233) || (c =? 8239) || (c =? 8287) || (c =? 12288).

(** A string literal of the source, written with ASCII characters. *)
Definition lit (x : String.string) : pystr :=
  map Ascii.N_of_ascii (String.list_ascii_of_string x).
Arguments lit x%_string.

(** ** Integers and their decimal text *)

(** The decimal digits of [n], most significant first; the fuel [f] is a
    number of bits, at least the number of digits needed. *)
Fixpoint dec_aux (f : nat) (n : N) (acc : pystr) : pystr :=
  match f with
  | O => acc
  | S f' =>
      let acc' := (48 + n mod 10) :: acc in
      if n <? 10 then acc' else dec_aux f' (n / 10) acc'
  end.

Definition dec (n : N) : pystr := dec_aux (S (N.size_nat n)) n [].

(** [str(z)] for an [int]. *)
Definition str_of_Z (z : Z) : pystr :=
  match z with
  | Z0 => [48]
  | Zpos p => dec (Npos p)
  | Zneg p => 45 :: dec (Npos p)
  end.

Definition is_digit (c : N) : bool := (48 <=? c) && (c <=? 57).

(** The value of a string of decimal digits. *)
Definition of_dec (ds : pystr) : N := fold_left (fun acc d => acc * 10 + (d - 48)) ds 0.

(** CPython refuses to convert a decimal string of more than 4300 digits
    to an [int] ([sys.get_int_max_str_digits()]). *)
Definition int_max_str_digits : nat := 4300.

(** A Unicode scalar value: a code point that is not a surrogate.  Python
    strings may hold lone surrogates (a JSON [\ud800] escape produces one);
    the UTF-8 codec refuses to encode them. *)
Definition is_scalar (c : N) : bool := (c <? 55296) || ((57343 <? c) && (c <? 1114112)).

(** [str.lstrip()], [str.rstrip()], [str.strip()] with no argument. *)
Fixpoint lstrip (s : pystr) : pystr :=
  match s with
  | [] => []
  | c :: s' => if isspace_char c then lstrip s' else s
  end.

Definition rstrip (s : pystr) : pystr := rev (lstrip (rev s)).

Definition strip (s : pystr) : pystr := rstrip (lstrip s).

(** [s.startswith(p)] and the membership test [needle in hay]. *)
Fixpoint startswith (p s : pystr) : bool :=
  match p, s with
  | [], _ => true
  | _, [] => false
  | a :: p', b :: s' => (a =? b)%N && startswith p' s'
  end.

Fixpoint contains (needle hay : pystr) : bool :=
  startswith needle hay ||
  match hay with
  | [] => false
  | _ :: hay' => contains needle hay'
  end.

(** [str.lower()] as an interface. *)
Class CaseMap := { lower : pystr -> pystr }.

(** The ASCII and basic Cyrillic lower-casing, one code point at a time. *)
Definition lower_basic_char (c : N) : N :=
  if (65 <=? c) && (c <=? 90) then c + 32
  else if (1040 <=? c) && (c <=? 1071) then c + 32
  else if (1024 <=? c) && (c <=? 1039) then c + 80
  else c.

#[export] Instance basic_case_map : CaseMap := {| lower := map lower_basic_char |}.

(** ** Lemmas *)

Definition all_space (s : pystr) : Prop := Forall (fun c => isspace_char c = true) s.

Lemma lstrip_all_space s : lstrip s = [] <-> all_space s.
Proof.
  unfold all_space; induction s as [|c s IH]; simpl.
  - split; auto.
  - destruct (isspace_char c) eqn:E.
    + rewrite IH. split; [by constructor | intros H; by inversion H].
    + split; [discriminate | intros H; inversion H; congruence].
Qed.

Lemma lstrip_suffix s : exists p, s = p ++ lstrip s /\ all_space p.
Proof.
  unfold all_space; induction s as [|c s IH]; simpl.
  - exists []. auto.
  - destruct (isspace_char c) eqn:E.
    + destruct IH as [p [Hp Hs]]. exists (c :: p). simpl. rewrite <- Hp. auto.
    + exists []. auto.
Qed.

Lemma lstrip_head s c s' : lstrip s = c :: s' -> isspace_char c = false.
Proof.
  induction s as [|d s IH]; simpl; [discriminate|].
  destruct (isspace_char d) eqn:E; auto. intros [= -> _]. exact E.
Qed.

Lemma rstrip_prefix s : exists q, s = rstrip s ++ q /\ all_space q.
Proof.
  unfold rstrip, all_space. destruct (lstrip_suffix (rev s)) as [p [Hp Hs]].
  exists (rev p). split.
  - apply (f_equal (@rev N)) in Hp. by rewrite rev_involutive, rev_app_distr in Hp.
  - by apply Forall_rev.
Qed.

Lemma rstrip_all_space s : rstrip s = [] <-> all_space s.
Proof.
  unfold rstrip, all_space. rewrite <- (Forall_rev_iff _ s).
  rewrite <- lstrip_all_space. split.
  - intros H. apply (f_equal (@rev N)) in H. by rewrite rev_involutive in H.
  - intros ->. reflexivity.
Qed.

Lemma all_space_app p q : all_space (p ++ q) <-> all_space p /\ all_space q.
Proof. apply Forall_app. Qed.

(** [s.strip()] is empty exactly when every character of [s] is
    whitespace. *)
Lemma strip_nil_iff s : strip s = [] <-> all_space s.
Proof.
  unfold strip. rewrite rstrip_all_space.
  destruct (lstrip_suffix s) as [p [Hp Hs]]. split.
  - intros H. rewrite Hp. apply all_space_app. auto.
  - intros H. rewrite Hp in H. apply all_space_app in H as [_ H]. exact H.
Qed.

Lemma rstrip_last t r c : rstrip t = r ++ [c] -> isspace_char c = false.
Proof.
  unfold rstrip. intros H. apply (f_equal (@rev N)) in H.
  rewrite rev_involutive, rev_app_distr in H. exact (lstrip_head _ _ _ H).
Qed.

(** The characterisation of [strip]: the input is the result surrounded by
    whitespace, and the result neither begins nor ends with whitespace. *)
Lemma strip_spec s :
  exists p q, s = p ++ strip s ++ q /\ all_space p /\ all_space q /\
    (forall c r, strip s = c :: r -> isspace_char c = false) /\
    (forall c r, strip s = r ++ [c] -> isspace_char c = false).
Proof.
  destruct (lstrip_suffix s) as [p [Hp Hsp]].
  destruct (rstrip_prefix (lstrip s)) as [q [Hq Hsq]].
  exists p, q. unfold strip. split; [|split; [done|split; [done|split]]].
  - rewrite <- Hq. exact Hp.
  - intros c r Hc. apply (lstrip_head s c (r ++ q)). rewrite Hq, Hc. reflexivity.
  - intros c r. apply rstrip_last.
Qed.

(** [s.strip()] is all whitespace only when it is empty, that is when [s]
    is all whitespace. *)
Lemma strip_all_space s : all_space (strip s) <-> all_space s.
Proof.
  split; [|intros Hs%strip_nil_iff; rewrite Hs; constructor].
  intros Hall. apply strip_nil_iff.
  destruct (strip_spec s) as (_ & _ & _ & _ & _ & Hhd & _).
  destruct (strip s) as [|c r]; [done|].
  inversion Hall as [|? ? Hc _]. by rewrite (Hhd c r eq_refl) in Hc.
Qed.

(** A property of every character of [s] holds of [s.strip()]. *)
Lemma strip_forallb (f : N -> bool) s : forallb f s = true -> forallb f (strip s) = true.
Proof.
  destruct (strip_spec s) as (p & q & Hs & _). rewrite Hs at 1.
  rewrite !forallb_app. by intros [_ [? _]%andb_prop]%andb_prop.
Qed.

(** ** Decimal digits *)

Lemma of_dec_acc ds a :
  fold_left (fun acc d => acc * 10 + (d - 48)) ds a = a * 10 ^ N.of_nat (length ds) + of_dec ds.
Proof.
  unfold of_dec. revert a; induction ds as [|d ds IH]; intros a; simpl.
  - lia.
  - rewrite (IH (a * 10 + (d - 48))), (IH (0 * 10 + (d - 48))).
    rewrite Nat2N.inj_succ, N.pow_succ_r'. lia.
Qed.

Lemma of_dec_cons d ds : of_dec (d :: ds) = (d - 48) * 10 ^ N.of_nat (length ds) + of_dec ds.
Proof. unfold of_dec at 1. simpl. rewrite of_dec_acc. lia. Qed.

Lemma dec_aux_of_dec f n acc :
  n < 2 ^ N.of_nat f ->
  of_dec (dec_aux f n acc) = n * 10 ^ N.of_nat (length acc) + of_dec acc.
Proof.
  revert n acc; induction f as [|f IH]; intros n acc Hn; simpl.
  - simpl in Hn. assert (n = 0) as -> by lia. lia.
  - cmp_case.
    + rewrite of_dec_cons, N.mod_small by lia. lia.
    + rewrite Nat2N.inj_succ, N.pow_succ_r' in Hn.
      rewrite IH by dlia. rewrite of_dec_cons. simpl length.
      rewrite Nat2N.inj_succ, N.pow_succ_r'.
      assert (n = 10 * (n / 10) + n mod 10) as Hdm by (apply N.div_mod; lia).
      replace (48 + n mod 10 - 48) with (n mod 10) by (rewrite N.add_comm; symmetry; apply N.add_sub).
      remember (n / 10) as q. remember (n mod 10) as r. rewrite Hdm. ring.
Qed.

Lemma dec_aux_digits f n acc :
  Forall (fun c => is_digit c = true) acc ->
  Forall (fun c => is_digit c = true) (dec_aux f n acc).
Proof.
  unfold is_digit. revert n acc; induction f as [|f IH]; intros n acc Hacc; simpl; auto.
  assert (Hd : (48 <=? 48 + n mod 10) && (48 + n mod 10 <=? 57) = true).
  { assert (n mod 10 < 10) as Hr by (apply N.mod_lt; lia). revert Hr.
    generalize (n mod 10). intros r Hr. apply andb_true_iff; split; apply N.leb_le; lia. }
  cmp_case; [constructor; auto | apply IH; constructor; auto].
Qed.

Lemma dec_aux_head f n acc :
  1 <= n -> n < 2 ^ N.of_nat f ->
  exists d ds, dec_aux f n acc = d :: ds /\ 49 <= d <= 57.
Proof.
  revert n acc; induction f as [|f IH]; intros n acc H1 Hn; simpl in *.
  - lia.
  - cmp_case.
    + exists (48 + n mod 10), acc. rewrite N.mod_small by lia. split; [reflexivity | lia].
    + rewrite Nat2N.inj_succ, N.pow_succ_r' in Hn. apply IH; dlia.
Qed.

Lemma size_nat_bound n : n < 2 ^ N.of_nat (S (N.size_nat n)).
Proof.
  rewrite Nat2N.inj_succ, N.pow_succ_r'.
  destruct n as [|p]; simpl; [lia|].
  enough (N.pos p < 2 ^ N.of_nat (Pos.size_nat p)) by lia.
  induction p; simpl Pos.size_nat; rewrite ?Nat2N.inj_succ, ?N.pow_succ_r'; lia.
Qed.

(** [dec n] is a string of decimal digits whose value is [n]; it begins
    with a non-zero digit unless [n] is zero. *)
Lemma of_dec_dec n : of_dec (dec n) = n.
Proof.
  unfold dec. rewrite dec_aux_of_dec by apply size_nat_bound.
  simpl length. rewrite N.pow_0_r. unfold of_dec. simpl. lia.
Qed.

Lemma dec_digits n : Forall (fun c => is_digit c = true) (dec n).
Proof. apply dec_aux_digits. constructor. Qed.

Lemma dec_head n : 1 <= n -> exists d ds, dec n = d :: ds /\ 49 <= d <= 57.
Proof. intros H. apply dec_aux_head; [exact H | apply size_nat_bound]. Qed.

Lemma dec_zero : dec 0 = [48].
Proof. reflexivity. Qed.

Lemma of_dec_app ds1 ds2 :
  of_dec (ds1 ++ ds2) = of_dec ds1 * 10 ^ N.of_nat (length ds2) + of_dec ds2.
Proof. unfold of_dec at 1. rewrite fold_left_app. apply of_dec_acc. Qed.

Lemma of_dec_zeros k : of_dec (replicate k 48) = 0.
Proof. induction k as [|k IH]; [reflexivity|]. simpl replicate. rewrite of_dec_cons, IH. lia. Qed.

(** A number below [10 ^ w] has at most [w] digits. *)
Lemma dec_length_le n w : (1 <= w)%nat -> n < 10 ^ N.of_nat w -> (length (dec n) <= w)%nat.
Proof.
  intros Hw Hn. destruct (N.eq_dec n 0) as [->|Hn0]; [rewrite dec_zero; simpl; lia|].
  destruct (dec_head n) as (d & ds & Hd & Hrange); [lia|].
  pose proof (of_dec_dec n) as Hv. rewrite Hd, of_dec_cons in Hv. rewrite Hd. simpl length.
  destruct (Nat.lt_ge_cases (length ds) w) as [|Hge]; [lia|].
  assert (10 ^ N.of_nat w <= 10 ^ N.of_nat (length ds)) by (apply N.pow_le_mono_r; lia).
  nia.
Qed.

Lemma startswith_spec p s : startswith p s = true <-> exists q, s = p ++ q.
Proof.
  revert s; induction p as [|a p IH]; intros [|b s]; simpl.
  - split; eauto.
  - split; eauto.
  - split; [discriminate | intros [q Hq]; discriminate].
  - rewrite andb_true_iff, N.eqb_eq, IH. split.
    + intros [-> [q ->]]. eauto.
    + intros [q Hq]. injection Hq as -> ->. eauto.
Qed.

(** [needle in hay] holds exactly when [needle] is a factor of [hay]. *)
Lemma contains_spec n h : contains n h = true <-> exists a b, h = a ++ n ++ b.
Proof.
  induction h as [|c h IH]; simpl; rewrite orb_true_iff, startswith_spec.
  - split.
    + intros [[q Hq] | H]; [exists [], q; exact Hq | discriminate].
    + intros [[|x a] [b Hb]]; [left; eauto | discriminate].
  - rewrite IH. split.
    + intros [[q Hq] | [a [b ->]]]; [exists [], q; exact Hq | exists (c :: a), b; reflexivity].
    + intros [[|x a] [b Hb]]; simpl in Hb; [left; eauto|].
      injection Hb as -> ->. right. eauto.
Qed.

End Str.
