(* ===== verification/PyObj.v ===== *)
(** * Python values, exceptions, builtins and the program monad

    [pyval] is the type of the Python values the program stores: what
    [json.load] returns ([None], [bool], [int], [float], [str], [list],
    [dict]) and the note dicts [create_note] builds.  Since [self.notes] is
    whatever the notes file held, the builtins the program applies to it are
    modelled on every kind of value, with the exception Python raises where
    the operation does not apply.  [PyM] is the state and exception monad in
    which the statements of the program run. *)

From stdpp Require Import base list.
From Stdlib Require Import ZArith NArith Lia.
From S2P Require Import Prelude PyStr.

(** ** Values *)

(** A [float] is kept as the text [json] writes for it ([repr] of the
    number, or [NaN], [Infinity], [-Infinity]): the program never computes
    with floats, it only reads them from and writes them back to the JSON
    file. *)
Inductive pyval : Type :=
| PNone
| PBool (b : bool)
| PInt (z : Z)
| PFloat (text : pystr)
| PStr (s : pystr)
| PList (xs : list pyval)
| PDict (kvs : list (pystr * pyval)).

(** The induction principle with hypotheses on the elements of lists and
    dicts. *)
Section pyval_ind_deep.
Variable P : pyval -> Prop.
Hypothesis HNone : P PNone.
Hypothesis HBool : forall b, P (PBool b).
Hypothesis HInt : forall z, P (PInt z).
Hypothesis HFloat : forall r, P (PFloat r).
Hypothesis HStr : forall s, P (PStr s).
Hypothesis HList : forall xs, Forall P xs -> P (PList xs).
Hypothesis HDict : forall kvs, Forall (fun kv => P kv.2) kvs -> P (PDict kvs).

Fixpoint pyval_ind_deep (v : pyval) : P v :=
    match v with
    | PNone => HNone
    | PBool b => HBool b
    | PInt z => HInt z
    | PFloat r => HFloat r
    | PStr s => HStr s
    | PList xs =>
        HList xs ((fix go (l : list pyval) : Forall P l :=
                     match l with
                     | [] => Forall_nil_2 _
                     | x :: l' => Forall_cons_2 _ _ _ (pyval_ind_deep x) (go l')
                     end) xs)
    | PDict kvs =>
        HDict kvs ((fix go (l : list (pystr * pyval)) : Forall (fun kv => P kv.2) l :=
                      match l with
                      | [] => Forall_nil_2 _
                      | kv :: l' => Forall_cons_2 _ _ _ (pyval_ind_deep kv.2) (go l')
                      end) kvs)
    end.
End pyval_ind_deep.

(** ** Exceptions *)

(** The exceptions the program can meet.  [IOError] is an alias of
    [OSError]; [JSONDecodeError], [UnicodeDecodeError] and
    [UnicodeEncodeError] are subclasses of [ValueError];
    [KeyboardInterrupt] and [SystemExit] derive from [BaseException] and not
    from [Exception]. *)
Inductive exc : Type :=
| TypeError
| AttributeError
| KeyError
| IndexError
| ValueError
| JSONDecodeError
| UnicodeDecodeError
| UnicodeEncodeError
| OSError
| EOFError
| KeyboardInterrupt
| SystemExit (code : Z).

(** The classes named in the program's [except] clauses. *)
Inductive exc_class : Type :=
| CException | CValueError | CJSONDecodeError | COSError | CKeyboardInterrupt.

Definition isinstance (e : exc) (c : exc_class) : bool :=
  match c, e with
  | CException, (KeyboardInterrupt | SystemExit _) => false
  | CException, _ => true
  | CValueError, (ValueError | JSONDecodeError | UnicodeDecodeError | UnicodeEncodeError) => true
  | CJSONDecodeError, JSONDecodeError => true
  | COSError, OSError => true
  | CKeyboardInterrupt, KeyboardInterrupt => true
  | _, _ => false
  end.

(** ** Outcomes and the monad *)

Inductive outcome (A : Type) : Type :=
| Ok (a : A)
| Raise (e : exc).
Arguments Ok {A} a.
Arguments Raise {A} e.

Definition PyM (S A : Type) : Type := S -> outcome A * S.

Section Monad.
Context {S : Type}.

Definition ret {A} (a : A) : PyM S A := fun s => (Ok a, s).

Definition bind {A B} (m : PyM S A) (k : A -> PyM S B) : PyM S B :=
    fun s => match m s with
             | (Ok a, s') => k a s'
             | (Raise e, s') => (Raise e, s')
             end.

Definition throw {A} (e : exc) : PyM S A := fun s => (Raise e, s).

Definition lift {A} (o : outcome A) : PyM S A := fun s => (o, s).

Definition gets {A} (f : S -> A) : PyM S A := fun s => (Ok (f s), s).

Definition modify (f : S -> S) : PyM S unit := fun s => (Ok tt, f s).

  (** [try: m except <classes>: h] : the handler runs when the raised
      exception is an instance of one of the classes. *)
Definition try_except {A} (m : PyM S A) (cs : list exc_class)
      (h : exc -> PyM S A) : PyM S A :=
    fun s => match m s with
             | (Raise e, s') => if existsb (isinstance e) cs then h e s' else (Raise e, s')
             | r => r
             end.

  (** [try: m] with several [except] clauses, tried in order: the first
      clause that names a class of the exception runs, and what its handler
      raises is not caught by the clauses after it. *)
Fixpoint handle {A} (clauses : list (list exc_class * (exc -> PyM S A)))
      (e : exc) (s : S) : outcome A * S :=
    match clauses with
    | [] => (Raise e, s)
    | (cs, h) :: rest => if existsb (isinstance e) cs then h e s else handle rest e s
    end.

Definition try_excepts {A} (m : PyM S A)
      (clauses : list (list exc_class * (exc -> PyM S A))) : PyM S A :=
    fun s => match m s with
             | (Raise e, s') => handle clauses e s'
             | r => r
             end.

  (** [for x in xs: body(x)] *)
Fixpoint for_each {A} (xs : list A) (body : A -> PyM S unit) : PyM S unit :=
    match xs with
    | [] => ret tt
    | x :: xs' => bind (body x) (fun _ => for_each xs' body)
    end.
End Monad.

Notation "x <- m ;; k" := (bind m (fun x => k))
  (at level 100, m at next level, right associativity) : py_scope.
Notation "m ;; k" := (bind m (fun _ => k))
  (at level 100, right associativity) : py_scope.

Local Open Scope py_scope.

(** ** The exceptions a statement can raise *)

(** [raises_in P m]: whatever the state, [m] returns or raises an exception
    satisfying [P]. *)
Definition raises_in {S A} (P : exc -> Prop) (m : PyM S A) : Prop :=
  forall s, match fst (m s) with Raise e => P e | Ok _ => True end.

(** The exceptions that are not [SystemExit]: every statement of the
    program but [sys.exit] raises only these. *)
Definition not_exit (e : exc) : Prop := match e with SystemExit _ => False | _ => True end.

(** An outcome that is a value or an exception satisfying [P]. *)
Definition outcome_in {A} (P : exc -> Prop) (o : outcome A) : Prop :=
  match o with Raise e => P e | Ok _ => True end.

(** ** Builtins *)

(** [len(v)] *)
Definition py_len (v : pyval) : outcome Z :=
  match v with
  | PStr s => Ok (Z.of_nat (length s))
  | PList xs => Ok (Z.of_nat (length xs))
  | PDict kvs => Ok (Z.of_nat (length kvs))
  | _ => Raise TypeError
  end.

(** Truth value testing ([if not v]).  A float is false when its value is
    zero, that is when no digit of its mantissa is non-zero ([nan] and
    [inf] are true). *)
Definition float_truthy (r : pystr) : bool :=
  existsb (fun c => ((49 <=? c) && (c <=? 57)) || (c =? 78) || (c =? 73))%N
    (take_while (fun c => negb ((c =? 101) || (c =? 69))%N) r).

Definition py_truthy (v : pyval) : bool :=
  match v with
  | PNone => false
  | PBool b => b
  | PInt z => negb (z =? 0)%Z
  | PFloat r => float_truthy r
  | PStr s => negb (bool_decide (s = []))
  | PList xs => negb (bool_decide (xs = []))
  | PDict kvs => negb (bool_decide (kvs = []))
  end.

(** [d[k]] for a string key [k]. *)
Fixpoint assoc_lookup {A} (k : pystr) (kvs : list (pystr * A)) : option A :=
  match kvs with
  | [] => None
  | (k', a) :: kvs' => if bool_decide (k = k') then Some a else assoc_lookup k kvs'
  end.

Definition py_getitem_str (v : pyval) (k : pystr) : outcome pyval :=
  match v with
  | PDict kvs =>
      match assoc_lookup k kvs with
      | Some x => Ok x
      | None => Raise KeyError
      end
  | _ => Raise TypeError
  end.

(** [v.append(x)]: the container after the call. *)
Definition py_append (v x : pyval) : outcome pyval :=
  match v with
  | PList xs => Ok (PList (xs ++ [x]))
  | _ => Raise AttributeError
  end.

(** [v.pop(i)] for an [int] argument: the container after the call.  On a
    [dict] it looks up the key [i], which a JSON object never has. *)
Definition py_pop (v : pyval) (i : Z) : outcome pyval :=
  match v with
  | PList xs =>
      let n := Z.of_nat (length xs) in
      let j := if (i <? 0)%Z then (i + n)%Z else i in
      if ((0 <=? j) && (j <? n))%Z then Ok (PList (delete (Z.to_nat j) xs))
      else Raise IndexError
  | PDict _ => Raise KeyError
  | _ => Raise AttributeError
  end.

(** [for x in v]: the elements iterated over. *)
Definition py_iter (v : pyval) : outcome (list pyval) :=
  match v with
  | PList xs => Ok xs
  | PDict kvs => Ok (map (fun kv => PStr kv.1) kvs)
  | PStr s => Ok (map (fun c => PStr [c]) s)
  | _ => Raise TypeError
  end.

(** [v.lower()] *)
Definition py_lower `{Str.CaseMap} (v : pyval) : outcome pystr :=
  match v with
  | PStr s => Ok (Str.lower s)
  | _ => Raise AttributeError
  end.

(** [int(s)] for a [str]: surrounding whitespace is ignored, then an
    optional sign and decimal digits, with single underscores allowed
    between digits; more than 4300 digits raise [ValueError].  Only the
    ASCII digits are modelled (CPython also accepts the other Unicode
    decimal digits). *)
Fixpoint digits_ok (s : pystr) : bool :=
  match s with
  | [] => false
  | [d] => Str.is_digit d
  | d :: ((c :: _) as r) =>
      Str.is_digit d && (if (c =? 95)%N then
                           match r with _ :: ((d' :: _) as r') => Str.is_digit d' && digits_ok r' | _ => false end
                         else digits_ok r)
  end.

Definition py_int (s : pystr) : outcome Z :=
  let t := Str.strip s in
  let '(neg, body) :=
    match t with
    | c :: r => if (c =? 45)%N then (true, r) else if (c =? 43)%N then (false, r) else (false, t)
    | [] => (false, t)
    end in
  if digits_ok body then
    let ds := List.filter (fun c => negb (c =? 95)%N) body in
    if Nat.leb (length ds) Str.int_max_str_digits then
      let n := Z.of_N (Str.of_dec ds) in Ok (if neg then Z.opp n else n)
    else Raise ValueError
  else Raise ValueError.

(** ** The values the [json] module writes back faithfully *)

(** Strings of scalar values (UTF-8 encodable), [int]s of at most 4300
    digits, lists, and dicts with distinct keys.  Floats are left out: they
    are kept as their text, while [json.load] turns that text into a binary
    float whose [repr] can differ from it. *)
Definition str_ok (s : pystr) : bool := forallb Str.is_scalar s.

Fixpoint json_ok (v : pyval) : bool :=
  match v with
  | PNone | PBool _ => true
  | PInt z => Nat.leb (length (Str.dec (Z.abs_N z))) Str.int_max_str_digits
  | PFloat _ => false
  | PStr s => str_ok s
  | PList xs => forallb json_ok xs
  | PDict kvs =>
      bool_decide (NoDup (map fst kvs)) &&
      forallb (fun kv => str_ok kv.1 && json_ok kv.2) kvs
  end.

(** The builtins raise no [SystemExit]. *)
(** ** The interface of the [json] module

    What [database.py] uses of [json]: [json.dump(obj, f, ensure_ascii=False,
    indent=2)] writes the strings [json_dump_chunks obj] to [f] one
    [f.write] call after the other, and [json.load(f)] is
    [json.loads(f.read())].  The laws are what the storage layer relies on:
    the text written reads back as the same value, it holds scalar values
    only (so the UTF-8 encoder accepts it), and it holds no carriage return
    (so the newline translation of text-mode reads leaves it unchanged). *)
Class JsonLib := {
  json_dump_chunks : pyval -> list pystr;
  json_loads : pystr -> outcome pyval
}.

Class JsonLibLaws `{JsonLib} := {
  json_loads_dump v :
    json_ok v = true -> json_loads (concat (json_dump_chunks v)) = Ok v;
  json_dump_scalar v :
    json_ok v = true -> Forall (fun c => Str.is_scalar c = true) (concat (json_dump_chunks v));
  json_dump_no_cr v :
    json_ok v = true -> (13%N) ∉ concat (json_dump_chunks v)
}.

(** ** Lemmas on the monad *)

Lemma bind_ret_l {S A B} (a : A) (k : A -> PyM S B) : bind (ret a) k = k a.
Proof. reflexivity. Qed.

Lemma bind_assoc {S A B C} (m : PyM S A) (k : A -> PyM S B) (k' : B -> PyM S C) s :
  bind (bind m k) k' s = bind m (fun a => bind (k a) k') s.
Proof. unfold bind. destruct (m s) as [[a|e] s']; reflexivity. Qed.

(** Running [m ;; k] from [s]: the two outcomes. *)
Lemma bind_ok {S A B} (m : PyM S A) (k : A -> PyM S B) s a s' :
  m s = (Ok a, s') -> bind m k s = k a s'.
Proof. unfold bind. intros ->. reflexivity. Qed.

Lemma bind_raise {S A B} (m : PyM S A) (k : A -> PyM S B) s e s' :
  m s = (Raise e, s') -> bind m k s = (Raise e, s').
Proof. unfold bind. intros ->. reflexivity. Qed.

Section RaisesIn.
Context {S : Type} (P : exc -> Prop).

Lemma raises_in_ret {A} (a : A) : raises_in (S:=S) P (ret a).
  Proof. intros s. exact I. Qed.

Lemma raises_in_gets {A} (f : S -> A) : raises_in P (gets f).
  Proof. intros s. exact I. Qed.

Lemma raises_in_modify (f : S -> S) : raises_in P (modify f).
  Proof. intros s. exact I. Qed.

Lemma raises_in_lift {A} (o : outcome A) : outcome_in P o -> raises_in (S:=S) P (lift o).
  Proof. intros Ho s. exact Ho. Qed.

Lemma raises_in_throw {A} e : P e -> raises_in (S:=S) (A:=A) P (throw e).
  Proof. intros He s. exact He. Qed.

Lemma raises_in_bind {A B} (m : PyM S A) (k : A -> PyM S B) :
    raises_in P m -> (forall a, raises_in P (k a)) -> raises_in P (bind m k).
  Proof.
    intros Hm Hk s. unfold bind. specialize (Hm s).
    destruct (m s) as [[a|e] s']; [apply Hk | exact Hm].
  Qed.

Lemma raises_in_for_each {A} (xs : list A) (body : A -> PyM S unit) :
    (forall x, raises_in P (body x)) -> raises_in P (for_each xs body).
  Proof.
    intros Hb. induction xs as [|x xs IH]; [apply raises_in_ret|].
    apply raises_in_bind; [apply Hb | intros _; exact IH].
  Qed.

Lemma raises_in_if {A} (b : bool) (m1 m2 : PyM S A) :
    raises_in P m1 -> raises_in P m2 -> raises_in P (if b then m1 else m2).
  Proof. by destruct b. Qed.

Lemma raises_in_try_except {A} (m : PyM S A) cs h :
    raises_in P m -> (forall e, raises_in P (h e)) -> raises_in P (try_except m cs h).
  Proof.
    intros Hm Hh s. unfold try_except. specialize (Hm s).
    destruct (m s) as [[a|e] s']; [exact I|]. destruct (existsb _ _); [apply Hh | exact Hm].
  Qed.

Lemma raises_in_try_excepts {A} (m : PyM S A) clauses :
    raises_in P m -> Forall (fun cl => forall e, raises_in P (cl.2 e)) clauses ->
    raises_in P (try_excepts m clauses).
  Proof.
    intros Hm Hcl s. unfold try_excepts. specialize (Hm s).
    destruct (m s) as [[a|e] s']; [exact I|]. simpl in Hm. clear m s. revert s'.
    induction Hcl as [|[cs h] clauses Hh _ IH]; intros s'; [exact Hm|]. simpl.
    destruct (existsb _ _); [apply Hh | apply IH].
  Qed.

Lemma raises_in_weaken (Q : exc -> Prop) {A} (m : PyM S A) :
    raises_in Q m -> (forall e, Q e -> P e) -> raises_in P m.
  Proof. intros Hm HQ s. specialize (Hm s). destruct (fst (m s)); auto. Qed.
End RaisesIn.

#[export] Hint Resolve raises_in_ret raises_in_gets raises_in_modify raises_in_lift
  raises_in_throw raises_in_bind raises_in_for_each raises_in_if raises_in_try_except : notes.

Ltac builtin_not_exit :=
  intros; unfold py_len, py_getitem_str, py_append, py_pop, py_iter, py_lower, py_int, outcome_in;
  repeat case_match; simplify_eq/=; auto.

Lemma py_len_not_exit v : outcome_in not_exit (py_len v).
Proof. builtin_not_exit. Qed.
Lemma py_getitem_str_not_exit v k : outcome_in not_exit (py_getitem_str v k).
Proof. builtin_not_exit. Qed.
Lemma py_append_not_exit v x : outcome_in not_exit (py_append v x).
Proof. builtin_not_exit. Qed.
Lemma py_pop_not_exit v i : outcome_in not_exit (py_pop v i).
Proof. builtin_not_exit. Qed.
Lemma py_iter_not_exit v : outcome_in not_exit (py_iter v).
Proof. builtin_not_exit. Qed.
Lemma py_lower_not_exit `{Str.CaseMap} v : outcome_in not_exit (py_lower v).
Proof. builtin_not_exit. Qed.
Lemma py_int_not_exit s : outcome_in not_exit (py_int s).
Proof. builtin_not_exit. Qed.

#[export] Hint Resolve py_len_not_exit py_getitem_str_not_exit py_append_not_exit
  py_pop_not_exit py_iter_not_exit py_lower_not_exit py_int_not_exit : notes.


