(* ===== verification/Utf8.v ===== *)
(** * The strict UTF-8 codec

    [open(filename, 'w', encoding='utf-8')] encodes every string written
    with CPython's strict UTF-8 encoder, which refuses lone surrogates with
    [UnicodeEncodeError]; [open(filename, 'r', encoding='utf-8')] decodes
    the file with the strict decoder, which refuses overlong forms,
    surrogates, code points above U+10FFFF and truncated sequences with
    [UnicodeDecodeError].  Bytes are [N] values below 256.  The round trip
    [utf8_decode (utf8_encode s) = s] holds for every string of scalar
    values. *)

From stdpp Require Import base list.
From Stdlib Require Import NArith Lia.
From S2P Require Import Prelude PyStr PyObj.

Module Utf8.

Local Open Scope N_scope.

(** The encoding of one code point, [None] for a surrogate (and for a value
    beyond U+10FFFF, which a Python string cannot hold). *)
Definition encode_char (c : N) : option (list N) :=
  if c <? 128 then Some [c]
  else if c <? 2048 then Some [192 + c / 64; 128 + c mod 64]
  else if c <? 65536 then
    if (55296 <=? c) && (c <=? 57343) then None
    else Some [224 + c / 64 / 64; 128 + (c / 64) mod 64; 128 + c mod 64]
  else if c <? 1114112 then
    Some [240 + c / 64 / 64 / 64; 128 + (c / 64 / 64) mod 64; 128 + (c / 64) mod 64;
          128 + c mod 64]
  else None.

(** [str.encode('utf-8')] *)
Fixpoint encode (s : pystr) : outcome (list N) :=
  match s with
  | [] => Ok []
  | c :: s' =>
      match encode_char c, encode s' with
      | Some bs, Ok rest => Ok (bs ++ rest)
      | _, _ => Raise UnicodeEncodeError
      end
  end.

Definition cont (b : N) : bool := (128 <=? b) && (b <=? 191).

(** [bytes.decode('utf-8')]: the lead byte fixes the length and the range of
    the second byte (this is what excludes overlong forms, surrogates and
    values above U+10FFFF); the other bytes are continuation bytes. *)
Fixpoint decode (bs : list N) : outcome pystr :=
  match bs with
  | [] => Ok []
  | b1 :: r1 =>
      if b1 <? 128 then
        match decode r1 with Ok s => Ok (b1 :: s) | Raise e => Raise e end
      else if (194 <=? b1) && (b1 <=? 223) then
        match r1 with
        | b2 :: r2 =>
            if cont b2 then
              match decode r2 with
              | Ok s => Ok (((b1 - 192) * 64 + (b2 - 128)) :: s)
              | Raise e => Raise e
              end
            else Raise UnicodeDecodeError
        | [] => Raise UnicodeDecodeError
        end
      else if (224 <=? b1) && (b1 <=? 239) then
        match r1 with
        | b2 :: b3 :: r3 =>
            let lo := if b1 =? 224 then 160 else 128 in
            let hi := if b1 =? 237 then 159 else 191 in
            if (lo <=? b2) && (b2 <=? hi) && cont b3 then
              match decode r3 with
              | Ok s => Ok (((b1 - 224) * 4096 + (b2 - 128) * 64 + (b3 - 128)) :: s)
              | Raise e => Raise e
              end
            else Raise UnicodeDecodeError
        | _ => Raise UnicodeDecodeError
        end
      else if (240 <=? b1) && (b1 <=? 244) then
        match r1 with
        | b2 :: b3 :: b4 :: r4 =>
            let lo := if b1 =? 240 then 144 else 128 in
            let hi := if b1 =? 244 then 143 else 191 in
            if (lo <=? b2) && (b2 <=? hi) && cont b3 && cont b4 then
              match decode r4 with
              | Ok s => Ok (((b1 - 240) * 262144 + (b2 - 128) * 4096
                             + (b3 - 128) * 64 + (b4 - 128)) :: s)
              | Raise e => Raise e
              end
            else Raise UnicodeDecodeError
        | _ => Raise UnicodeDecodeError
        end
      else Raise UnicodeDecodeError
  end.

(** ** Lemmas *)

Lemma encode_char_None c : encode_char c = None <-> Str.is_scalar c = false.
Proof.
  unfold Str.is_scalar, encode_char.
  repeat (cmp_case; simpl); split; intros; (discriminate || lia || reflexivity).
Qed.

Lemma encode_ok_iff s :
  (exists bs, encode s = Ok bs) <-> Forall (fun c => Str.is_scalar c = true) s.
Proof.
  induction s as [|c s IH]; simpl.
  - split; eauto.
  - rewrite Forall_cons, <- IH.
    destruct (encode_char c) eqn:E; [destruct (encode s)|].
    + assert (Str.is_scalar c = true) as Hc.
      { destruct (Str.is_scalar c) eqn:F; [done|]. apply encode_char_None in F. congruence. }
      split; [intros _; eauto | intros _; eauto].
    + split; [intros [bs Hbs]; discriminate | intros [_ [bs Hbs]]; discriminate].
    + apply encode_char_None in E. rewrite E.
      split; [intros [bs Hbs]; discriminate | intros [Hf _]; discriminate].
Qed.

(** One step of the decoder for each sequence length. *)
Lemma decode_1 b r : b < 128 ->
  decode (b :: r) = match decode r with Ok s => Ok (b :: s) | Raise e => Raise e end.
Proof. intros H. simpl. destruct (N.ltb_spec b 128); [reflexivity | lia]. Qed.

Lemma decode_2 b1 b2 r : 194 <= b1 <= 223 -> 128 <= b2 <= 191 ->
  decode (b1 :: b2 :: r) =
    match decode r with
    | Ok s => Ok (((b1 - 192) * 64 + (b2 - 128)) :: s) | Raise e => Raise e end.
Proof.
  intros H1 H2. simpl. unfold cont.
  destruct (N.ltb_spec b1 128); [lia|].
  destruct (N.leb_spec 194 b1), (N.leb_spec b1 223); try lia.
  destruct (N.leb_spec 128 b2), (N.leb_spec b2 191); try lia. reflexivity.
Qed.

Lemma decode_3 b1 b2 b3 r : 224 <= b1 <= 239 -> 128 <= b2 <= 191 ->
  (b1 = 224 -> 160 <= b2) -> (b1 = 237 -> b2 <= 159) -> 128 <= b3 <= 191 ->
  decode (b1 :: b2 :: b3 :: r) =
    match decode r with
    | Ok s => Ok (((b1 - 224) * 4096 + (b2 - 128) * 64 + (b3 - 128)) :: s)
    | Raise e => Raise e end.
Proof.
  intros H1 H2 H3 H4 H5. simpl. unfold cont.
  destruct (N.ltb_spec b1 128); [lia|].
  destruct (N.leb_spec 194 b1), (N.leb_spec b1 223); try lia; simpl.
  destruct (N.leb_spec 224 b1), (N.leb_spec b1 239); try lia; simpl.
  destruct (N.eqb_spec b1 224), (N.eqb_spec b1 237);
    repeat (cmp_case; simpl); try lia; reflexivity.
Qed.

Lemma decode_4 b1 b2 b3 b4 r : 240 <= b1 <= 244 -> 128 <= b2 <= 191 ->
  (b1 = 240 -> 144 <= b2) -> (b1 = 244 -> b2 <= 143) ->
  128 <= b3 <= 191 -> 128 <= b4 <= 191 ->
  decode (b1 :: b2 :: b3 :: b4 :: r) =
    match decode r with
    | Ok s => Ok (((b1 - 240) * 262144 + (b2 - 128) * 4096 + (b3 - 128) * 64
                   + (b4 - 128)) :: s)
    | Raise e => Raise e end.
Proof.
  intros H1 H2 H3 H4 H5 H6. simpl. unfold cont.
  destruct (N.ltb_spec b1 128); [lia|].
  destruct (N.leb_spec 194 b1), (N.leb_spec b1 223); try lia; simpl.
  destruct (N.leb_spec 224 b1), (N.leb_spec b1 239); try lia; simpl.
  destruct (N.leb_spec 240 b1), (N.leb_spec b1 244); try lia; simpl.
  destruct (N.eqb_spec b1 240), (N.eqb_spec b1 244);
    repeat (cmp_case; simpl); try lia; reflexivity.
Qed.

Lemma decode_encode_char c bs rest :
  encode_char c = Some bs ->
  decode (bs ++ rest) =
    match decode rest with Ok s => Ok (c :: s) | Raise e => Raise e end.
Proof.
  unfold encode_char.
  repeat (cmp_case; simpl); intros Henc; try discriminate; injection Henc as <-;
    cbn [app];
    first [rewrite decode_1 by dlia | rewrite decode_2 by dlia
          | rewrite decode_3 by dlia | rewrite decode_4 by dlia];
    destruct (decode rest); try reflexivity; do 3 f_equal; dlia.
Qed.

(** The round trip of the codec: decoding what the encoder produced gives
    the string back. *)
Lemma decode_encode s bs : encode s = Ok bs -> decode bs = Ok s.
Proof.
  revert bs; induction s as [|c s IH]; intros bs; simpl.
  - intros [= <-]. reflexivity.
  - destruct (encode_char c) as [cb|] eqn:Ec; [|discriminate].
    destruct (encode s) as [rest|] eqn:Es; [|discriminate].
    intros [= <-]. rewrite (decode_encode_char _ _ _ Ec), (IH rest eq_refl). reflexivity.
Qed.

Lemma encode_raise s e : encode s = Raise e -> e = UnicodeEncodeError.
Proof.
  induction s as [|c s IH]; simpl; [discriminate|].
  destruct (encode_char c), (encode s); congruence.
Qed.

Lemma encode_app s1 s2 :
  encode (s1 ++ s2) =
    match encode s1, encode s2 with
    | Ok b1, Ok b2 => Ok (b1 ++ b2)
    | _, _ => Raise UnicodeEncodeError
    end.
Proof.
  induction s1 as [|c s1 IH]; simpl.
  - destruct (encode s2) eqn:E; [reflexivity|]. by rewrite (encode_raise _ _ E).
  - rewrite IH. destruct (encode_char c), (encode s1), (encode s2); try reflexivity.
    by rewrite app_assoc.
Qed.

Lemma decode_raise bs e : decode bs = Raise e -> e = UnicodeDecodeError.
Proof.
  remember (length bs) as n eqn:Hn. revert bs Hn.
  induction n as [n IH] using lt_wf_ind; intros bs Hn.
  destruct bs as [|b1 r1]; simpl; [discriminate|].
  repeat match goal with
  | |- context [if ?c then _ else _] => destruct c
  | |- context [match ?l with [] => _ | _ :: _ => _ end] => destruct l
  | |- context [match decode ?r with Ok _ => _ | Raise _ => _ end] =>
      destruct (decode r) eqn:?
  end; intros Heq; try congruence;
  match goal with H : decode ?r = Raise _ |- _ =>
    apply (IH (length r)) with r; [subst n; simpl; lia | done | congruence] end.
Qed.

End Utf8.
