(* ===== verification/JsonEncode.v ===== *)
(** * [json.dump]: the chunks written by the encoder

    With [indent=2] the [json] module always uses the pure-Python encoder
    [_make_iterencode] of [json/encoder.py] (the C encoder is only used when
    [indent] is [None]).  [iterencode lvl v] is the list of strings that
    generator yields for [v] at nesting level [lvl], in order, with
    [ensure_ascii=False] (strings escaped by [encode_basestring]), the
    separators [','] and [': '], and the indentation ['\n' + '  ' * lvl].
    [json.dump] passes each of them to [f.write], which matters when one of
    them cannot be encoded. *)

From stdpp Require Import base list.
From Stdlib Require Import ZArith NArith Lia.
From S2P Require Import Prelude PyStr PyObj.

Module JsonEnc.

Local Open Scope N_scope.

(** A lowercase hexadecimal digit ([\u{0:04x}]). *)
Definition hex_digit (d : N) : N := if d <? 10 then 48 + d else 87 + d.

(** [ESCAPE_DCT]: the backslash, the quote and the control characters are
    escaped, every other character is written as it is. *)
Definition escape_char (c : N) : pystr :=
  if c =? 92 then [92; 92]
  else if c =? 34 then [92; 34]
  else if c =? 8 then [92; 98]
  else if c =? 12 then [92; 102]
  else if c =? 10 then [92; 110]
  else if c =? 13 then [92; 114]
  else if c =? 9 then [92; 116]
  else if c <? 32 then [92; 117; 48; 48; hex_digit (c / 16); hex_digit (c mod 16)]
  else [c].

(** [encode_basestring(s)] *)
Definition encode_basestring (s : pystr) : pystr := 34 :: flat_map escape_char s ++ [34].

(** ['\n' + ' ' * 2 * lvl] *)
Definition newline_indent (lvl : nat) : pystr := 10 :: concat (replicate lvl [32; 32]).

(** The values written in one piece: [str], [None], [True], [False],
    [int] ([int.__repr__]) and [float]. *)
Definition scalar_text (v : pyval) : option pystr :=
  match v with
  | PStr s => Some (encode_basestring s)
  | PNone => Some (Str.lit "null")
  | PBool true => Some (Str.lit "true")
  | PBool false => Some (Str.lit "false")
  | PInt z => Some (Str.str_of_Z z)
  | PFloat r => Some r
  | _ => None
  end.

(** One element of [_iterencode_list]: a value written in one piece is
    appended to the separator [buf], a container is yielded after it. *)
Definition item_chunks (enc : pyval -> list pystr) (buf : pystr) (x : pyval) : list pystr :=
  match scalar_text x with
  | Some t => [buf ++ t]
  | None => buf :: enc x
  end.

(** The loop of [_iterencode_list]: the first separator is
    ['[' + newline_indent], the next ones [',' + newline_indent]. *)
Definition list_items (enc : pyval -> list pystr) (ni : pystr) :
    pystr -> list pyval -> list pystr :=
  fix items buf xs :=
    match xs with
    | [] => []
    | x :: xs' => item_chunks enc buf x ++ items (44 :: ni) xs'
    end.

(** A value of [_iterencode_dict]. *)
Definition value_chunks (enc : pyval -> list pystr) (x : pyval) : list pystr :=
  match scalar_text x with
  | Some t => [t]
  | None => enc x
  end.

(** The loop of [_iterencode_dict]: [item_separator] before every key but
    the first, then the key, [': '] and the value. *)
Definition dict_items (enc : pyval -> list pystr) (ni : pystr) :
    bool -> list (pystr * pyval) -> list pystr :=
  fix items first kvs :=
    match kvs with
    | [] => []
    | (k, x) :: kvs' =>
        (if first then [] else [44 :: ni]) ++ [encode_basestring k; [58; 32]] ++
        value_chunks enc x ++ items false kvs'
    end.

(** [_iterencode(o, lvl)] *)
Fixpoint iterencode (lvl : nat) (v : pyval) : list pystr :=
  match v with
  | PList [] => [Str.lit "[]"]
  | PList xs =>
      let ni := newline_indent (S lvl) in
      list_items (iterencode (S lvl)) ni (91 :: ni) xs ++ [newline_indent lvl; [93]]
  | PDict [] => [Str.lit "{}"]
  | PDict kvs =>
      let ni := newline_indent (S lvl) in
      [123] :: ni :: dict_items (iterencode (S lvl)) ni true kvs ++ [newline_indent lvl; [125]]
  | _ => match scalar_text v with Some t => [t] | None => [] end
  end.

(** [json.dump(v, f, ensure_ascii=False, indent=2)] writes these strings. *)
Definition dump_chunks (v : pyval) : list pystr := iterencode 0 v.

Definition dumps (v : pyval) : pystr := concat (dump_chunks v).

(** ** The text of a value *)

Definition enc (lvl : nat) (v : pyval) : pystr := concat (iterencode lvl v).

(** The text of a member [key: value]. *)
Definition member (lvl : nat) (kv : pystr * pyval) : pystr :=
  encode_basestring kv.1 ++ [58; 32] ++ enc lvl kv.2.

Lemma iterencode_scalar lvl v t : scalar_text v = Some t -> iterencode lvl v = [t].
Proof. destruct v as [|[]| | | |[|]|[|]]; simpl; congruence. Qed.

Lemma concat_item_chunks lvl buf x :
  concat (item_chunks (iterencode lvl) buf x) = buf ++ enc lvl x.
Proof.
  unfold item_chunks, enc. destruct (scalar_text x) eqn:E.
  - rewrite (iterencode_scalar _ _ _ E). simpl. by rewrite !app_nil_r.
  - reflexivity.
Qed.

Lemma concat_value_chunks lvl x : concat (value_chunks (iterencode lvl) x) = enc lvl x.
Proof.
  unfold value_chunks, enc. destruct (scalar_text x) eqn:E; [|reflexivity].
  rewrite (iterencode_scalar _ _ _ E). reflexivity.
Qed.

Lemma concat_list_items lvl ni buf xs :
  concat (list_items (iterencode lvl) ni buf xs) =
  match xs with
  | [] => []
  | x :: xs' => buf ++ enc lvl x ++ concat (map (fun y => (44 :: ni) ++ enc lvl y) xs')
  end.
Proof.
  revert buf; induction xs as [|x xs IH]; intros buf; [reflexivity|].
  simpl list_items. rewrite concat_app, concat_item_chunks, IH, <- !app_assoc.
  destruct xs; simpl; rewrite ?app_nil_r, <- ?app_assoc; reflexivity.
Qed.

Lemma concat_dict_items lvl ni first kvs :
  concat (dict_items (iterencode lvl) ni first kvs) =
  match kvs with
  | [] => []
  | kv :: kvs' =>
      (if first then [] else 44 :: ni) ++ member lvl kv ++
      concat (map (fun kv => (44 :: ni) ++ member lvl kv) kvs')
  end.
Proof.
  revert first; induction kvs as [|[k x] kvs IH]; intros first; [reflexivity|].
  simpl dict_items. rewrite concat_app. cbn [concat].
  rewrite concat_app, concat_value_chunks, IH. unfold member.
  destruct first, kvs as [|[k' x'] kvs]; simpl; rewrite ?app_nil_r; app_norm; reflexivity.
Qed.

(** The layout of a non-empty list and a non-empty dict. *)
Lemma enc_list lvl x xs :
  enc lvl (PList (x :: xs)) =
  91 :: newline_indent (S lvl) ++ enc (S lvl) x ++
  concat (map (fun y => (44 :: newline_indent (S lvl)) ++ enc (S lvl) y) xs) ++
  newline_indent lvl ++ [93].
Proof.
  unfold enc at 1. cbn [iterencode]. rewrite concat_app, concat_list_items.
  cbn [concat]. rewrite app_nil_r. app_norm. reflexivity.
Qed.

Lemma enc_dict lvl kv kvs :
  enc lvl (PDict (kv :: kvs)) =
  123 :: newline_indent (S lvl) ++ member (S lvl) kv ++
  concat (map (fun kv => (44 :: newline_indent (S lvl)) ++ member (S lvl) kv) kvs) ++
  newline_indent lvl ++ [125].
Proof.
  unfold enc at 1. cbn [iterencode concat]. rewrite concat_app, concat_dict_items.
  cbn [concat]. rewrite app_nil_r. app_norm. reflexivity.
Qed.

End JsonEnc.
