(* ===== verification/JsonDecode.v ===== *)
(** * [json.loads]: the decoder

    The default decoder of CPython uses the C scanner of [_json.c]
    ([scan_once_unicode], [scanstring_unicode], [_match_number_unicode]) and
    [JSONDecoder.decode] of [json/decoder.py]:
    - whitespace is [' \t\n\r'];
    - strings are [strict]: a raw control character is an error; the escapes
      are a backslash followed by a double quote, a backslash, a slash,
      [b], [f], [n], [r], [t], or [uXXXX]; a high surrogate escape
      followed by a low surrogate escape is joined into one code point, any
      other surrogate escape stays a lone surrogate;
    - a number is an optional minus sign, then [0] or a non-zero digit
      followed by digits, then optionally a dot and digits, then optionally
      [e] or [E], an optional sign and digits, all digits ASCII; with a fraction or exponent they are floats, otherwise
      [int]s, and an [int] of more than 4300 digits raises [ValueError]
      (not [JSONDecodeError]);
    - [NaN], [Infinity], [-Infinity] are accepted;
    - an object becomes [dict(pairs)]: a repeated key keeps the place of its
      first occurrence and the value of its last;
    - [loads] refuses a leading U+FEFF and anything but whitespace after the
      value.
    Every syntax error is [JSONDecodeError].  The parser is written on the
    remaining input (a suffix of the text) and runs on fuel: each call
    consumes one unit, [loads] gives [2 * length s + 2], which the round trip
    theorem shows to be enough for the texts the encoder writes.  The
    interpreter's recursion limit on deeply nested input is not modelled. *)

From stdpp Require Import base list.
From Stdlib Require Import ZArith NArith Lia.
From S2P Require Import Prelude PyStr PyObj.

Module JsonDec.

Local Open Scope N_scope.

Definition err {A} : outcome A := Raise JSONDecodeError.

Definition is_ws (c : N) : bool := (c =? 32) || (c =? 9) || (c =? 10) || (c =? 13).

(** [WHITESPACE.match(s, end).end()] *)
Fixpoint skip_ws (s : pystr) : pystr :=
  match s with
  | c :: s' => if is_ws c then skip_ws s' else s
  | [] => []
  end.

Definition hex_val (c : N) : option N :=
  if (48 <=? c) && (c <=? 57) then Some (c - 48)
  else if (97 <=? c) && (c <=? 102) then Some (c - 87)
  else if (65 <=? c) && (c <=? 70) then Some (c - 55)
  else None.

Definition hex4 (a b c d : N) : option N :=
  match hex_val a, hex_val b, hex_val c, hex_val d with
  | Some x, Some y, Some z, Some w => Some (((x * 16 + y) * 16 + z) * 16 + w)
  | _, _, _, _ => None
  end.

(** The one-character escapes. *)
Definition simple_escape (e : N) : option N :=
  if e =? 34 then Some 34
  else if e =? 92 then Some 92
  else if e =? 47 then Some 47
  else if e =? 98 then Some 8
  else if e =? 102 then Some 12
  else if e =? 110 then Some 10
  else if e =? 114 then Some 13
  else if e =? 116 then Some 9
  else None.

Definition is_high (u : N) : bool := (55296 <=? u) && (u <=? 56319).
Definition is_low (u : N) : bool := (56320 <=? u) && (u <=? 57343).
Definition join_surrogates (hi lo : N) : N := 65536 + (hi - 55296) * 1024 + (lo - 56320).

Definition cons_str (c : N) (r : outcome (pystr * pystr)) : outcome (pystr * pystr) :=
  match r with
  | Ok (x, rest) => Ok (c :: x, rest)
  | Raise e => Raise e
  end.

(** [scanstring(s, end, strict=True)]: [s] is the input after the opening
    quote; the result is the decoded string and the input after the closing
    quote. *)
Fixpoint scan_string (s : pystr) : outcome (pystr * pystr) :=
  match s with
  | [] => err
  | c :: s1 =>
      if c =? 34 then Ok ([], s1)
      else if c =? 92 then
        match s1 with
        | [] => err
        | e :: s2 =>
            if e =? 117 then
              match s2 with
              | h1 :: h2 :: h3 :: h4 :: s6 =>
                  match hex4 h1 h2 h3 h4 with
                  | None => err
                  | Some u =>
                      if is_high u then
                        match s6 with
                        | b :: v :: k1 :: k2 :: k3 :: k4 :: s12 =>
                            if (b =? 92) && (v =? 117) then
                              match hex4 k1 k2 k3 k4 with
                              | None => err
                              | Some u2 =>
                                  if is_low u2 then cons_str (join_surrogates u u2) (scan_string s12)
                                  else cons_str u (scan_string s6)
                              end
                            else cons_str u (scan_string s6)
                        | _ => cons_str u (scan_string s6)
                        end
                      else cons_str u (scan_string s6)
                  end
              | _ => err
              end
            else
              match simple_escape e with
              | Some d => cons_str d (scan_string s2)
              | None => err
              end
        end
      else if c <? 32 then err
      else cons_str c (scan_string s1)
  end.

(** [span p s]: the longest prefix of [s] in [p], and the rest. *)
Fixpoint span (p : N -> bool) (s : pystr) : pystr * pystr :=
  match s with
  | c :: s' => if p c then let '(a, b) := span p s' in (c :: a, b) else ([], s)
  | [] => ([], [])
  end.

(** [_match_number_unicode], in its four steps: the sign, the integer part
    ([0] or a non-zero digit and digits), the fraction (a dot followed by at
    least one digit) and the exponent ([e] or [E], an optional sign and at
    least one digit; without a digit the exponent is not part of the
    number). *)
Definition match_sign (s : pystr) : pystr * pystr :=
  match s with
  | c :: t => if c =? 45 then ([c], t) else ([], s)
  | [] => ([], [])
  end.

Definition match_int (s : pystr) : option (pystr * pystr) :=
  match s with
  | d :: t =>
      if (49 <=? d) && (d <=? 57) then let '(ds, r) := span Str.is_digit t in Some (d :: ds, r)
      else if d =? 48 then Some ([d], t)
      else None
  | [] => None
  end.

Definition match_frac (s : pystr) : pystr * pystr :=
  match s with
  | dot :: d :: t =>
      if (dot =? 46) && Str.is_digit d then let '(ds, r) := span Str.is_digit t in (dot :: d :: ds, r)
      else ([], s)
  | _ => ([], s)
  end.

Definition match_exp (s : pystr) : pystr * pystr :=
  match s with
  | e :: t =>
      if (e =? 101) || (e =? 69) then
        let '(sg, t1) :=
          match t with
          | c :: t' => if (c =? 43) || (c =? 45) then ([c], t') else ([], t)
          | [] => ([], [])
          end in
        match span Str.is_digit t1 with
        | ([], _) => ([], s)
        | (ds, t2) => (e :: sg ++ ds, t2)
        end
      else ([], s)
  | [] => ([], [])
  end.

(** The text of the number, whether it is a float, and the rest. *)
Definition match_number (s : pystr) : option (pystr * bool * pystr) :=
  let '(sign, s1) := match_sign s in
  match match_int s1 with
  | None => None
  | Some (intpart, r1) =>
      let '(frac, r2) := match_frac r1 in
      let '(exp, r3) := match_exp r2 in
      Some (sign ++ intpart ++ frac ++ exp,
            negb (bool_decide (frac = [])) || negb (bool_decide (exp = [])), r3)
  end.

(** [int(text)] for the text of an integer matched above. *)
Definition int_of_text (t : pystr) : outcome pyval :=
  let '(neg, ds) := match t with c :: t' => if c =? 45 then (true, t') else (false, t) | [] => (false, t) end in
  if Nat.leb (length ds) Str.int_max_str_digits then
    let n := Z.of_N (Str.of_dec ds) in
    Ok (PInt (if neg then Z.opp n else n))
  else Raise ValueError.

(** [dict(pairs)]: a new key goes to the end, a repeated key keeps its
    place and takes the new value. *)
Fixpoint dict_insert (k : pystr) (v : pyval) (d : list (pystr * pyval)) : list (pystr * pyval) :=
  match d with
  | [] => [(k, v)]
  | (k', v') :: d' =>
      if bool_decide (k = k') then (k', v) :: d' else (k', v') :: dict_insert k v d'
  end.

Definition dict_of_pairs (kvs : list (pystr * pyval)) : list (pystr * pyval) :=
  fold_left (fun d kv => dict_insert kv.1 kv.2 d) kvs [].

(** [scan_once], [JSONObject] and [JSONArray], on fuel.  [parse_value] is
    called on input whose whitespace is skipped. *)
Fixpoint parse_value (n : nat) (s : pystr) : outcome (pyval * pystr) :=
  match n with
  | O => err
  | S n' =>
      match s with
      | [] => err
      | c :: t =>
          if c =? 34 then
            match scan_string t with Ok (x, r) => Ok (PStr x, r) | Raise e => Raise e end
          else if c =? 123 then
            match skip_ws t with
            | c2 :: t2 =>
                if c2 =? 125 then Ok (PDict [], t2)
                else match parse_members n' (c2 :: t2) with
                     | Ok (kvs, r) => Ok (PDict (dict_of_pairs kvs), r)
                     | Raise e => Raise e
                     end
            | [] => err
            end
          else if c =? 91 then
            match skip_ws t with
            | c2 :: t2 =>
                if c2 =? 93 then Ok (PList [], t2)
                else match parse_elems n' (c2 :: t2) with
                     | Ok (xs, r) => Ok (PList xs, r)
                     | Raise e => Raise e
                     end
            | [] => err
            end
          else if Str.startswith (Str.lit "null") s then Ok (PNone, drop 4 s)
          else if Str.startswith (Str.lit "true") s then Ok (PBool true, drop 4 s)
          else if Str.startswith (Str.lit "false") s then Ok (PBool false, drop 5 s)
          else match match_number s with
               | Some (txt, true, r) => Ok (PFloat txt, r)
               | Some (txt, false, r) =>
                   match int_of_text txt with Ok v => Ok (v, r) | Raise e => Raise e end
               | None =>
                   if Str.startswith (Str.lit "NaN") s then Ok (PFloat (Str.lit "NaN"), drop 3 s)
                   else if Str.startswith (Str.lit "Infinity") s then
                     Ok (PFloat (Str.lit "Infinity"), drop 8 s)
                   else if Str.startswith (Str.lit "-Infinity") s then
                     Ok (PFloat (Str.lit "-Infinity"), drop 9 s)
                   else err
               end
      end
  end
(** The elements of an array, from the first one (whitespace skipped) to
    the closing bracket. *)
with parse_elems (n : nat) (s : pystr) : outcome (list pyval * pystr) :=
  match n with
  | O => err
  | S n' =>
      match parse_value n' s with
      | Raise e => Raise e
      | Ok (v, r) =>
          match skip_ws r with
          | c :: t =>
              if c =? 93 then Ok ([v], t)
              else if c =? 44 then
                match parse_elems n' (skip_ws t) with
                | Ok (vs, r') => Ok (v :: vs, r')
                | Raise e => Raise e
                end
              else err
          | [] => err
          end
      end
  end
(** The members of an object, from the first key (whitespace skipped) to
    the closing brace. *)
with parse_members (n : nat) (s : pystr) : outcome (list (pystr * pyval) * pystr) :=
  match n with
  | O => err
  | S n' =>
      match s with
      | c :: t =>
          if c =? 34 then
            match scan_string t with
            | Raise e => Raise e
            | Ok (k, r) =>
                match skip_ws r with
                | c2 :: t2 =>
                    if c2 =? 58 then
                      match parse_value n' (skip_ws t2) with
                      | Raise e => Raise e
                      | Ok (v, r2) =>
                          match skip_ws r2 with
                          | c3 :: t3 =>
                              if c3 =? 125 then Ok ([(k, v)], t3)
                              else if c3 =? 44 then
                                match parse_members n' (skip_ws t3) with
                                | Ok (kvs, r3) => Ok ((k, v) :: kvs, r3)
                                | Raise e => Raise e
                                end
                              else err
                          | [] => err
                          end
                      end
                    else err
                | [] => err
                end
            end
          else err
      | [] => err
      end
  end.

(** [json.loads(s)] *)
Definition loads (s : pystr) : outcome pyval :=
  if Str.startswith [65279] s then err
  else
    match parse_value (2 * length s + 2) (skip_ws s) with
    | Ok (v, r) => if bool_decide (skip_ws r = []) then Ok v else err
    | Raise e => Raise e
    end.

End JsonDec.
