(* ===== verification/Json.v ===== *)
(** * The [json] module: round trip and the instance of [JsonLib]

    [JsonEncode] and [JsonDecode] model the two halves of the module; this
    file proves that the decoder reads back what the encoder writes
    ([loads_dumps]), for every value accepted by [json_ok], from any nesting
    level and followed by any text that cannot continue a number, with the
    fuel [loads] gives.  It also proves that the text written holds only
    scalar values and no carriage return, and packs the three facts as the
    [JsonLibLaws] instance used by the storage layer. *)

From stdpp Require Import base list sets.
From Stdlib Require Import ZArith NArith Lia.
From S2P Require Import Prelude PyStr PyObj JsonEncode JsonDecode.

Module Json.
Import JsonEnc JsonDec.

Local Open Scope N_scope.

(** ** Definitions used by the proofs *)

(** What may follow a number without being read as part of it. *)
Definition num_stop (r : pystr) : Prop :=
  match r with
  | [] => True
  | c :: _ => Str.is_digit c = false /\ c <> 46 /\ c <> 101 /\ c <> 69
  end.

Definition value_start (c : N) : bool :=
  (c =? 34) || (c =? 91) || (c =? 123) || (c =? 110) || (c =? 116) || (c =? 102) ||
  (c =? 45) || Str.is_digit c.

(** The fuel the parser needs for the text of a value. *)
Fixpoint fuel (v : pyval) : nat :=
  match v with
  | PList xs => 1 + sum_list_with (fun x => fuel x + 1) xs
  | PDict kvs => 1 + sum_list_with (fun kv => fuel kv.2 + 1) kvs
  | _ => 1
  end%nat.

(** [v], written at level [lvl] and followed by text [r] that cannot
    continue a number, is read back with any fuel from [fuel v] on. *)
Definition reads_back (lvl : nat) (v : pyval) : Prop :=
  forall n r, (fuel v <= n)%nat -> num_stop r -> parse_value n (enc lvl v ++ r) = Ok (v, r).

(** A character the text may hold: a scalar value (the UTF-8 encoder
    accepts it) other than a carriage return. *)
Definition goodb (c : N) : bool := Str.is_scalar c && negb (c =? 13).

#[export] Instance json_lib : JsonLib := {|
  json_dump_chunks := dump_chunks;
  json_loads := loads
|}.

(** ** Whitespace *)

Lemma skip_ws_ni lvl s : skip_ws (newline_indent lvl ++ s) = skip_ws s.
Proof. unfold newline_indent. simpl. induction lvl; simpl; auto. Qed.

Lemma skip_ws_stop c s : is_ws c = false -> skip_ws (c :: s) = c :: s.
Proof. intros H. simpl. by rewrite H. Qed.

(** ** Strings *)

Lemma hex_val_digit d : d < 16 -> hex_val (hex_digit d) = Some d.
Proof.
  intros H. unfold hex_val, hex_digit.
  repeat (cmp_case; simpl); try lia; f_equal; lia.
Qed.

Lemma scan_u_escape h1 h2 h3 h4 u rest :
  hex4 h1 h2 h3 h4 = Some u -> is_high u = false ->
  scan_string (92 :: 117 :: h1 :: h2 :: h3 :: h4 :: rest) = cons_str u (scan_string rest).
Proof. intros H1 H2. cbn - [hex4 is_high cons_str]. rewrite H1, H2. reflexivity. Qed.

Lemma scan_escape_char c rest :
  scan_string (escape_char c ++ rest) = cons_str c (scan_string rest).
Proof.
  unfold escape_char.
  destruct (N.eqb_spec c 92); [subst; reflexivity|].
  destruct (N.eqb_spec c 34); [subst; reflexivity|].
  destruct (N.eqb_spec c 8); [subst; reflexivity|].
  destruct (N.eqb_spec c 12); [subst; reflexivity|].
  destruct (N.eqb_spec c 10); [subst; reflexivity|].
  destruct (N.eqb_spec c 13); [subst; reflexivity|].
  destruct (N.eqb_spec c 9); [subst; reflexivity|].
  destruct (N.ltb_spec c 32).
  - cbn [app]. rewrite (scan_u_escape _ _ _ _ c).
    + reflexivity.
    + unfold hex4. rewrite !hex_val_digit by dlia. simpl. f_equal. dlia.
    + unfold is_high. cmp_case; [lia | reflexivity].
  - cbn [app]. simpl. repeat (cmp_case; try lia). reflexivity.
Qed.

(** The decoder reads back the string [encode_basestring] writes. *)
Lemma scan_encoded s rest :
  scan_string (flat_map escape_char s ++ 34 :: rest) = Ok (s, rest).
Proof.
  induction s as [|c s IH]; [reflexivity|].
  simpl. rewrite <- app_assoc, scan_escape_char, IH. reflexivity.
Qed.

(** ** Numbers *)

Lemma span_digits ds r :
  Forall (fun c => Str.is_digit c = true) ds -> num_stop r ->
  span Str.is_digit (ds ++ r) = (ds, r).
Proof.
  intros Hds Hr. induction Hds as [|d ds Hd _ IH]; simpl.
  - destruct r as [|c r]; [reflexivity|]. destruct Hr as [Hc _]. simpl. by rewrite Hc.
  - by rewrite Hd, IH.
Qed.

Lemma match_frac_stop r : num_stop r -> match_frac r = ([], r).
Proof.
  destruct r as [|c [|c2 t]]; simpl; auto. intros [_ [H _]].
  destruct (N.eqb_spec c 46); [contradiction | reflexivity].
Qed.

Lemma match_exp_stop r : num_stop r -> match_exp r = ([], r).
Proof.
  destruct r as [|c t]; simpl; auto. intros [_ [_ [H1 H2]]].
  destruct (N.eqb_spec c 101), (N.eqb_spec c 69); try contradiction. reflexivity.
Qed.

Lemma match_int_dec n r :
  num_stop r -> match_int (Str.dec n ++ r) = Some (Str.dec n, r).
Proof.
  intros Hr. destruct (N.eq_dec n 0) as [->|Hn].
  - rewrite Str.dec_zero. reflexivity.
  - destruct (Str.dec_head n) as [d [ds [Hdec Hd]]]; [lia|].
    pose proof (Str.dec_digits n) as Hdig. rewrite Hdec in *. inversion Hdig; subst.
    simpl. destruct (N.leb_spec 49 d), (N.leb_spec d 57); try lia. simpl.
    by rewrite span_digits.
Qed.

Lemma match_sign_dec n r : match_sign (Str.dec n ++ r) = ([], Str.dec n ++ r).
Proof.
  destruct (N.eq_dec n 0) as [->|Hn]; [reflexivity|].
  destruct (Str.dec_head n) as [d [ds [Hdec Hd]]]; [lia|].
  rewrite Hdec. simpl. destruct (N.eqb_spec d 45); [lia | reflexivity].
Qed.

(** [int.__repr__] writes what [_match_number_unicode] reads as an
    integer, and [int()] gives the number back. *)
Lemma match_number_int z r :
  num_stop r -> match_number (Str.str_of_Z z ++ r) = Some (Str.str_of_Z z, false, r).
Proof.
  intros Hr. unfold match_number.
  destruct z as [|p|p]; [change (Str.str_of_Z 0) with (Str.dec 0)
    | change (Str.str_of_Z (Zpos p)) with (Str.dec (Npos p))
    | change (Str.str_of_Z (Zneg p)) with ([45] ++ Str.dec (Npos p))];
    rewrite ?match_sign_dec;
    [| | rewrite <- app_assoc; change (match_sign ([45] ++ ?s)) with ([45], s); cbv beta iota];
    rewrite match_int_dec, match_frac_stop, match_exp_stop by exact Hr;
    cbn [app negb bool_decide]; rewrite ?app_nil_r; reflexivity.
Qed.

Lemma int_of_text_str z :
  (length (Str.dec (Z.abs_N z)) <= Str.int_max_str_digits)%nat ->
  int_of_text (Str.str_of_Z z) = Ok (PInt z).
Proof.
  intros Hlen. destruct z as [|p|p]; [reflexivity| |].
  - destruct (Str.dec_head (Npos p)) as [d [ds [Hdec Hd]]]; [lia|].
    unfold int_of_text. simpl Str.str_of_Z. rewrite Hdec. simpl.
    destruct (N.eqb_spec d 45); [lia|]. rewrite <- Hdec.
    simpl in Hlen. apply Nat.leb_le in Hlen. rewrite Hlen, Str.of_dec_dec. reflexivity.
  - unfold int_of_text. simpl.
    simpl in Hlen. apply Nat.leb_le in Hlen. rewrite Hlen, Str.of_dec_dec. reflexivity.
Qed.

(** ** The first character of a value *)

Lemma enc_first lvl v :
  json_ok v = true -> exists c t, enc lvl v = c :: t /\ value_start c = true.
Proof.
  intros Hok. destruct v as [|[]|[|p|p]|r|s|[|x xs]|[|kv kvs]]; try discriminate;
    try (eexists _, _; split; [reflexivity | reflexivity]).
  - destruct (Str.dec_head (Npos p)) as [d [ds [Hdec Hd]]]; [lia|].
    exists d, ds. unfold enc; cbn [iterencode scalar_text concat]. rewrite app_nil_r.
    change (Str.str_of_Z (Zpos p)) with (Str.dec (Npos p)). split; [exact Hdec|].
    unfold value_start, Str.is_digit. repeat (cmp_case; simpl); lia.
  - rewrite enc_list. eexists _, _. split; reflexivity.
Qed.

Lemma skip_ws_enc lvl v r :
  json_ok v = true -> skip_ws (enc lvl v ++ r) = enc lvl v ++ r.
Proof.
  intros Hok. destruct (enc_first lvl v Hok) as [c [t [-> Hc]]].
  apply skip_ws_stop. unfold value_start, Str.is_digit, is_ws in *. bool_lia.
Qed.

(** ** Dicts with distinct keys *)

Lemma dict_insert_fresh k v d : k ∉ map fst d -> dict_insert k v d = d ++ [(k, v)].
Proof.
  induction d as [|[k' v'] d IH]; simpl; [reflexivity|].
  intros Hk. rewrite bool_decide_false by set_solver. rewrite IH by set_solver. reflexivity.
Qed.

Lemma fold_dict_insert acc kvs :
  NoDup (map fst (acc ++ kvs)) ->
  fold_left (fun d kv => dict_insert kv.1 kv.2 d) kvs acc = acc ++ kvs.
Proof.
  revert acc; induction kvs as [|[k v] kvs IH]; intros acc Hnd; simpl; [by rewrite app_nil_r|].
  assert (Hk : k ∉ map fst acc).
  { rewrite map_app in Hnd. apply NoDup_app in Hnd as (_ & Hdis & _).
    intros Hin. apply (Hdis _ Hin). by left. }
  rewrite dict_insert_fresh by exact Hk.
  rewrite IH; rewrite <- app_assoc; done.
Qed.

Lemma dict_of_pairs_nodup kvs : NoDup (map fst kvs) -> dict_of_pairs kvs = kvs.
Proof. intros H. apply (fold_dict_insert []). exact H. Qed.

(** ** One step of the parser on each kind of input *)

Lemma pv_string n t :
  parse_value (S n) (34 :: t) =
  match scan_string t with Ok (x, r) => Ok (PStr x, r) | Raise e => Raise e end.
Proof. reflexivity. Qed.

Lemma pv_list n ni s :
  Forall (fun c => is_ws c = true) ni ->
  (exists c t, s = c :: t /\ value_start c = true) ->
  parse_value (S n) (91 :: ni ++ s) =
  match parse_elems n s with Ok (xs, r) => Ok (PList xs, r) | Raise e => Raise e end.
Proof.
  intros Hni [c [t [-> Hc]]]. cbn [parse_value].
  replace (skip_ws (ni ++ c :: t)) with (c :: t).
  - unfold value_start, Str.is_digit in Hc.
    replace (c =? 93) with false by (symmetry; bool_lia). reflexivity.
  - induction Hni as [|w ni Hw _ IH]; simpl.
    + symmetry. apply skip_ws_stop. unfold value_start, Str.is_digit, is_ws in *. bool_lia.
    + by rewrite Hw.
Qed.

Lemma pv_dict n ni s :
  Forall (fun c => is_ws c = true) ni ->
  (exists t, s = 34 :: t) ->
  parse_value (S n) (123 :: ni ++ s) =
  match parse_members n s with
  | Ok (kvs, r) => Ok (PDict (dict_of_pairs kvs), r) | Raise e => Raise e end.
Proof.
  intros Hni [t ->]. cbn [parse_value].
  replace (skip_ws (ni ++ 34 :: t)) with (34 :: t); [reflexivity|].
  induction Hni as [|w ni Hw _ IH]; simpl; [reflexivity | by rewrite Hw].
Qed.

Lemma pv_number n c t txt fl r :
  c = 45 \/ Str.is_digit c = true ->
  match_number (c :: t) = Some (txt, fl, r) ->
  parse_value (S n) (c :: t) =
  if fl then Ok (PFloat txt, r)
  else match int_of_text txt with Ok v => Ok (v, r) | Raise e => Raise e end.
Proof.
  intros Hc Hm. unfold Str.is_digit in Hc. cbn [parse_value].
  replace (c =? 34) with false by (symmetry; bool_lia).
  replace (c =? 123) with false by (symmetry; bool_lia).
  replace (c =? 91) with false by (symmetry; bool_lia).
  change (Str.lit "null") with [110; 117; 108; 108].
  change (Str.lit "true") with [116; 114; 117; 101].
  change (Str.lit "false") with [102; 97; 108; 115; 101].
  cbn [Str.startswith].
  replace (110 =? c) with false by (symmetry; bool_lia).
  replace (116 =? c) with false by (symmetry; bool_lia).
  replace (102 =? c) with false by (symmetry; bool_lia).
  cbn [andb]. rewrite Hm. by destruct fl.
Qed.

Lemma pe_step n s :
  parse_elems (S n) s =
  match parse_value n s with
  | Raise e => Raise e
  | Ok (v, r) =>
      match skip_ws r with
      | c :: t =>
          if c =? 93 then Ok ([v], t)
          else if c =? 44 then
            match parse_elems n (skip_ws t) with
            | Ok (vs, r') => Ok (v :: vs, r')
            | Raise e => Raise e
            end
          else err
      | [] => err
      end
  end.
Proof. reflexivity. Qed.

Lemma pm_step n t :
  parse_members (S n) (34 :: t) =
  match scan_string t with
  | Raise e => Raise e
  | Ok (k, r) =>
      match skip_ws r with
      | c2 :: t2 =>
          if c2 =? 58 then
            match parse_value n (skip_ws t2) with
            | Raise e => Raise e
            | Ok (v, r2) =>
                match skip_ws r2 with
                | c3 :: t3 =>
                    if c3 =? 125 then Ok ([(k, v)], t3)
                    else if c3 =? 44 then
                      match parse_members n (skip_ws t3) with
                      | Ok (kvs, r3) => Ok ((k, v) :: kvs, r3)
                      | Raise e => Raise e
                      end
                    else err
                | [] => err
                end
            end
          else err
      | [] => err
      end
  end.
Proof. reflexivity. Qed.

(** ** Reading back a value *)

Lemma num_stop_ni lvl r : num_stop (newline_indent lvl ++ r).
Proof. simpl. repeat split; discriminate. Qed.

Lemma num_stop_comma r : num_stop (44 :: r).
Proof. simpl. repeat split; discriminate. Qed.

Lemma ni_ws lvl : Forall (fun c => is_ws c = true) (newline_indent lvl).
Proof.
  unfold newline_indent. constructor; [reflexivity|].
  induction lvl; simpl; repeat constructor; auto.
Qed.

Lemma skip_ws_member lvl kv s : skip_ws (member lvl kv ++ s) = member lvl kv ++ s.
Proof. reflexivity. Qed.

Section Loops.
Variable lvl : nat.

Lemma parse_elems_enc x xs n r :
    Forall (fun y => json_ok y = true /\ reads_back (S lvl) y) (x :: xs) ->
    (sum_list_with (fun y => fuel y + 1)%nat (x :: xs) <= n)%nat ->
    parse_elems n (enc (S lvl) x ++
      concat (map (fun y => (44 :: newline_indent (S lvl)) ++ enc (S lvl) y) xs) ++
      newline_indent lvl ++ [93] ++ r) = Ok (x :: xs, r).
  Proof.
    revert x n; induction xs as [|y xs IH]; intros x n Hall Hn;
      apply Forall_cons in Hall as [[Hokx Hx] Hrest]; simpl in Hn;
      (destruct n as [|n]; [lia|]); rewrite pe_step.
    - cbn [map concat app]. rewrite Hx by (lia || apply num_stop_ni).
      rewrite skip_ws_ni. reflexivity.
    - cbn [map concat]. rewrite <- app_assoc.
      rewrite Hx by (lia || apply num_stop_comma).
      cbn [app]. rewrite skip_ws_stop by reflexivity.
      cbn -[skip_ws enc newline_indent concat map parse_elems].
      rewrite <- app_assoc, skip_ws_ni.
      apply Forall_cons in Hrest as [[Hoky Hy] Hrest'].
      rewrite skip_ws_enc by exact Hoky.
      rewrite IH; [reflexivity | constructor; auto | simpl; lia].
  Qed.

Lemma parse_members_enc kv kvs n r :
    Forall (fun kv => str_ok kv.1 && json_ok kv.2 = true /\ reads_back (S lvl) kv.2) (kv :: kvs) ->
    (sum_list_with (fun kv => fuel kv.2 + 1)%nat (kv :: kvs) <= n)%nat ->
    parse_members n (member (S lvl) kv ++
      concat (map (fun kv => (44 :: newline_indent (S lvl)) ++ member (S lvl) kv) kvs) ++
      newline_indent lvl ++ [125] ++ r) = Ok (kv :: kvs, r).
  Proof.
    revert kv n; induction kvs as [|kv' kvs IH]; intros [k x] n Hall Hn;
      apply Forall_cons in Hall as [[Hokx Hx] Hrest]; simpl in Hn;
      (destruct n as [|n]; [lia|]);
      cbn [fst snd] in Hokx, Hx; apply andb_true_iff in Hokx as [_ Hokx];
      unfold member at 1; unfold encode_basestring; cbn [fst snd];
      rewrite <- !app_assoc; cbn [app]; rewrite pm_step, <- !app_assoc; cbn [app];
      rewrite scan_encoded; cbn [skip_ws is_ws orb N.eqb Pos.eqb];
      cbn -[skip_ws enc newline_indent concat map parse_value parse_members member];
      rewrite skip_ws_enc by exact Hokx.
    - cbn [map concat app]. rewrite Hx by (lia || apply num_stop_ni).
      rewrite skip_ws_ni. reflexivity.
    - cbn [map concat]. rewrite <- app_assoc.
      rewrite Hx by (lia || apply num_stop_comma).
      cbn [app]. rewrite skip_ws_stop by reflexivity.
      cbn -[skip_ws enc newline_indent concat map parse_members member].
      rewrite <- app_assoc, skip_ws_ni, skip_ws_member.
      apply Forall_cons in Hrest as [Hkv' Hrest'].
      rewrite IH; [reflexivity | constructor; auto | simpl in *; lia].
  Qed.
End Loops.

Lemma str_of_Z_head z :
  exists c t, Str.str_of_Z z = c :: t /\ (c = 45 \/ Str.is_digit c = true).
Proof.
  destruct z as [|p|p]; [exists 48, []; split; [reflexivity | by right] | |
    exists 45, (Str.dec (Npos p)); split; [reflexivity | by left]].
  destruct (Str.dec_head (Npos p)) as [d [ds [Hdec Hd]]]; [lia|].
  exists d, ds. split; [exact Hdec|]. right. unfold Str.is_digit. bool_lia.
Qed.

Lemma enc_list_app lvl x xs r :
  enc lvl (PList (x :: xs)) ++ r =
  91 :: newline_indent (S lvl) ++ enc (S lvl) x ++
  concat (map (fun y => (44 :: newline_indent (S lvl)) ++ enc (S lvl) y) xs) ++
  newline_indent lvl ++ [93] ++ r.
Proof. rewrite enc_list. cbn [app]. rewrite <- !app_assoc. reflexivity. Qed.

Lemma enc_dict_app lvl kv kvs r :
  enc lvl (PDict (kv :: kvs)) ++ r =
  123 :: newline_indent (S lvl) ++ member (S lvl) kv ++
  concat (map (fun kv => (44 :: newline_indent (S lvl)) ++ member (S lvl) kv) kvs) ++
  newline_indent lvl ++ [125] ++ r.
Proof. rewrite enc_dict. cbn [app]. rewrite <- !app_assoc. reflexivity. Qed.

(** Every value accepted by [json_ok] is read back from its text. *)
Lemma parse_enc v : json_ok v = true -> forall lvl, reads_back lvl v.
Proof.
  induction v as [|b|z|t|s|xs IH|kvs IH] using pyval_ind_deep;
    intros Hok lvl n r Hn Hr; (destruct n as [|n]; [simpl in Hn; lia|]).
  - reflexivity.
  - destruct b; reflexivity.
  - unfold enc. cbn [iterencode scalar_text concat]. rewrite app_nil_r.
    destruct (str_of_Z_head z) as [c [t [Hz Hc]]].
    pose proof (match_number_int z r Hr) as Hm. rewrite Hz in *.
    rewrite (pv_number _ _ _ _ _ _ Hc Hm), <- Hz, int_of_text_str; [reflexivity|].
    apply Nat.leb_le. exact Hok.
  - discriminate.
  - unfold enc. cbn [iterencode scalar_text concat]. rewrite app_nil_r.
    unfold encode_basestring. cbn [app]. rewrite <- app_assoc. cbn [app].
    rewrite pv_string, scan_encoded. reflexivity.
  - destruct xs as [|x xs]; [reflexivity|].
    cbn [json_ok] in Hok. apply forallb_Forall in Hok.
    pose proof (Forall_and_inv _ _ _ Hok IH) as Hall.
    inversion Hall as [|? ? [Hokx _] _]; subst.
    rewrite enc_list_app, pv_list.
    + rewrite parse_elems_enc; [reflexivity| |simpl in Hn |- *; lia].
      eapply Forall_impl; [exact Hall|]. intros y [Hy IHy]. split; [exact Hy | by apply IHy].
    + apply ni_ws.
    + destruct (enc_first (S lvl) x Hokx) as [c [t [-> Hc]]]. eauto.
  - destruct kvs as [|kv kvs]; [reflexivity|].
    cbn [json_ok] in Hok. apply andb_true_iff in Hok as [Hnd Hok].
    apply bool_decide_eq_true in Hnd. apply forallb_Forall in Hok.
    pose proof (Forall_and_inv _ _ _ Hok IH) as Hall.
    rewrite enc_dict_app, pv_dict.
    + rewrite parse_members_enc.
      * rewrite dict_of_pairs_nodup by exact Hnd. reflexivity.
      * eapply Forall_impl; [exact Hall|]. intros [k y] [Hy IHy]. split; [exact Hy|].
        apply IHy. cbn in Hy. by apply andb_true_iff in Hy as [_ Hy].
      * simpl in Hn |- *. lia.
    + apply ni_ws.
    + eexists. reflexivity.
Qed.

(** ** The fuel [loads] gives is enough *)

Lemma length_ni lvl : (1 <= length (newline_indent lvl))%nat.
Proof. simpl. lia. Qed.

Lemma sum_fuel_le {A} (f : A -> nat) (g : A -> pystr) (ni : pystr) (xs : list A) :
  Forall (fun y => (f y <= length (g y))%nat) xs ->
  (sum_list_with (fun y => f y + 1) xs <= length (concat (map (fun y => (44%N :: ni) ++ g y) xs)))%nat.
Proof.
  induction 1 as [|y xs Hy _ IH]; cbn [map concat sum_list_with]; [simpl; lia|].
  rewrite !length_app. cbn [length]. lia.
Qed.

Lemma fuel_le_length v : json_ok v = true -> forall lvl, (fuel v <= length (enc lvl v))%nat.
Proof.
  induction v as [|b|z|t|s|xs IH|kvs IH] using pyval_ind_deep; intros Hok lvl;
    try (destruct (enc_first lvl _ Hok) as [c [t' [-> _]]]; simpl; lia).
  - destruct xs as [|x xs]; [simpl; lia|].
    cbn [json_ok] in Hok. apply forallb_Forall in Hok.
    pose proof (Forall_and_inv _ _ _ Hok IH) as Hall. apply Forall_cons in Hall as [[Hx IHx] Hall].
    rewrite enc_list. cbn [fuel sum_list_with length]. rewrite !length_app.
    pose proof (IHx Hx (S lvl)). pose proof (length_ni (S lvl)).
    assert (Forall (fun y => (fuel y <= length (enc (S lvl) y))%nat) xs) as HF.
    { eapply Forall_impl; [exact Hall|]. intros y [Hy IHy]. by apply IHy. }
    pose proof (sum_fuel_le fuel (enc (S lvl)) (newline_indent (S lvl)) xs HF). lia.
  - destruct kvs as [|kv kvs]; [simpl; lia|].
    cbn [json_ok] in Hok. apply andb_true_iff in Hok as [_ Hok]. apply forallb_Forall in Hok.
    pose proof (Forall_and_inv _ _ _ Hok IH) as Hall. apply Forall_cons in Hall as [[Hx IHx] Hall].
    apply andb_true_iff in Hx as [_ Hx].
    rewrite enc_dict. cbn [fuel sum_list_with length]. unfold member at 1. rewrite !length_app.
    pose proof (IHx Hx (S lvl)). pose proof (length_ni (S lvl)).
    assert (Forall (fun kv => (fuel kv.2 <= length (member (S lvl) kv))%nat) kvs) as HF.
    { eapply Forall_impl; [exact Hall|]. intros [k y] [Hy IHy].
      apply andb_true_iff in Hy as [_ Hy]. unfold member. rewrite !length_app.
      specialize (IHy Hy (S lvl)). simpl in *. lia. }
    pose proof (sum_fuel_le (fun kv => fuel kv.2) (member (S lvl)) (newline_indent (S lvl)) kvs HF).
    lia.
Qed.

(** ** The round trip *)

(** [json.loads(json.dumps(v, ensure_ascii=False, indent=2)) == v] for
    every value accepted by [json_ok]. *)
Theorem loads_dumps v : json_ok v = true -> loads (dumps v) = Ok v.
Proof.
  intros Hok. unfold loads, dumps, dump_chunks. fold (enc 0 v).
  destruct (enc_first 0 v Hok) as [c [t [He Hc]]].
  replace (Str.startswith [65279] (enc 0 v)) with false.
  2:{ rewrite He. cbn [Str.startswith]. unfold value_start, Str.is_digit in Hc.
      symmetry. bool_lia. }
  rewrite <- (app_nil_r (enc 0 v)), skip_ws_enc by exact Hok.
  rewrite (parse_enc v Hok 0); [reflexivity | | exact I].
  rewrite app_nil_r. pose proof (fuel_le_length v Hok 0). lia.
Qed.

(** ** The characters written *)

Ltac good_list :=
  repeat match goal with
  | |- Forall _ (_ ++ _) => apply Forall_app; split
  | |- Forall _ (_ :: _) => apply Forall_cons; split
  | |- Forall _ [] => constructor
  end.

Lemma hex_digit_good d : d < 16 -> goodb (hex_digit d) = true.
Proof. intros H. unfold goodb, Str.is_scalar, hex_digit. destruct (N.ltb_spec d 10); bool_lia. Qed.

Lemma escape_good c : Str.is_scalar c = true -> Forall (fun x => goodb x = true) (escape_char c).
Proof.
  intros H. unfold escape_char.
  destruct (N.eqb_spec c 92); [apply forallb_Forall; reflexivity|].
  destruct (N.eqb_spec c 34); [apply forallb_Forall; reflexivity|].
  destruct (N.eqb_spec c 8); [apply forallb_Forall; reflexivity|].
  destruct (N.eqb_spec c 12); [apply forallb_Forall; reflexivity|].
  destruct (N.eqb_spec c 10); [apply forallb_Forall; reflexivity|].
  destruct (N.eqb_spec c 13); [apply forallb_Forall; reflexivity|].
  destruct (N.eqb_spec c 9); [apply forallb_Forall; reflexivity|].
  destruct (N.ltb_spec c 32).
  - good_list; try reflexivity; apply hex_digit_good; dlia.
  - constructor; [|done]. unfold goodb. rewrite H. bool_lia.
Qed.

Lemma ni_good lvl : Forall (fun x => goodb x = true) (newline_indent lvl).
Proof.
  unfold newline_indent. constructor; [reflexivity|].
  induction lvl; simpl; [done|]. repeat constructor; auto.
Qed.

Lemma basestring_good s :
  str_ok s = true -> Forall (fun x => goodb x = true) (encode_basestring s).
Proof.
  intros Hs. unfold encode_basestring. apply forallb_Forall in Hs.
  constructor; [reflexivity|]. apply Forall_app; split; [|repeat constructor].
  apply Forall_flat_map. eapply Forall_impl; [exact Hs|]. apply escape_good.
Qed.

Lemma str_of_Z_good z : Forall (fun x => goodb x = true) (Str.str_of_Z z).
Proof.
  assert (Hd : forall n, Forall (fun x => goodb x = true) (Str.dec n)).
  { intros n. eapply Forall_impl; [apply Str.dec_digits|].
    intros c Hc. unfold goodb, Str.is_scalar. unfold Str.is_digit in Hc. bool_lia. }
  destruct z as [|p|p]; [apply (Hd 0) | apply (Hd (Npos p)) | constructor; [reflexivity | apply Hd]].
Qed.

Lemma enc_good v : json_ok v = true -> forall lvl, Forall (fun x => goodb x = true) (enc lvl v).
Proof.
  induction v as [|b|z|t|s|xs IH|kvs IH] using pyval_ind_deep; intros Hok lvl;
    try discriminate; try (destruct b); try (apply forallb_Forall; reflexivity).
  - unfold enc. cbn [iterencode scalar_text concat]. rewrite app_nil_r.
    apply str_of_Z_good.
  - unfold enc. cbn [iterencode scalar_text concat]. rewrite app_nil_r. by apply basestring_good.
  - destruct xs as [|x xs]; [apply forallb_Forall; reflexivity|].
    cbn [json_ok] in Hok. apply forallb_Forall in Hok.
    pose proof (Forall_and_inv _ _ _ Hok IH) as Hall.
    rewrite enc_list. constructor; [reflexivity|]. good_list; try apply ni_good; try reflexivity.
    + apply Forall_cons in Hall as [[Hx IHx] _]. by apply IHx.
    + apply Forall_concat_map. apply Forall_cons in Hall as [_ Hall].
      eapply Forall_impl; [exact Hall|]. intros y [Hy IHy].
      good_list; first [reflexivity | apply ni_good | by apply IHy].
  - destruct kvs as [|kv kvs]; [apply forallb_Forall; reflexivity|].
    cbn [json_ok] in Hok. apply andb_true_iff in Hok as [_ Hok]. apply forallb_Forall in Hok.
    pose proof (Forall_and_inv _ _ _ Hok IH) as Hall.
    assert (Hm : forall kv, (str_ok kv.1 && json_ok kv.2 = true) /\
                  (json_ok kv.2 = true -> forall lvl, Forall (fun x => goodb x = true) (enc lvl kv.2)) ->
                  Forall (fun x => goodb x = true) (member (S lvl) kv)).
    { intros [k y] [Hy IHy]. apply andb_true_iff in Hy as [Hk Hy]. unfold member.
      good_list; [by apply basestring_good | reflexivity | reflexivity | by apply IHy]. }
    rewrite enc_dict. constructor; [reflexivity|]. good_list; try apply ni_good; try reflexivity.
    + apply Forall_cons in Hall as [Hkv _]. by apply Hm.
    + apply Forall_concat_map. apply Forall_cons in Hall as [_ Hall].
      eapply Forall_impl; [exact Hall|]. intros kv' Hkv'.
      good_list; first [reflexivity | apply ni_good | by apply Hm].
Qed.

(** The text [json.dump] writes can be encoded in UTF-8, and the newline
    translation of a text-mode read leaves it unchanged. *)
Lemma dumps_scalar v :
  json_ok v = true -> Forall (fun c => Str.is_scalar c = true) (dumps v).
Proof.
  intros Hok. eapply Forall_impl; [apply (enc_good v Hok 0)|].
  intros c Hc. unfold goodb in Hc. by apply andb_true_iff in Hc as [Hc _].
Qed.

Lemma dumps_no_cr v : json_ok v = true -> 13 ∉ dumps v.
Proof.
  intros Hok Hin. pose proof (enc_good v Hok 0) as H. unfold dumps, dump_chunks in Hin.
  apply Forall_forall with (x := 13) in H; [discriminate | exact Hin].
Qed.

(** ** The [json] module as the storage layer sees it *)

#[export] Instance json_lib_laws : @JsonLibLaws json_lib.
Proof.
  split; intros v Hok; simpl.
  - by apply loads_dumps.
  - by apply dumps_scalar.
  - by apply dumps_no_cr.
Qed.

End Json.
