(* ===== verification/World.v ===== *)
(** * The process state and the library calls that touch it

    The program runs as one process; its state is a [world]: the
    [Database] object of [main()] (the only object whose attributes change),
    the file system, what has been printed, the lines still to be typed on
    standard input, and the clock.  This file gives the library calls the
    program makes on it: [print], [input], [datetime.now()],
    [os.path.exists], reading a text file opened with [encoding='utf-8']
    (strict UTF-8 decoding and universal newlines), and writing one with
    [open(..., 'w')], whose strings are encoded one [write] call at a time,
    so that an unencodable string leaves the file truncated after the
    strings written before it.

    Output is kept as the list of the program's [print] calls, each
    constructor standing for one call site of the sources with the values it
    interpolates.  Interrupts ([Ctrl-C]) are modelled where the program
    waits for input, as an [input] item. *)

From stdpp Require Import base list gmap sets strings.
From Stdlib Require Import ZArith NArith Lia.
From S2P Require Import Prelude PyStr PyObj Utf8.

(** ** [datetime] *)

Record datetime := mk_datetime {
  year : Z; month : Z; day : Z; hour : Z; minute : Z; second : Z
}.

(** ** The file system *)

(** The bytes of every file, the paths that exist but cannot be opened for
    reading (no permission, a directory), and the paths that cannot be
    opened for writing. *)
Record fsys := mk_fsys {
  files : gmap string (list N);
  unreadable : gset string;
  unwritable : gset string
}.

(** ** Console *)

(** The prompts of the [input] calls of [main.py]. *)
Inductive prompt := PChoice | PNoteText | PNoteNumber | PKeyword.

(** What a [print] call writes, by call site. *)
Inductive msg :=
| MLoadError (e : exc)                     (* database.py:37 *)
| MSaveError (e : exc)                     (* database.py:56 *)
| MEmptyText                               (* utils.py:39 *)
| MAdded (n : Z)                           (* utils.py:45 *)
| MListEmpty                               (* utils.py:59 *)
| MListHeader                              (* utils.py:62-64 *)
| MItemHead (i : Z) (created : pyval)      (* utils.py:67 and 148 *)
| MItemText (text : pyval)                 (* utils.py:68 and 149 *)
| MListFooter (n : Z)                      (* utils.py:70-71 *)
| MDeleted (n : Z)                         (* utils.py:89 *)
| MNotFound (n : Z)                        (* utils.py:92 *)
| MNothingFound                            (* utils.py:140 *)
| MSearchHeader (n : Z)                    (* utils.py:143-145 *)
| MRule                                    (* utils.py:151 *)
| MWelcome                                 (* main.py:88 *)
| MLoaded (n : Z)                          (* main.py:94 *)
| MMenu                                    (* main.py:12-22 *)
| MPrompt (p : prompt)                     (* the prompt of input() *)
| MAddTitle                                (* main.py:32 *)
| MInvalidNumber                           (* main.py:63 *)
| MCancelled                               (* main.py:65 *)
| MSearchTitle                             (* main.py:75 *)
| MEmptyKeyword                            (* main.py:79 *)
| MGoodbye                                 (* main.py:115 and 122 *)
| MInvalidChoice                           (* main.py:119 *)
| MError (e : exc).                        (* main.py:126 *)

(** A line typed at the terminal, or [Ctrl-C] while [input] waits. *)
Inductive input_item := Line (s : pystr) | CtrlC.

(** ** The [Database] object and the world *)

Record Database := mkDatabase { filename : string; notes : pyval }.

Record world := mk_world {
  w_db : Database;
  w_fs : fsys;
  w_out : list msg;
  w_in : list input_item;
  w_now : datetime
}.

Definition set_db (d : Database) (w : world) : world :=
  mk_world d (w_fs w) (w_out w) (w_in w) (w_now w).
Definition set_fs (fs : fsys) (w : world) : world :=
  mk_world (w_db w) fs (w_out w) (w_in w) (w_now w).
Definition set_out (o : list msg) (w : world) : world :=
  mk_world (w_db w) (w_fs w) o (w_in w) (w_now w).
Definition set_in (i : list input_item) (w : world) : world :=
  mk_world (w_db w) (w_fs w) (w_out w) i (w_now w).

Abbreviation PyW := (PyM world).

Local Open Scope py_scope.

(** ** Library calls *)

(** [print(...)] *)
Definition print (m : msg) : PyW unit := modify (fun w => set_out (w_out w ++ [m]) w).

(** [input(prompt)]: the prompt is written, then a line is read; at the
    end of input [EOFError] is raised. *)
Definition input (p : prompt) : PyW pystr :=
  print (MPrompt p) ;;
  fun w =>
    match w_in w with
    | [] => (Raise EOFError, w)
    | Line s :: rest => (Ok s, set_in rest w)
    | CtrlC :: rest => (Raise KeyboardInterrupt, set_in rest w)
    end.

(** [datetime.now()] *)
Definition now : PyW datetime := gets w_now.

(** [os.path.exists(fn)] *)
Definition path_exists (fn : string) : PyW bool :=
  gets (fun w => bool_decide (is_Some (files (w_fs w) !! fn))).

(** Universal newlines: [\r\n] and a lone [\r] are read as [\n]. *)
Fixpoint translate_newlines (s : pystr) : pystr :=
  match s with
  | [] => []
  | c :: s' =>
      if (c =? 13)%N then
        match s' with
        | d :: s'' => if (d =? 10)%N then 10%N :: translate_newlines s'' else 10%N :: translate_newlines s'
        | [] => [10%N]
        end
      else c :: translate_newlines s'
  end.

(** [open(fn, 'r', encoding='utf-8').read()] *)
Definition read_text (fn : string) : PyW pystr :=
  fun w =>
    match files (w_fs w) !! fn with
    | None => (Raise OSError, w)
    | Some bytes =>
        if bool_decide (fn ∈ unreadable (w_fs w)) then (Raise OSError, w)
        else match Utf8.decode bytes with
             | Ok s => (Ok (translate_newlines s), w)
             | Raise e => (Raise e, w)
             end
    end.

(** The bytes written for the strings [chunks], one [write] call each, and
    the error of the first string that cannot be encoded. *)
Fixpoint encode_chunks (chunks : list pystr) : list N * option exc :=
  match chunks with
  | [] => ([], None)
  | c :: rest =>
      match Utf8.encode c with
      | Raise e => ([], Some e)
      | Ok bs => let '(more, err) := encode_chunks rest in (bs ++ more, err)
      end
  end.

(** [with open(fn, 'w', encoding='utf-8') as f: for c in chunks: f.write(c)]:
    opening truncates the file; the bytes of the strings written before an
    encoding error are flushed when the [with] block closes the file. *)
Definition write_text (fn : string) (chunks : list pystr) : PyW unit :=
  fun w =>
    if bool_decide (fn ∈ unwritable (w_fs w)) then (Raise OSError, w)
    else
      let '(bytes, err) := encode_chunks chunks in
      let fs := w_fs w in
      let w' := set_fs (mk_fsys (<[fn := bytes]> (files fs)) (unreadable fs) (unwritable fs)) w in
      match err with
      | None => (Ok tt, w')
      | Some e => (Raise e, w')
      end.

(** ** Lemmas *)

Lemma translate_newlines_id s : (13%N) ∉ s -> translate_newlines s = s.
Proof.
  induction s as [|c s IH]; intros Hs; simpl; [done|].
  rewrite elem_of_cons in Hs.
  destruct (N.eqb_spec c 13); [subst; exfalso; tauto|]. f_equal. apply IH. tauto.
Qed.

Lemma encode_chunks_ok chunks bs :
  Utf8.encode (concat chunks) = Ok bs -> encode_chunks chunks = (bs, None).
Proof.
  revert bs; induction chunks as [|c chunks IH]; intros bs; simpl.
  - by intros [= <-].
  - rewrite Utf8.encode_app.
    destruct (Utf8.encode c), (Utf8.encode (concat chunks)) eqn:E; try discriminate.
    intros [= <-]. by rewrite (IH _ eq_refl).
Qed.

(** An encoding error leaves the bytes of the strings before it. *)
Lemma encode_chunks_err pre c post bs e :
  Utf8.encode (concat pre) = Ok bs -> Utf8.encode c = Raise e ->
  encode_chunks (pre ++ c :: post) = (bs, Some e).
Proof.
  intros Hpre Hc. revert bs Hpre; induction pre as [|p pre IH]; intros bs; simpl.
  - intros [= <-]. by rewrite Hc.
  - rewrite Utf8.encode_app.
    destruct (Utf8.encode p), (Utf8.encode (concat pre)) eqn:E; try discriminate.
    intros [= <-]. by rewrite (IH _ eq_refl).
Qed.

(** A string that cannot be encoded makes the whole text unencodable. *)
Lemma encode_concat_raise pre c post e :
  Utf8.encode c = Raise e -> forall bs, Utf8.encode (concat (pre ++ c :: post)) <> Ok bs.
Proof.
  intros Hc bs. rewrite concat_app, concat_cons, !Utf8.encode_app, Hc.
  by destruct (Utf8.encode (concat pre)), (Utf8.encode (concat post)).
Qed.

Section WriteText.
Context (fn : string) (chunks : list pystr) (w : world).
Hypothesis Hw : fn ∉ unwritable (w_fs w).
Hypothesis Hscalar : Forall (fun c => Str.is_scalar c = true) (concat chunks).

Lemma write_text_ok :
  exists bs, Utf8.encode (concat chunks) = Ok bs /\
  write_text fn chunks w =
    (Ok tt, set_fs (mk_fsys (<[fn := bs]> (files (w_fs w)))
                            (unreadable (w_fs w)) (unwritable (w_fs w))) w).
Proof.
  destruct (proj2 (Utf8.encode_ok_iff _) Hscalar) as [bs Hbs].
  exists bs. split; [done|]. unfold write_text.
  rewrite bool_decide_eq_false_2 by done. by rewrite (encode_chunks_ok _ _ Hbs).
Qed.

End WriteText.

(** ** The exceptions the library calls raise *)

Lemma print_not_exit m : raises_in not_exit (print m).
Proof. apply raises_in_modify. Qed.

Lemma input_not_exit p : raises_in not_exit (input p).
Proof. intros w. cbv [input bind print modify set_out]. cbn. by destruct (w_in w) as [|[]]. Qed.

Lemma read_text_not_exit fn : raises_in not_exit (read_text fn).
Proof.
  intros w. unfold read_text. destruct (files (w_fs w) !! fn) as [bs|]; [|exact I].
  destruct (bool_decide (fn ∈ unreadable (w_fs w))); [exact I|].
  destruct (Utf8.decode bs) eqn:E; [exact I|].
  simpl. by rewrite (Utf8.decode_raise _ _ E).
Qed.

Lemma encode_chunks_exc chunks bs e : encode_chunks chunks = (bs, Some e) -> e = UnicodeEncodeError.
Proof.
  revert bs; induction chunks as [|c chunks IH]; intros bs; simpl; [congruence|].
  destruct (Utf8.encode c) eqn:E.
  - destruct (encode_chunks chunks) as [b [e'|]] eqn:Ec; intros [= _ <-]; eauto.
  - intros [= _ <-]. by apply Utf8.encode_raise with c.
Qed.

Lemma write_text_not_exit fn chunks : raises_in not_exit (write_text fn chunks).
Proof.
  intros w. unfold write_text. destruct (bool_decide _); [exact I|].
  destruct (encode_chunks chunks) as [bs [e|]] eqn:E; simpl; [|exact I].
  by rewrite (encode_chunks_exc _ _ _ E).
Qed.

#[export] Hint Resolve print_not_exit input_not_exit read_text_not_exit write_text_not_exit : notes.
