(* ===== verification/Database.v ===== *)
(** * [database.py]: the [Database] class

    The methods of [class Database] as statements of the program monad over
    the [world], in a Section over an implementation of the [json] interface
    [JsonLib] (its laws [JsonLibLaws] where a theorem needs them); the
    [json] module of [Json.v] is one.  The object's attributes are the
    [Database] record of the world ([filename], [notes]); [self.notes] is
    whatever value [json.load] returned, so every method is modelled on
    every value, with the exceptions Python raises.

    The theorems give each method's behaviour on each branch, the store
    invariant (the notes are a list of note dicts and the file holds their
    dump) and its preservation, the persistence round trip (what [save]
    wrote, [load] reads back), and the error paths: a file that cannot be
    written, decoded or parsed, a JSON value that is not a list, and a
    note that UTF-8 cannot encode, which leaves the file truncated. *)

From stdpp Require Import base list gmap sets strings.
From Stdlib Require Import ZArith NArith Lia.
From S2P Require Import Prelude PyStr PyObj Utf8 JsonEncode JsonDecode Json World.

Module Db.

Local Open Scope py_scope.

Section Methods.
Context `{JsonLib}.

  (** [Database(filename)]: [__init__] *)
Definition init (fn : string) : Database := mkDatabase fn (PList []).

  (** [self.notes = v] *)
Definition set_notes (v : pyval) : PyW unit :=
    modify (fun w => set_db (mkDatabase (filename (w_db w)) v) w).

  (** [load()] *)
Definition load : PyW pyval :=
    d <- gets w_db ;;
    ex <- path_exists (filename d) ;;
    if ex then
      try_except
        (txt <- read_text (filename d) ;;
         v <- lift (json_loads txt) ;;
         set_notes v ;;
         ret v)
        [CJSONDecodeError; COSError]
        (fun e => print (MLoadError e) ;; set_notes (PList []) ;; ret (PList []))
    else set_notes (PList []) ;; ret (PList []).

  (** [save()] *)
Definition save : PyW bool :=
    d <- gets w_db ;;
    try_except
      (write_text (filename d) (json_dump_chunks (notes d)) ;; ret true)
      [COSError]
      (fun e => print (MSaveError e) ;; ret false).

  (** [get_all_notes()] *)
Definition get_all_notes : PyW pyval := gets (fun w => notes (w_db w)).

  (** [add_note(note)] *)
Definition add_note (note : pyval) : PyW unit :=
    d <- gets w_db ;;
    v <- lift (py_append (notes d) note) ;;
    set_notes v ;;
    _ <- save ;;
    ret tt.

  (** [remove_note(index)]: [0 <= index < len(self.notes)] is a chained
      comparison, so [len] is not called when [index] is negative. *)
Definition remove_note (index : Z) : PyW bool :=
    if (0 <=? index)%Z then
      d <- gets w_db ;;
      n <- lift (py_len (notes d)) ;;
      if (index <? n)%Z then
        v <- lift (py_pop (notes d) index) ;;
        set_notes v ;;
        _ <- save ;;
        ret true
      else ret false
    else ret false.

  (** [clear_all()] *)
Definition clear_all : PyW unit :=
    set_notes (PList []) ;; _ <- save ;; ret tt.

  (** [get_notes_count()] *)
Definition get_notes_count : PyW Z :=
    d <- gets w_db ;; lift (py_len (notes d)).
End Methods.

(** ** The store invariant *)

(** [self.notes] is a list of values that [json] writes back faithfully. *)
Definition store_ok (v : pyval) : bool :=
  match v with PList xs => forallb json_ok xs | _ => false end.

Section Invariant.
Context `{JsonLib}.

  (** The notes file holds the dump of [self.notes]; before the first
      [save], there is no file and no note. *)
Definition synced (w : world) : Prop :=
    let d := w_db w in
    match files (w_fs w) !! filename d with
    | Some bs => Utf8.encode (concat (json_dump_chunks (notes d))) = Ok bs
    | None => notes d = PList []
    end.

  (** The file can be opened for reading and for writing. *)
Definition fs_ok (w : world) : Prop :=
    (filename (w_db w) ∉ unwritable (w_fs w)) /\ (filename (w_db w) ∉ unreadable (w_fs w)).

Definition db_inv (w : world) : Prop :=
    store_ok (notes (w_db w)) = true /\ synced w /\ fs_ok w.
End Invariant.

(** ** Sequences of method calls *)

(** A call of a method of the object, its result dropped. *)
Inductive call := CLoad | CSave | CGetAll | CAdd (note : pyval) | CRemove (index : Z)
                | CClear | CCount.

Definition run_call `{JsonLib} (c : call) : PyW unit :=
  match c with
  | CLoad => _ <- load ;; ret tt
  | CSave => _ <- save ;; ret tt
  | CGetAll => _ <- get_all_notes ;; ret tt
  | CAdd n => add_note n
  | CRemove i => _ <- remove_note i ;; ret tt
  | CClear => clear_all
  | CCount => _ <- get_notes_count ;; ret tt
  end.

(** The notes passed to [add_note] are values [json] writes back. *)
Definition call_ok (c : call) : bool :=
  match c with CAdd n => json_ok n | _ => true end.

(** The worlds reached from [w0] by calls that return. *)
Inductive reach `{JsonLib} (w0 : world) : world -> Prop :=
| reach_refl : reach w0 w0
| reach_step w1 c w2 :
    reach w0 w1 -> call_ok c = true -> run_call c w1 = (Ok tt, w2) -> reach w0 w2.

(** A sequence of [add_note] and [remove_note] calls, and the results of
    its [remove_note] calls. *)
Inductive op := OpAdd (note : pyval) | OpRemove (index : Z).

Fixpoint run_ops `{JsonLib} (ops : list op) : PyW (list bool) :=
  match ops with
  | [] => ret []
  | OpAdd n :: ops' => add_note n ;; run_ops ops'
  | OpRemove i :: ops' => r <- remove_note i ;; rs <- run_ops ops' ;; ret (r :: rs)
  end.

Definition adds (ops : list op) : nat :=
  length (List.filter (fun o => match o with OpAdd _ => true | _ => false end) ops).

Definition ops_ok (ops : list op) : bool :=
  forallb (fun o => match o with OpAdd n => json_ok n | _ => true end) ops.

(** The world after [self.notes = v] and a [save()] that wrote [bs]. *)
Definition saved (v : pyval) (bs : list N) (w : world) : world :=
  let fs := w_fs w in
  set_fs (mk_fsys (<[filename (w_db w) := bs]> (files fs)) (unreadable fs) (unwritable fs))
    (set_db (mkDatabase (filename (w_db w)) v) w).

(** A process at its start: the object [Database(fn)], a file system with
    at most the file [fn], nothing printed yet. *)
Definition start_world (fn : string) (file : option (list N)) (inp : list input_item)
    (t : datetime) : world :=
  mk_world (init fn)
    (mk_fsys (match file with Some bs => {[fn := bs]} | None => ∅ end) ∅ ∅) [] inp t.

Definition test_time : datetime := mk_datetime 2024 5 17 9 3 7.

(** The process started again on the file system of [w]. *)
Definition restart (w : world) : world :=
  start_world (filename (w_db w)) (files (w_fs w) !! filename (w_db w)) [] (w_now w).

(** Notes as [create_note] builds them. *)
Definition mk_note (text created : string) : pyval :=
  PDict [(Str.lit "text", PStr (Str.lit text)); (Str.lit "created", PStr (Str.lit created))].

Definition note_a : pyval := mk_note "Buy milk" "2024-05-17 09:03:07".
Definition note_b : pyval := mk_note "Call mom" "2024-05-17 09:04:11".

(** A note whose text holds a lone surrogate, as [input()] returns for a
    byte that is not UTF-8 when the terminal decodes with
    [surrogateescape] (the C and POSIX locales). *)
Definition note_bad : pyval :=
  PDict [(Str.lit "text", PStr [0xDC80%N]); (Str.lit "created", PStr (Str.lit "2024-05-17 09:05:00"))].

Definition dump_bytes `{JsonLib} (v : pyval) : list N :=
  match Utf8.encode (concat (json_dump_chunks v)) with Ok bs => bs | Raise _ => [] end.

(** ** Lemmas on the methods *)

Ltac unfold_py :=
  cbv [bind ret gets modify lift throw try_except print path_exists set_notes
       set_db set_out set_fs set_in] in *; cbn [w_db w_fs w_out w_in w_now filename notes] in *.

Section Lemmas.
Context `{JsonLibLaws}.

Lemma save_ok w :
    json_ok (notes (w_db w)) = true -> filename (w_db w) ∉ unwritable (w_fs w) ->
    exists bs, Utf8.encode (concat (json_dump_chunks (notes (w_db w)))) = Ok bs /\
               save w = (Ok true, saved (notes (w_db w)) bs w).
  Proof.
    intros Hok Hw.
    destruct (write_text_ok (filename (w_db w)) (json_dump_chunks (notes (w_db w))) w Hw
                (json_dump_scalar _ Hok)) as [bs [Hbs Hwr]].
    exists bs. split; [done|]. unfold save. unfold_py. rewrite Hwr.
    destruct w as [[fn v] fs o i t]. reflexivity.
  Qed.

Lemma saved_synced v bs w :
    Utf8.encode (concat (json_dump_chunks v)) = Ok bs -> synced (saved v bs w).
  Proof. intros Hbs. unfold synced, saved. simpl. by rewrite lookup_insert_eq. Qed.

Lemma saved_fs_ok v bs w : fs_ok w -> fs_ok (saved v bs w).
  Proof. done. Qed.

Lemma set_db_same w : set_db (mkDatabase (filename (w_db w)) (notes (w_db w))) w = w.
  Proof. by destruct w as [[fn v] fs o i t]. Qed.

  (** [load()] on a file that reads and parses as [v]: [self.notes = v],
      whatever [v] is. *)
Lemma load_json w bs s v :
    files (w_fs w) !! filename (w_db w) = Some bs -> filename (w_db w) ∉ unreadable (w_fs w) ->
    Utf8.decode bs = Ok s -> json_loads (translate_newlines s) = Ok v ->
    load w = (Ok v, set_db (mkDatabase (filename (w_db w)) v) w).
  Proof.
    intros Hf Hr Hs Hj. unfold load, read_text. unfold_py.
    rewrite Hf, bool_decide_eq_true_2 by eauto. rewrite bool_decide_eq_false_2 by done.
    rewrite Hf, Hs, Hj. by destruct w as [[fn v0] fs o i t].
  Qed.

  (** [load()] on a file that holds the dump of [v] sets and returns [v]. *)
Lemma load_file v bs w :
    json_ok v = true ->
    files (w_fs w) !! filename (w_db w) = Some bs ->
    filename (w_db w) ∉ unreadable (w_fs w) ->
    Utf8.encode (concat (json_dump_chunks v)) = Ok bs ->
    load w = (Ok v, set_db (mkDatabase (filename (w_db w)) v) w).
  Proof.
    intros Hok Hf Hr Hbs. apply (load_json w bs (concat (json_dump_chunks v))); [done | done | |].
    - by apply Utf8.decode_encode.
    - rewrite translate_newlines_id by (by apply json_dump_no_cr). by apply json_loads_dump.
  Qed.

  (** [load()] on a missing file. *)
Lemma load_missing w :
    files (w_fs w) !! filename (w_db w) = None ->
    load w = (Ok (PList []), set_db (mkDatabase (filename (w_db w)) (PList [])) w).
  Proof.
    intros Hf. unfold load. unfold_py. rewrite Hf. by rewrite bool_decide_eq_false_2 by (by intros [? ?]).
  Qed.

  (** [self.notes = v] followed by a [save()] that succeeds. *)
Lemma set_notes_save {A} v (k : bool -> PyW A) w :
    json_ok v = true -> filename (w_db w) ∉ unwritable (w_fs w) ->
    exists bs, Utf8.encode (concat (json_dump_chunks v)) = Ok bs /\
      bind (set_notes v) (fun _ => bind save k) w = k true (saved v bs w).
  Proof.
    intros Hok Hw.
    destruct (save_ok (set_db (mkDatabase (filename (w_db w)) v) w) Hok Hw) as [bs [Hbs Hs]].
    exists bs. split; [done|]. unfold bind at 1. cbn [set_notes modify].
    unfold bind. rewrite Hs. by destruct w as [[fn v0] fs o i t].
  Qed.

  (** [save()] when a string of the dump cannot be encoded: the strings
      before it have been written to the truncated file, and the
      [UnicodeEncodeError] is not caught by [except IOError]. *)
Lemma save_unencodable w pre c post bs e :
    json_dump_chunks (notes (w_db w)) = pre ++ c :: post ->
    Utf8.encode (concat pre) = Ok bs -> Utf8.encode c = Raise e ->
    filename (w_db w) ∉ unwritable (w_fs w) ->
    save w = (Raise e, saved (notes (w_db w)) bs w).
  Proof.
    intros Hch Hpre Hc Hw. pose proof (Utf8.encode_raise _ _ Hc) as ->.
    unfold save, write_text. unfold_py. rewrite bool_decide_eq_false_2 by done.
    rewrite Hch, (encode_chunks_err _ _ _ _ _ Hpre Hc).
    by destruct w as [[fn v] fs o i t].
  Qed.

  (** [self.notes = v] followed by a [save()] that fails so. *)
Lemma set_notes_save_err {A} v (k : bool -> PyW A) w pre c post bs e :
    json_dump_chunks v = pre ++ c :: post ->
    Utf8.encode (concat pre) = Ok bs -> Utf8.encode c = Raise e ->
    filename (w_db w) ∉ unwritable (w_fs w) ->
    bind (set_notes v) (fun _ => bind save k) w = (Raise e, saved v bs w).
  Proof.
    intros Hch Hpre Hc Hw.
    pose proof (save_unencodable (set_db (mkDatabase (filename (w_db w)) v) w) pre c post bs e
                  Hch Hpre Hc Hw) as Hs.
    unfold bind at 1. cbn [set_notes modify]. unfold bind. rewrite Hs.
    by destruct w as [[fn v0] fs o i t].
  Qed.

Lemma add_note_ok w xs note :
    notes (w_db w) = PList xs -> json_ok (PList (xs ++ [note])) = true ->
    filename (w_db w) ∉ unwritable (w_fs w) ->
    exists bs, Utf8.encode (concat (json_dump_chunks (PList (xs ++ [note])))) = Ok bs /\
      add_note note w = (Ok tt, saved (PList (xs ++ [note])) bs w).
  Proof.
    intros Hn Hok Hw. destruct (set_notes_save _ (fun _ => ret tt) w Hok Hw) as [bs [Hbs Hs]].
    exists bs. split; [done|]. unfold add_note, bind at 1 2. cbn [gets lift]. rewrite Hn.
    exact Hs.
  Qed.

Lemma remove_note_out_of_range w xs i :
    notes (w_db w) = PList xs -> (i < 0 \/ Z.of_nat (length xs) <= i)%Z ->
    remove_note i w = (Ok false, w).
  Proof.
    intros Hn Hi. unfold remove_note. destruct (Z.leb_spec 0 i); [|done].
    unfold bind at 1 2. cbn [gets lift]. rewrite Hn. cbn [py_len].
    destruct (Z.ltb_spec i (Z.of_nat (length xs))); [lia|done].
  Qed.

  (** [remove_note(i)] in range: [self.notes.pop(i)] then [save()]. *)
Lemma remove_note_pop w xs i :
    notes (w_db w) = PList xs -> (0 <= i < Z.of_nat (length xs))%Z ->
    remove_note i w =
      bind (set_notes (PList (delete (Z.to_nat i) xs))) (fun _ => bind save (fun _ => ret true)) w.
  Proof.
    intros Hn Hi. unfold remove_note.
    cmp_case; [|lia]. unfold bind at 1 2. cbn [gets lift]. rewrite Hn. cbn [py_len].
    cmp_case; [|lia]. unfold bind at 1. cbn [lift py_pop].
    repeat (cmp_case; try lia). reflexivity.
  Qed.

Lemma remove_note_in_range w xs i :
    notes (w_db w) = PList xs -> (0 <= i < Z.of_nat (length xs))%Z ->
    json_ok (PList (delete (Z.to_nat i) xs)) = true ->
    filename (w_db w) ∉ unwritable (w_fs w) ->
    exists bs, Utf8.encode (concat (json_dump_chunks (PList (delete (Z.to_nat i) xs)))) = Ok bs /\
      remove_note i w = (Ok true, saved (PList (delete (Z.to_nat i) xs)) bs w).
  Proof.
    intros Hn Hi Hok Hw. destruct (set_notes_save _ (fun _ => ret true) w Hok Hw) as [bs [Hbs Hs]].
    exists bs. split; [done|]. by rewrite (remove_note_pop w xs i Hn Hi).
  Qed.

Lemma remove_note_unencodable w xs i pre c post bs e :
    notes (w_db w) = PList xs -> (0 <= i < Z.of_nat (length xs))%Z ->
    json_dump_chunks (PList (delete (Z.to_nat i) xs)) = pre ++ c :: post ->
    Utf8.encode (concat pre) = Ok bs -> Utf8.encode c = Raise e ->
    filename (w_db w) ∉ unwritable (w_fs w) ->
    remove_note i w = (Raise e, saved (PList (delete (Z.to_nat i) xs)) bs w).
  Proof.
    intros Hn Hi Hch Hpre Hc Hw. rewrite (remove_note_pop w xs i Hn Hi).
    exact (set_notes_save_err _ _ w pre c post bs e Hch Hpre Hc Hw).
  Qed.

Lemma clear_all_ok w :
    filename (w_db w) ∉ unwritable (w_fs w) ->
    exists bs, Utf8.encode (concat (json_dump_chunks (PList []))) = Ok bs /\
      clear_all w = (Ok tt, saved (PList []) bs w).
  Proof. intros Hw. exact (set_notes_save (PList []) (fun _ => ret tt) w eq_refl Hw). Qed.

Lemma store_ok_list v : store_ok v = true -> exists xs, v = PList xs /\ forallb json_ok xs = true.
  Proof. destruct v; try discriminate. eauto. Qed.

Lemma db_inv_saved v bs w :
    store_ok v = true -> Utf8.encode (concat (json_dump_chunks v)) = Ok bs -> fs_ok w ->
    db_inv (saved v bs w).
  Proof. intros Hv Hbs Hfs. unfold db_inv. split_and!; [done | by apply saved_synced | done]. Qed.

  (** Under the invariant, [load()] gives back the notes in memory. *)
Lemma load_inv w : db_inv w -> load w = (Ok (notes (w_db w)), w).
  Proof.
    intros (Hv & Hs & Hw & Hr). unfold synced in Hs.
    destruct (files (w_fs w) !! filename (w_db w)) as [bs|] eqn:Hf.
    - assert (json_ok (notes (w_db w)) = true) as Hok
        by (destruct (store_ok_list _ Hv) as [xs [-> ?]]; done).
      rewrite (load_file (notes (w_db w)) bs w) by done.
      by rewrite set_db_same.
    - rewrite (load_missing w Hf), <- Hs. by rewrite set_db_same.
  Qed.

Lemma store_ok_json v : store_ok v = true -> json_ok v = true.
  Proof. by destruct v. Qed.

Lemma forallb_delete {A} (f : A -> bool) xs i :
    forallb f xs = true -> forallb f (delete i xs) = true.
  Proof. rewrite !forallb_Forall. apply Forall_delete. Qed.

Local Ltac saved_inv := split_and!; [apply db_inv_saved; simpl; done | done ..].

  (** Every call made under the invariant returns, prints nothing, reads no
      input, and keeps the invariant. *)
Lemma db_inv_step w c :
    db_inv w -> call_ok c = true ->
    exists w', run_call c w = (Ok tt, w') /\ db_inv w' /\
               w_out w' = w_out w /\ w_in w' = w_in w /\ filename (w_db w') = filename (w_db w).
  Proof.
    intros Hinv Hc. pose proof Hinv as (Hv & Hs & Hw & Hr).
    destruct (store_ok_list _ Hv) as [xs [Hxs Hok]].
    destruct c as [| | |n|i| |]; cbn [run_call call_ok] in *.
    - exists w. unfold bind. by rewrite load_inv.
    - destruct (save_ok w (store_ok_json _ Hv) Hw) as [bs [Hbs Hsv]].
      eexists; split; [unfold bind; by rewrite Hsv|]. saved_inv.
    - by exists w.
    - assert (Hok' : forallb json_ok (xs ++ [n]) = true)
        by (rewrite forallb_app; simpl; by rewrite Hok, Hc).
      destruct (add_note_ok w xs n Hxs Hok' Hw) as [bs [Hbs ->]].
      eexists; split; [done|]. saved_inv.
    - destruct (decide (0 <= i < Z.of_nat (length xs))%Z) as [Hi|Hi].
      + assert (Hok' : forallb json_ok (delete (Z.to_nat i) xs) = true)
          by (by apply forallb_delete).
        destruct (remove_note_in_range w xs i Hxs Hi Hok' Hw) as [bs [Hbs Hrm]].
        eexists; split; [unfold bind; by rewrite Hrm|]. saved_inv.
      + exists w. unfold bind. rewrite (remove_note_out_of_range w xs i Hxs) by lia. done.
    - destruct (clear_all_ok w Hw) as [bs [Hbs ->]].
      eexists; split; [done|]. saved_inv.
    - exists w. cbv [bind get_notes_count gets lift ret]. by rewrite Hxs.
  Qed.

  (** A sequence of adds and removes under the invariant returns, keeps the
      invariant and changes the number of notes by the adds less the
      removes that returned [True]. *)
Lemma run_ops_count ops w xs :
    db_inv w -> ops_ok ops = true -> notes (w_db w) = PList xs ->
    exists rs w' ys, run_ops ops w = (Ok rs, w') /\ db_inv w' /\ notes (w_db w') = PList ys /\
      (length ys + length (List.filter id rs) = length xs + adds ops)%nat.
  Proof.
    revert w xs; induction ops as [|[n|i] ops IH]; intros w xs Hinv Hops Hxs;
      cbn [run_ops ops_ok forallb] in *.
    - exists [], w, xs. split_and!; try done.
    - apply andb_true_iff in Hops as [Hn Hops].
      pose proof Hinv as (Hv & _ & Hw & _). rewrite Hxs in Hv; simpl in Hv.
      assert (Hok' : forallb json_ok (xs ++ [n]) = true)
        by (rewrite forallb_app; simpl; by rewrite Hv, Hn).
      destruct (add_note_ok w xs n Hxs Hok' Hw) as [bs [Hbs Had]].
      destruct (IH (saved (PList (xs ++ [n])) bs w) (xs ++ [n])) as (rs & w' & ys & Hrun & Hi & Hys & Hc);
        [apply db_inv_saved; [simpl; done | done | apply Hinv] | done | done |].
      exists rs, w', ys. split_and!; try done; [unfold bind; by rewrite Had|].
      rewrite length_app in Hc. unfold adds in *; simpl in *; lia.
    - pose proof Hinv as (Hv & _ & Hw & _). rewrite Hxs in Hv; simpl in Hv.
      destruct (decide (0 <= i < Z.of_nat (length xs))%Z) as [Hi|Hi].
      + assert (Hok' : forallb json_ok (delete (Z.to_nat i) xs) = true)
          by (by apply forallb_delete).
        destruct (remove_note_in_range w xs i Hxs Hi Hok' Hw) as [bs [Hbs Hrm]].
        destruct (IH (saved (PList (delete (Z.to_nat i) xs)) bs w) (delete (Z.to_nat i) xs))
          as (rs & w' & ys & Hrun & Hi' & Hys & Hc); [apply db_inv_saved; [simpl; done | done | apply Hinv] | done | done |].
        exists (true :: rs), w', ys. split_and!; try done; [unfold bind; by rewrite Hrm, Hrun|].
        rewrite length_delete in Hc by (apply lookup_lt_is_Some; lia). unfold adds in *; simpl in *; lia.
      + destruct (IH w xs) as (rs & w' & ys & Hrun & Hi' & Hys & Hc); try done.
        exists (false :: rs), w', ys. split_and!; try done.
        unfold bind. rewrite remove_note_out_of_range with (xs := xs) by (done || lia).
        by rewrite Hrun.
  Qed.

Lemma reach_inv w0 w : db_inv w0 -> reach w0 w -> db_inv w.
  Proof.
    intros Hw0 Hr; induction Hr as [|w1 c w2 _ IH Hc Hrun]; [done|].
    destruct (db_inv_step w1 c IH Hc) as (w' & Hrun' & Hi & _).
    rewrite Hrun in Hrun'. by injection Hrun' as <-.
  Qed.

  (** A process started on the same file system loads [v] when the file
      holds what the invariant says. *)
Lemma restart_load w w1 :
    db_inv w -> w_fs w1 = w_fs w -> filename (w_db w1) = filename (w_db w) ->
    load w1 = (Ok (notes (w_db w)), set_db (mkDatabase (filename (w_db w1)) (notes (w_db w))) w1).
  Proof.
    intros (Hv & Hs & Hw & Hr) Hfs Hfn. unfold synced in Hs.
    destruct (files (w_fs w) !! filename (w_db w)) as [bs|] eqn:Hf.
    - apply load_file with bs; [by apply store_ok_json | by rewrite Hfs, Hfn | by rewrite Hfs, Hfn | done].
    - rewrite Hs. apply load_missing. by rewrite Hfs, Hfn.
  Qed.
End Lemmas.

(** ** The exceptions the methods raise *)

Section NotExit.
Context `{JsonLib}.

Lemma set_notes_not_exit v : raises_in not_exit (set_notes v).
  Proof. apply raises_in_modify. Qed.
#[local] Hint Resolve set_notes_not_exit : notes.

Lemma save_not_exit : raises_in not_exit save.
  Proof. unfold save. eauto 10 with notes. Qed.
#[local] Hint Resolve save_not_exit : notes.

Lemma get_all_notes_not_exit : raises_in not_exit get_all_notes.
  Proof. apply raises_in_gets. Qed.

Lemma add_note_not_exit note : raises_in not_exit (add_note note).
  Proof. unfold add_note. eauto 10 with notes. Qed.

Lemma remove_note_not_exit i : raises_in not_exit (remove_note i).
  Proof. unfold remove_note. eauto 15 with notes. Qed.

Lemma clear_all_not_exit : raises_in not_exit clear_all.
  Proof. unfold clear_all. eauto 10 with notes. Qed.

Lemma get_notes_count_not_exit : raises_in not_exit get_notes_count.
  Proof. unfold get_notes_count. eauto 10 with notes. Qed.
End NotExit.


(** ** Properties *)

Section Properties.
Context `{JsonLibLaws}.

  (** C2: Round trip of the storage (spec, section 8): when [self.notes]
      is a value that [json] writes back faithfully and the file can be
      written and read, [save()] returns [True], and a process started
      afterwards on the same file system gets the same notes back from
      [load()], whatever its [Database] object held before. *)
Theorem save_then_load w :
    json_ok (notes (w_db w)) = true -> fs_ok w ->
    exists w', save w = (Ok true, w') /\
      forall w1, w_fs w1 = w_fs w' -> filename (w_db w1) = filename (w_db w) ->
        load w1 = (Ok (notes (w_db w)),
                   set_db (mkDatabase (filename (w_db w)) (notes (w_db w))) w1).
  Proof.
    intros Hok [Hw Hr]. destruct (save_ok w Hok Hw) as [bs [Hbs Hs]].
    exists (saved (notes (w_db w)) bs w). split; [done|]. intros w1 Hfs Hfn.
    rewrite <- Hfn. apply load_file with bs; [done | | by rewrite Hfs, Hfn | done].
    rewrite Hfs, Hfn. unfold saved; simpl. by rewrite lookup_insert_eq.
  Qed.

  (** C1: The store invariant and persistence: from a world where
      [self.notes] is a list of values [json] writes back faithfully and the
      file holds their dump (or is absent while there is no note), every
      further call of a method returns without an exception, and at every
      world reached this way a process restarted on the file system loads
      the notes held in memory. *)
Theorem reach_persisted w0 w :
    db_inv w0 -> reach w0 w ->
    (forall c, call_ok c = true -> exists w', run_call c w = (Ok tt, w') /\ reach w0 w') /\
    (forall w1, w_fs w1 = w_fs w -> filename (w_db w1) = filename (w_db w) ->
       fst (load w1) = Ok (notes (w_db w))).
  Proof.
    intros Hw0 Hr. pose proof (reach_inv w0 w Hw0 Hr) as Hw. split.
    - intros c Hc. destruct (db_inv_step w c Hw Hc) as (w' & Hrun & _).
      exists w'. split; [done|]. by apply reach_step with w c.
    - intros w1 Hfs Hfn. by rewrite (restart_load w w1 Hw Hfs Hfn).
  Qed.

  (** C3: The count (spec, section 8): under the store invariant, a sequence
      of [add_note] and [remove_note] calls returns, and then
      [get_notes_count()] is the count before, plus the number of adds,
      minus the number of [remove_note] calls that returned [True]. *)
Theorem count_law ops w n0 :
    db_inv w -> ops_ok ops = true -> fst (get_notes_count w) = Ok n0 ->
    exists rs w', run_ops ops w = (Ok rs, w') /\
      get_notes_count w' =
        (Ok (n0 + Z.of_nat (adds ops) - Z.of_nat (length (List.filter id rs)))%Z, w').
  Proof.
    intros Hinv Hops Hn0. pose proof Hinv as (Hv & _).
    destruct (store_ok_list _ Hv) as [xs [Hxs _]].
    destruct (run_ops_count ops w xs Hinv Hops Hxs) as (rs & w' & ys & Hrun & _ & Hys & Hc).
    exists rs, w'. split; [done|].
    cbv [get_notes_count bind gets lift] in *. rewrite Hxs in Hn0. rewrite Hys.
    cbn [py_len fst] in *. injection Hn0 as <-. do 3 f_equal. lia.
  Qed.

  (** C10: [add_note(note)] (spec, section 4.1): on a list of notes whose
      extension [json] writes back, with a writable file, it appends the
      note, rewrites the file with the new list, prints nothing and
      returns. *)
Theorem add_note_spec w xs note :
    notes (w_db w) = PList xs -> json_ok (PList (xs ++ [note])) = true ->
    filename (w_db w) ∉ unwritable (w_fs w) ->
    exists w', add_note note w = (Ok tt, w') /\ notes (w_db w') = PList (xs ++ [note]) /\
      synced w' /\ w_out w' = w_out w /\ w_in w' = w_in w.
  Proof.
    intros Hn Hok Hw. destruct (add_note_ok w xs note Hn Hok Hw) as [bs [Hbs Had]].
    eexists; split_and!; [exact Had | done | by apply saved_synced | done | done].
  Qed.

  (** C9: [remove_note(index)] (spec, sections 4.1 and 8): on a list of [n]
      notes that [json] writes back, with a writable file, when
      [0 <= index < n] it removes the note at [index], rewrites the file and
      returns [True]; otherwise, [index = n] included, it returns [False]
      and changes nothing. *)
Theorem remove_note_spec w xs i :
    notes (w_db w) = PList xs -> forallb json_ok xs = true ->
    filename (w_db w) ∉ unwritable (w_fs w) ->
    if ((0 <=? i) && (i <? Z.of_nat (length xs)))%Z
    then exists w', remove_note i w = (Ok true, w') /\
           notes (w_db w') = PList (delete (Z.to_nat i) xs) /\ synced w' /\ w_out w' = w_out w
    else remove_note i w = (Ok false, w).
  Proof.
    intros Hn Hok Hw. destruct (Z.leb_spec 0 i), (Z.ltb_spec i (Z.of_nat (length xs))); simpl.
    - destruct (remove_note_in_range w xs i Hn) as [bs [Hbs Hrm]];
        [lia | by apply forallb_delete | done |].
      eexists; split_and!; [exact Hrm | done | by apply saved_synced | done].
    - apply (remove_note_out_of_range w xs i Hn). lia.
    - apply (remove_note_out_of_range w xs i Hn). lia.
    - apply (remove_note_out_of_range w xs i Hn). lia.
  Qed.

  (** C19: [save()] when the file cannot be opened for writing: the
      [IOError] is caught, the error is printed and [save()] returns
      [False], with the file and the notes unchanged (spec, section 4.1). *)
Theorem save_unwritable w :
    filename (w_db w) ∈ unwritable (w_fs w) ->
    save w = (Ok false, set_out (w_out w ++ [MSaveError OSError]) w).
  Proof.
    intros Hw. unfold save, write_text. unfold_py. by rewrite bool_decide_eq_true_2 by done.
  Qed.

  (** C18: [load()] on a file whose text [json] rejects with
      [JSONDecodeError] prints the error and sets and returns an empty list
      (spec, section 8). *)
Theorem load_corrupt w bs s :
    files (w_fs w) !! filename (w_db w) = Some bs -> filename (w_db w) ∉ unreadable (w_fs w) ->
    Utf8.decode bs = Ok s -> json_loads (translate_newlines s) = Raise JSONDecodeError ->
    load w = (Ok (PList []), set_db (mkDatabase (filename (w_db w)) (PList []))
                               (set_out (w_out w ++ [MLoadError JSONDecodeError]) w)).
  Proof.
    intros Hf Hr Hs Hj. unfold load, read_text. unfold_py.
    rewrite Hf, bool_decide_eq_true_2 by eauto. rewrite bool_decide_eq_false_2 by done.
    by rewrite Hf, Hs, Hj.
  Qed.

  (** C13: [load()] on a file that is not valid UTF-8: the
      [UnicodeDecodeError] is not an instance of [json.JSONDecodeError] nor
      of [IOError], so it escapes [load()] with the notes left as they were,
      while the spec (section 4.1) says an unreadable or corrupt file is
      reported and replaced by an empty list without a fatal error. *)
Theorem load_undecodable w bs e :
    files (w_fs w) !! filename (w_db w) = Some bs -> filename (w_db w) ∉ unreadable (w_fs w) ->
    Utf8.decode bs = Raise e -> e = UnicodeDecodeError /\ load w = (Raise e, w).
  Proof.
    intros Hf Hr Hd. enough (e = UnicodeDecodeError) as ->.
    - split; [done|]. unfold load, read_text. unfold_py.
      rewrite Hf, bool_decide_eq_true_2 by eauto. rewrite bool_decide_eq_false_2 by done.
      rewrite Hf, Hd. by destruct w as [[fn v] fs o i t].
    - clear Hf. revert Hd. apply Utf8.decode_raise.
  Qed.
  (** C8: Data loss on an unencodable note: when a string of the dump of
      the notes with the new note cannot be encoded in UTF-8 (a lone
      surrogate, which [input()] returns for a byte that is not UTF-8 under
      [surrogateescape]), [add_note(note)] appends the note and its
      [save()] opens the file for writing, which truncates it, writes the
      strings of the dump before that one and raises [UnicodeEncodeError];
      [except IOError] does not catch it, so [add_note] raises it, and the
      file is left holding the bytes of a prefix of the dump: it is no
      longer the dump of the notes, and the notes saved before are gone
      from it. *)
Theorem add_note_unencodable w xs note pre c post bs e :
    notes (w_db w) = PList xs -> filename (w_db w) ∉ unwritable (w_fs w) ->
    json_dump_chunks (PList (xs ++ [note])) = pre ++ c :: post ->
    Utf8.encode (concat pre) = Ok bs -> Utf8.encode c = Raise e ->
    e = UnicodeEncodeError /\
    add_note note w = (Raise e, saved (PList (xs ++ [note])) bs w) /\
    ~ synced (saved (PList (xs ++ [note])) bs w).
  Proof.
    intros Hn Hw Hch Hpre Hc. split_and!.
    - by apply Utf8.encode_raise with c.
    - unfold add_note, bind at 1 2. cbn [gets lift]. rewrite Hn.
      exact (set_notes_save_err _ (fun _ => ret tt) w pre c post bs e Hch Hpre Hc Hw).
    - unfold synced, saved. simpl. rewrite lookup_insert_eq, Hch.
      apply (encode_concat_raise _ _ _ _ Hc).
  Qed.

  (** C12: A notes file whose JSON text is not an array (an object, a
      string, a number, [null], ...) is loaded without a warning: [load()]
      sets [self.notes] to that value and returns it, printing nothing, and
      every [add_note] afterwards raises [AttributeError] (only a [list]
      has [append]) and changes nothing, so no note can be added until the
      file is removed.  The spec (sections 3 and 4.1) says the file holds
      an array and a corrupt file is replaced by an empty list. *)
Theorem load_not_list w bs s v :
    files (w_fs w) !! filename (w_db w) = Some bs -> filename (w_db w) ∉ unreadable (w_fs w) ->
    Utf8.decode bs = Ok s -> json_loads (translate_newlines s) = Ok v ->
    (forall xs, v <> PList xs) ->
    load w = (Ok v, set_db (mkDatabase (filename (w_db w)) v) w) /\
    forall note, add_note note (set_db (mkDatabase (filename (w_db w)) v) w) =
                 (Raise AttributeError, set_db (mkDatabase (filename (w_db w)) v) w).
  Proof.
    intros Hf Hr Hs Hj Hv. split.
    - by apply load_json with bs s.
    - intros note. unfold add_note. unfold_py. destruct v as [| | | | |xs|]; try reflexivity.
      by destruct (Hv xs).
  Qed.
End Properties.

(** ** Witnesses and examples, with the [json] module of [Json.v] *)

#[local] Existing Instances Json.json_lib Json.json_lib_laws.

Lemma save_then_load_witness :
  exists w', save (set_db (mkDatabase "notes.json" (PList [note_a; note_b]))
                     (start_world "notes.json" None [] test_time)) = (Ok true, w') /\
    forall w1, w_fs w1 = w_fs w' -> filename (w_db w1) = "notes.json"%string ->
      load w1 = (Ok (PList [note_a; note_b]),
                 set_db (mkDatabase "notes.json" (PList [note_a; note_b])) w1).
Proof. apply save_then_load; [vm_compute; reflexivity | split; simpl; set_solver]. Defined.

Lemma reach_persisted_witness :
  let w0 := start_world "notes.json" None [] test_time in
  let w := snd (run_call (CAdd note_a) w0) in
  (forall c, call_ok c = true -> exists w', run_call c w = (Ok tt, w') /\ reach w0 w') /\
  (forall w1, w_fs w1 = w_fs w -> filename (w_db w1) = filename (w_db w) ->
     fst (load w1) = Ok (notes (w_db w))).
Proof.
  apply reach_persisted.
  - unfold db_inv, fs_ok; split_and!; [reflexivity | reflexivity | simpl; set_solver..].
  - eapply (reach_step _ _ (CAdd note_a)); [apply reach_refl | reflexivity | vm_compute; reflexivity].
Defined.

Lemma count_law_witness :
  exists rs w', run_ops [OpAdd note_a; OpAdd note_b; OpRemove 0; OpRemove 5]
                  (start_world "notes.json" None [] test_time) = (Ok rs, w') /\
    get_notes_count w' =
      (Ok (0 + Z.of_nat (adds [OpAdd note_a; OpAdd note_b; OpRemove 0; OpRemove 5])
           - Z.of_nat (length (List.filter id rs)))%Z, w').
Proof.
  apply count_law; [unfold db_inv, fs_ok; split_and!; [reflexivity | reflexivity | simpl; set_solver..]
                   | vm_compute; reflexivity | reflexivity].
Defined.

Lemma add_note_spec_witness :
  exists w', add_note note_a (start_world "notes.json" None [] test_time) = (Ok tt, w') /\
    notes (w_db w') = PList ([] ++ [note_a]) /\ synced w' /\ w_out w' = [] /\ w_in w' = [].
Proof. apply add_note_spec; [reflexivity | vm_compute; reflexivity | simpl; set_solver]. Defined.

(** [remove_note(1)] on one note: [index] is the count, so nothing is removed. *)
Lemma remove_note_spec_witness :
  remove_note 1 (set_db (mkDatabase "notes.json" (PList [note_a]))
                   (start_world "notes.json" None [] test_time)) =
  (Ok false, set_db (mkDatabase "notes.json" (PList [note_a]))
               (start_world "notes.json" None [] test_time)).
Proof.
  exact (remove_note_spec (set_db (mkDatabase "notes.json" (PList [note_a]))
                             (start_world "notes.json" None [] test_time))
           [note_a] 1 eq_refl eq_refl ltac:(simpl; set_solver)).
Defined.

Lemma save_unwritable_witness :
  let w := mk_world (init "notes.json") (mk_fsys ∅ ∅ {["notes.json"%string]}) [] [] test_time in
  save w = (Ok false, set_out [MSaveError OSError] w).
Proof. apply save_unwritable. simpl. set_solver. Defined.

(** A file holding the single character [\[] . *)
Lemma load_corrupt_witness :
  let w := start_world "notes.json" (Some [91%N]) [] test_time in
  load w = (Ok (PList []), set_db (mkDatabase "notes.json" (PList []))
                             (set_out [MLoadError JSONDecodeError] w)).
Proof.
  apply load_corrupt with [91%N] [91%N];
    [reflexivity | simpl; set_solver | reflexivity | vm_compute; reflexivity].
Defined.

(** A file holding the byte [0xFF], which no UTF-8 sequence starts with. *)
Lemma load_undecodable_witness :
  let w := start_world "notes.json" (Some [255%N]) [] test_time in
  UnicodeDecodeError = UnicodeDecodeError /\ load w = (Raise UnicodeDecodeError, w).
Proof. apply load_undecodable with [255%N]; [reflexivity | simpl; set_solver | reflexivity]. Defined.

(** The note [note_bad] added after [note_a]: the dump breaks at the
    eighteenth string, the text of [note_bad]. *)
Lemma add_note_unencodable_witness :
  let w := set_db (mkDatabase "notes.json" (PList [note_a])) (start_world "notes.json" None [] test_time) in
  let ch := json_dump_chunks (PList ([note_a] ++ [note_bad])) in
  let bs := match Utf8.encode (concat (take 17 ch)) with Ok b => b | Raise _ => [] end in
  UnicodeEncodeError = UnicodeEncodeError /\
  add_note note_bad w = (Raise UnicodeEncodeError, saved (PList ([note_a] ++ [note_bad])) bs w) /\
  ~ synced (saved (PList ([note_a] ++ [note_bad])) bs w).
Proof.
  intros w ch bs.
  apply (add_note_unencodable w [note_a] note_bad (take 17 ch) [34; 56448; 34]%N (drop 18 ch) bs
           UnicodeEncodeError);
    [reflexivity | simpl; set_solver | vm_compute; reflexivity | vm_compute; reflexivity | reflexivity].
Defined.

(** A file holding the JSON object [{}]. *)
Lemma load_not_list_witness :
  let w := start_world "notes.json" (Some [123; 125]%N) [] test_time in
  load w = (Ok (PDict []), set_db (mkDatabase "notes.json" (PDict [])) w) /\
  forall note, add_note note (set_db (mkDatabase "notes.json" (PDict [])) w) =
               (Raise AttributeError, set_db (mkDatabase "notes.json" (PDict [])) w).
Proof.
  intros w. apply (load_not_list w [123; 125]%N [123; 125]%N (PDict []));
    [reflexivity | simpl; set_solver | reflexivity | vm_compute; reflexivity | discriminate].
Defined.

End Db.

#[export] Hint Resolve Db.set_notes_not_exit Db.save_not_exit Db.get_all_notes_not_exit
  Db.add_note_not_exit Db.remove_note_not_exit Db.clear_all_not_exit
  Db.get_notes_count_not_exit : notes.
