(* ===== verification/Utils.v ===== *)
(** * [utils.py]: the note operations

    The functions of [utils.py] as statements of the program monad, over the
    [Database] methods of [Database.v], an implementation of the [json]
    interface and a case mapping for [str.lower] ([Str.CaseMap]).  The
    theorems give [add_note]'s validation (a text is refused exactly when
    it is empty or all whitespace), [delete_note]'s 1-based numbering,
    [search_notes]' result (the numbered notes whose lowered text contains
    the lowered keyword, in order), what [show_all_notes] prints, and the
    format of the [created] time stamp. *)

From stdpp Require Import base list gmap sets strings.
From Stdlib Require Import ZArith NArith Lia.
From S2P Require Import Prelude PyStr PyObj Utf8 JsonEncode JsonDecode Json World Database.

Module Utils.

Local Open Scope py_scope.

(** ** [datetime.strftime('%Y-%m-%d %H:%M:%S')] *)

(** [n] in decimal, padded with zeros on the left to [w] digits.  [%Y]
    is modelled as four digits, which is what every platform prints for the
    years [datetime.now()] gives (1000 to 9999); below 1000 some C
    libraries print fewer. *)
Definition pad (w : nat) (n : Z) : pystr :=
  let ds := Str.str_of_Z n in replicate (w - length ds) 48%N ++ ds.

Definition strftime (t : datetime) : pystr :=
  pad 4 (year t) ++ [45%N] ++ pad 2 (month t) ++ [45%N] ++ pad 2 (day t) ++ [32%N] ++
  pad 2 (hour t) ++ [58%N] ++ pad 2 (minute t) ++ [58%N] ++ pad 2 (second t).

(** The format the spec gives for [created] (section 3), read back: four
    digits, [-], two digits, [-], two digits, a space, and three groups of
    two digits separated by [:]. *)
Definition group (w : nat) (s : pystr) : option (Z * pystr) :=
  let ds := take w s in
  if bool_decide (length ds = w) && forallb Str.is_digit ds
  then Some (Z.of_N (Str.of_dec ds), drop w s) else None.

Definition sep (c : N) (s : pystr) : option pystr :=
  match s with d :: r => if (d =? c)%N then Some r else None | [] => None end.

Definition parse_timestamp (s : pystr) : option datetime :=
  '(y, s) ← group 4 s; s ← sep 45 s; '(mo, s) ← group 2 s; s ← sep 45 s;
  '(d, s) ← group 2 s; s ← sep 32 s; '(h, s) ← group 2 s; s ← sep 58 s;
  '(mi, s) ← group 2 s; s ← sep 58 s; '(se, s) ← group 2 s;
  if bool_decide (s = []) then Some (mk_datetime y mo d h mi se) else None.

(** The [text] and [created] fields of a note, when they are strings. *)
Definition note_field (k : string) (n : pyval) : option pystr :=
  match py_getitem_str n (Str.lit k) with Ok (PStr t) => Some t | _ => None end.

Definition note_text := note_field "text".
Definition note_created := note_field "created".

Definition has_key (k : string) (n : pyval) : bool :=
  match py_getitem_str n (Str.lit k) with Ok _ => true | Raise _ => false end.

Definition field (k : string) (n : pyval) : pyval :=
  match py_getitem_str n (Str.lit k) with Ok v => v | Raise _ => PNone end.

(** The lines printed for the numbered note [p], and by [show_all_notes]
    for the notes [xs] (each a dict with the two keys). *)
Definition note_lines (p : Z * pyval) : list msg :=
  [MItemHead p.1 (field "created" p.2); MItemText (field "text" p.2)].

Definition listing (xs : list pyval) : list msg :=
  match xs with
  | [] => [MListEmpty]
  | _ => [MListHeader] ++ flat_map note_lines (enumerate 1 xs) ++ [MListFooter (Z.of_nat (length xs))]
  end.

(** ** The functions *)

Section Functions.
Context `{JsonLib} `{Str.CaseMap}.

  (** [create_note(text)] *)
Definition create_note (text : pystr) : PyW pyval :=
    t <- now ;;
    ret (PDict [(Str.lit "text", PStr text); (Str.lit "created", PStr (strftime t))]).

  (** [add_note(database, text)] *)
Definition add_note (text : pystr) : PyW bool :=
    if bool_decide (text = []) || bool_decide (Str.strip text = []) then
      print MEmptyText ;; ret false
    else
      note <- create_note text ;;
      Db.add_note note ;;
      notes_count <- Db.get_notes_count ;;
      print (MAdded notes_count) ;;
      ret true.

  (** The body of the loops of [show_all_notes] and
      [display_search_results]: [note['created']] and [note['text']] are
      looked up as each line is printed. *)
Definition print_item (item : Z * pyval) : PyW unit :=
    let '(index, note) := item in
    created <- lift (py_getitem_str note (Str.lit "created")) ;;
    print (MItemHead index created) ;;
    text <- lift (py_getitem_str note (Str.lit "text")) ;;
    print (MItemText text).

  (** [show_all_notes(database)] *)
Definition show_all_notes : PyW unit :=
    notes <- Db.get_all_notes ;;
    if negb (py_truthy notes) then print MListEmpty
    else
      print MListHeader ;;
      items <- lift (py_iter notes) ;;
      for_each (enumerate 1 items) print_item ;;
      n <- lift (py_len notes) ;;
      print (MListFooter n).

  (** [delete_note(database, note_number)] *)
Definition delete_note (note_number : Z) : PyW bool :=
    let index := (note_number - 1)%Z in
    removed <- Db.remove_note index ;;
    if removed then print (MDeleted note_number) ;; ret true
    else print (MNotFound note_number) ;; ret false.

  (** The loop of [search_notes], [results] being the list built so far. *)
Fixpoint search_loop (keyword_lower : pystr) (items : list (Z * pyval))
      (results : list (Z * pyval)) : outcome (list (Z * pyval)) :=
    match items with
    | [] => Ok results
    | (index, note) :: rest =>
        match py_getitem_str note (Str.lit "text") with
        | Raise e => Raise e
        | Ok text =>
            match py_lower text with
            | Raise e => Raise e
            | Ok text_lower =>
                search_loop keyword_lower rest
                  (if Str.contains keyword_lower text_lower
                   then results ++ [(index, note)] else results)
            end
        end
    end.

  (** [search_notes(database, keyword)] *)
Definition search_notes (keyword : pystr) : PyW (list (Z * pyval)) :=
    notes <- Db.get_all_notes ;;
    let keyword_lower := Str.lower keyword in
    items <- lift (py_iter notes) ;;
    lift (search_loop keyword_lower (enumerate 1 items) []).

  (** [display_search_results(results)] *)
Definition display_search_results (results : list (Z * pyval)) : PyW unit :=
    if bool_decide (results = []) then print MNothingFound
    else
      print (MSearchHeader (Z.of_nat (length results))) ;;
      for_each results print_item ;;
      print MRule.
End Functions.

(** [format_note(note, index)]: the f-string calls [str()] on the two
    fields; [str()] of a value that is not a [str], an [int], a [bool] or
    [None] ([repr] of a float, list or dict) is left as a parameter. *)
Section Format.
Variable str_other : pyval -> pystr.

Definition py_str (v : pyval) : pystr :=
    match v with
    | PStr s => s
    | PInt z => Str.str_of_Z z
    | PNone => Str.lit "None"
    | PBool true => Str.lit "True"
    | PBool false => Str.lit "False"
    | _ => str_other v
    end.

Definition format_note (note : pyval) (index : Z) : outcome pystr :=
    match py_getitem_str note (Str.lit "created") with
    | Raise e => Raise e
    | Ok created =>
        match py_getitem_str note (Str.lit "text") with
        | Raise e => Raise e
        | Ok text =>
            Ok ([91%N] ++ Str.str_of_Z index ++ [93; 32]%N ++ py_str created ++
                [32; 45; 32]%N ++ py_str text)
        end
    end.
End Format.

(** Whether [search_notes] keeps the numbered note [p]. *)
Definition hit `{Str.CaseMap} (keyword_lower : pystr) (p : Z * pyval) : bool :=
  match note_text p.2 with
  | Some t => Str.contains keyword_lower (Str.lower t)
  | None => false
  end.

(** ** Lemmas *)

Lemma str_of_Z_nonneg n : (0 <= n)%Z -> Str.str_of_Z n = Str.dec (Z.to_N n).
Proof. destruct n; [reflexivity | reflexivity | lia]. Qed.

Lemma pad_length w n : (1 <= w)%nat -> (0 <= n < 10 ^ Z.of_nat w)%Z -> length (pad w n) = w.
Proof.
  intros Hw Hn. unfold pad. rewrite str_of_Z_nonneg by lia.
  assert (length (Str.dec (Z.to_N n)) <= w)%nat.
  { apply Str.dec_length_le; [done|]. apply N2Z.inj_lt. rewrite N2Z.inj_pow, nat_N_Z. lia. }
  rewrite length_app, length_replicate. lia.
Qed.

Lemma group_pad w n r :
  (1 <= w)%nat -> (0 <= n < 10 ^ Z.of_nat w)%Z -> group w (pad w n ++ r) = Some (n, r).
Proof.
  intros Hw Hn. pose proof (pad_length w n Hw Hn) as Hl. unfold group.
  rewrite take_app_length', drop_app_length' by done.
  rewrite bool_decide_eq_true_2 by done.
  assert (Hd : forallb Str.is_digit (pad w n) = true).
  { unfold pad. rewrite forallb_app, andb_true_iff, !forallb_Forall.
    split; [|rewrite str_of_Z_nonneg by lia; apply Str.dec_digits].
    apply Forall_replicate. reflexivity. }
  rewrite Hd. simpl. do 3 f_equal. unfold pad. rewrite Str.of_dec_app, Str.of_dec_zeros.
  rewrite str_of_Z_nonneg, Str.of_dec_dec by lia. lia.
Qed.


Lemma str_of_Z_scalar z : forallb Str.is_scalar (Str.str_of_Z z) = true.
Proof.
  assert (Hd : forall n, forallb Str.is_scalar (Str.dec n) = true).
  { intros n. apply forallb_Forall. eapply Forall_impl; [apply Str.dec_digits|].
    unfold Str.is_digit, Str.is_scalar. intros c Hc. bool_lia. }
  destruct z; simpl; rewrite ?Hd; reflexivity.
Qed.

Lemma pad_scalar w n : forallb Str.is_scalar (pad w n) = true.
Proof. unfold pad. rewrite forallb_app, str_of_Z_scalar, andb_true_r. by induction (w - _)%nat. Qed.

Lemma strftime_scalar t : str_ok (strftime t) = true.
Proof. unfold str_ok, strftime. rewrite !forallb_app, !pad_scalar. reflexivity. Qed.

(** The test of [add_note]: [not text or not text.strip()]. *)
Lemma blank_iff text :
  (bool_decide (text = []) || bool_decide (Str.strip text = [])) = bool_decide (Str.all_space text).
Proof.
  apply eq_bool_prop_intro. rewrite orb_True, !bool_decide_spec, Str.strip_nil_iff.
  split; [intros [->|]; [constructor | done] | auto].
Qed.

Lemma print_item_ok i n w :
  has_key "created" n && has_key "text" n = true ->
  print_item (i, n) w = (Ok tt, set_out (w_out w ++ note_lines (i, n)) w).
Proof.
  unfold has_key, note_lines, field. cbv [bind print_item lift print modify]; simpl.
  destruct (py_getitem_str n (Str.lit "created")),
           (py_getitem_str n (Str.lit "text")); try discriminate.
  intros _. cbn. by rewrite <- app_assoc.
Qed.

Lemma print_items_ok items w :
  Forall (fun p => has_key "created" p.2 && has_key "text" p.2 = true) items ->
  for_each items print_item w = (Ok tt, set_out (w_out w ++ flat_map note_lines items) w).
Proof.
  revert w; induction items as [|[i n] items IH]; intros w Hall; cbn [for_each flat_map].
  - rewrite app_nil_r. by destruct w.
  - apply Forall_cons in Hall as [Hn Hall].
    unfold bind at 1. rewrite print_item_ok by done. rewrite IH by done.
    cbn. by rewrite <- app_assoc.
Qed.

(** The functions raise no [SystemExit]. *)
Section NotExit.
Context `{JsonLib} `{Str.CaseMap}.

Lemma create_note_not_exit text : raises_in not_exit (create_note text).
  Proof. unfold create_note, now. eauto with notes. Qed.

Lemma print_item_not_exit item : raises_in not_exit (print_item item).
  Proof. destruct item. unfold print_item. eauto 10 with notes. Qed.
#[local] Hint Resolve create_note_not_exit print_item_not_exit : notes.

Lemma search_loop_not_exit kwl items results :
    outcome_in not_exit (search_loop kwl items results).
  Proof.
    revert results; induction items as [|[i n] items IH]; intros results; [exact I|]. simpl.
    pose proof (py_getitem_str_not_exit n (Str.lit "text")).
    destruct (py_getitem_str n (Str.lit "text")) as [t|]; [|done].
    pose proof (py_lower_not_exit t). destruct (py_lower t); [apply IH | done].
  Qed.
#[local] Hint Resolve search_loop_not_exit : notes.

Lemma add_note_text_not_exit text : raises_in not_exit (add_note text).
  Proof. unfold add_note. eauto 15 with notes. Qed.

Lemma show_all_notes_not_exit : raises_in not_exit show_all_notes.
  Proof. unfold show_all_notes. eauto 15 with notes. Qed.

Lemma delete_note_not_exit n : raises_in not_exit (delete_note n).
  Proof. unfold delete_note. eauto 15 with notes. Qed.

Lemma search_notes_not_exit kw : raises_in not_exit (search_notes kw).
  Proof. unfold search_notes. eauto 15 with notes. Qed.

Lemma display_search_results_not_exit rs : raises_in not_exit (display_search_results rs).
  Proof. unfold display_search_results. eauto 15 with notes. Qed.
End NotExit.


Section SearchLemmas.
Context `{Str.CaseMap}.

Lemma search_loop_filter kwl items results :
    Forall (fun p => is_Some (note_text p.2)) items ->
    search_loop kwl items results = Ok (results ++ filter (fun p => hit kwl p = true) items).
  Proof.
    revert results; induction items as [|[i n] items IH]; intros results Hall.
    - by rewrite app_nil_r.
    - apply Forall_cons in Hall as [[t Ht] Hall]. simpl in Ht.
      assert (Hh : hit kwl (i, n) = Str.contains kwl (Str.lower t))
        by (unfold hit; simpl; by rewrite Ht).
      unfold note_text, note_field in Ht. cbn [search_loop].
      destruct (py_getitem_str n (Str.lit "text")) as [[]|]; try discriminate.
      injection Ht as ->. cbn [py_lower]. rewrite IH, filter_cons by done. rewrite Hh.
      destruct (Str.contains kwl (Str.lower t));
        rewrite ?decide_True, ?decide_False by done; by rewrite <- ?app_assoc.
  Qed.
End SearchLemmas.

Section Accept.
Context `{JsonLibLaws}.

  (** The accepting branch of [add_note(database, text)]: the note stamped
      with the current time is appended and saved, and the new count is
      printed. *)
Lemma add_note_accept w xs text :
    Db.db_inv w -> notes (w_db w) = PList xs -> str_ok text = true -> ~ Str.all_space text ->
    exists bs,
      add_note text w =
        (Ok true, set_out (w_out w ++ [MAdded (Z.of_nat (length xs) + 1)])
                    (Db.saved (PList (xs ++ [PDict [(Str.lit "text", PStr text);
                                                    (Str.lit "created", PStr (strftime (w_now w)))]]))
                       bs w)) /\
      Db.db_inv (Db.saved (PList (xs ++ [PDict [(Str.lit "text", PStr text);
                                               (Str.lit "created", PStr (strftime (w_now w)))]]))
                   bs w).
  Proof.
    intros Hinv Hn Htext Hb.
    assert (Hne : text <> []) by (intros ->; apply Hb; constructor).
    assert (Hs : Str.strip text <> []) by (by rewrite Str.strip_nil_iff).
    unfold add_note. rewrite ?(bool_decide_eq_false_2 (text = [])),
      ?(bool_decide_eq_false_2 (Str.strip text = [])) by done. cbn [orb].
    set (note := PDict [(Str.lit "text", PStr text); (Str.lit "created", PStr (strftime (w_now w)))]).
    pose proof Hinv as (Hv & _ & Hw & _). rewrite Hn in Hv; simpl in Hv.
    assert (Hok : json_ok (PList (xs ++ [note])) = true).
    { simpl. rewrite forallb_app, Hv. simpl. by rewrite Htext, strftime_scalar. }
    destruct (Db.add_note_ok w xs note Hn Hok Hw) as [bs [Hbs Had]].
    assert (Hc : create_note text w = (Ok note, w)) by reflexivity.
    clearbody note. exists bs. split.
    - unfold bind at 1. rewrite Hc. unfold bind at 1. rewrite Had.
      cbv [Db.get_notes_count bind gets lift print modify]. simpl.
      rewrite length_app, Nat2Z.inj_add. reflexivity.
    - apply Db.db_inv_saved; [exact Hok | exact Hbs | apply Hinv].
  Qed.

  (** [show_all_notes(database)] on a list of note dicts prints the
      listing and changes nothing else. *)
Lemma show_all_notes_listing w xs :
    notes (w_db w) = PList xs ->
    Forall (fun n => has_key "created" n && has_key "text" n = true) xs ->
    show_all_notes w = (Ok tt, set_out (w_out w ++ listing xs) w).
  Proof.
    intros Hn Hall. cbv [show_all_notes bind Db.get_all_notes gets]. rewrite Hn.
    destruct xs as [|x xs']; [reflexivity|]. cbn [py_truthy negb].
    rewrite bool_decide_eq_false_2 by done. cbn [negb].
    cbv [print modify lift]. cbn [py_iter].
    rewrite print_items_ok by (by apply (Forall_enumerate (fun n => has_key "created" n && has_key "text" n = true))).
    cbn [py_len listing]. cbn. by rewrite <- !app_assoc.
  Qed.
End Accept.

(** ** Properties *)

(** C17: The [created] time stamp (spec, sections 3 and 4.2): for a time
    whose fields have at most four (the year) and two digits,
    [strftime('%Y-%m-%d %H:%M:%S')] has 19 characters, zero-padded, and
    reads back as the same time with the spec's format
    [YYYY-MM-DD HH:MM:SS]. *)
Theorem strftime_roundtrip t :
  (0 <= year t < 10000)%Z -> (0 <= month t < 100)%Z -> (0 <= day t < 100)%Z ->
  (0 <= hour t < 100)%Z -> (0 <= minute t < 100)%Z -> (0 <= second t < 100)%Z ->
  length (strftime t) = 19%nat /\ parse_timestamp (strftime t) = Some t.
Proof.
  intros Hy Hmo Hd Hh Hmi Hs. split.
  - unfold strftime. rewrite !length_app, !pad_length by (simpl; lia). reflexivity.
  - unfold strftime, parse_timestamp.
    repeat (rewrite group_pad by (simpl; lia); cbn -[group pad]).
    rewrite <- (app_nil_r (pad 2 (second t))), group_pad by (simpl; lia).
    by destruct t.
Qed.

Section SearchSpec.
Context `{Str.CaseMap}.

  (** C6: [search_notes(database, keyword)] (spec, section 4.2): on a list
      of notes whose [text] is a string, it returns, without changing
      anything, a sublist of the numbered notes [(1, note1), (2, note2), ...]
      (so in their order) that holds a numbered note exactly when the
      lowered keyword is a factor of the note's lowered text.  This holds
      for every case mapping, and the empty keyword keeps every note. *)
Theorem search_notes_spec w xs keyword :
    notes (w_db w) = PList xs -> Forall (fun n => is_Some (note_text n)) xs ->
    exists rs, search_notes keyword w = (Ok rs, w) /\ rs `sublist_of` enumerate 1 xs /\
      forall i n, (i, n) ∈ enumerate 1 xs ->
        ((i, n) ∈ rs <->
         exists t a b, note_text n = Some t /\ Str.lower t = a ++ Str.lower keyword ++ b).
  Proof.
    intros Hn Hall. exists (filter (fun p => hit (Str.lower keyword) p = true) (enumerate 1 xs)).
    split_and!.
    - cbv [search_notes bind gets lift Db.get_all_notes]. rewrite Hn. cbn [py_iter].
      rewrite search_loop_filter by (exact (Forall_enumerate (fun n => is_Some (note_text n)) 1 xs Hall)). done.
    - apply sublist_filter.
    - intros i n Hin. rewrite list_elem_of_filter. unfold hit; simpl. split.
      + intros [Hc _]. destruct (note_text n) as [t|]; [|discriminate].
        apply Str.contains_spec in Hc as (a & b & Hab). eauto.
      + intros (t & a & b & -> & Hab). split; [|done]. apply Str.contains_spec. eauto.
  Qed.
End SearchSpec.

Section NoteSpec.
Context `{JsonLibLaws}.

  (** C5: [add_note(database, text)] (spec, sections 4.2 and 8): under the
      store invariant, a text that is empty or all whitespace is refused:
      the error is printed, [False] is returned and nothing else changes.
      Any other text (of scalar values) is stored verbatim, untrimmed, in a
      note stamped with the current time; the file is rewritten, and the
      number printed is the new count. *)
Theorem add_note_validates w xs text :
    Db.db_inv w -> notes (w_db w) = PList xs -> str_ok text = true ->
    if decide (Str.all_space text)
    then add_note text w = (Ok false, set_out (w_out w ++ [MEmptyText]) w)
    else exists w', add_note text w = (Ok true, w') /\
      notes (w_db w') =
        PList (xs ++ [PDict [(Str.lit "text", PStr text);
                             (Str.lit "created", PStr (strftime (w_now w)))]]) /\
      w_out w' = w_out w ++ [MAdded (Z.of_nat (length xs) + 1)] /\ Db.db_inv w'.
  Proof.
    intros Hinv Hn Htext. case_decide as Hb.
    - unfold add_note. by rewrite blank_iff, bool_decide_eq_true_2 by done.
    - destruct (add_note_accept w xs text Hinv Hn Htext Hb) as [bs [-> Hi]].
      eexists; split_and!; [reflexivity | reflexivity | reflexivity | exact Hi].
  Qed.

  (** C7: [delete_note(database, note_number)] (spec, sections 4.2 and 8):
      under the store invariant, for [1 <= note_number <= count] the note
      displayed with that number (index [note_number - 1]) is removed, the
      file rewritten and the deletion reported; any other number is
      reported as not found and nothing else changes. *)
Theorem delete_note_spec w xs n :
    Db.db_inv w -> notes (w_db w) = PList xs ->
    if ((1 <=? n) && (n <=? Z.of_nat (length xs)))%Z
    then exists w', delete_note n w = (Ok true, w') /\
      notes (w_db w') = PList (delete (Z.to_nat (n - 1)) xs) /\
      w_out w' = w_out w ++ [MDeleted n] /\ Db.db_inv w'
    else delete_note n w = (Ok false, set_out (w_out w ++ [MNotFound n]) w).
  Proof.
    intros Hinv Hn. pose proof Hinv as (Hv & _ & Hw & _). rewrite Hn in Hv; simpl in Hv.
    unfold delete_note. destruct (Z.leb_spec 1 n), (Z.leb_spec n (Z.of_nat (length xs))); simpl.
    1: { assert (Hok : json_ok (PList (delete (Z.to_nat (n - 1)) xs)) = true)
           by (by apply Db.forallb_delete).
         destruct (Db.remove_note_in_range w xs (n - 1) Hn) as [bs [Hbs Hrm]];
           [lia | done | done |].
         eexists; split_and!; [unfold bind; rewrite Hrm; reflexivity | reflexivity | reflexivity |].
         apply Db.db_inv_saved; [exact Hok | exact Hbs | apply Hinv]. }
    all: unfold bind; rewrite (Db.remove_note_out_of_range w xs) by (done || lia); reflexivity.
  Qed.
End NoteSpec.

(** C16: [show_all_notes(database)] (spec, section 4.2): on a list of note
    dicts with the keys [created] and [text], it prints the empty-list
    message when there is no note, and otherwise the header, then for each
    note its number (from 1, in order), its [created] and its [text], then
    the total; it changes nothing else. *)
Theorem show_all_notes_spec w xs :
  notes (w_db w) = PList xs ->
  Forall (fun n => has_key "created" n && has_key "text" n = true) xs ->
  show_all_notes w = (Ok tt, set_out (w_out w ++ listing xs) w).
Proof. exact (show_all_notes_listing w xs). Qed.

#[local] Existing Instance Str.basic_case_map.

(** ** Witnesses *)

#[local] Existing Instances Json.json_lib Json.json_lib_laws.

Lemma strftime_roundtrip_witness :
  length (strftime Db.test_time) = 19%nat /\ parse_timestamp (strftime Db.test_time) = Some Db.test_time.
Proof. apply strftime_roundtrip; simpl; lia. Defined.

Lemma search_notes_spec_witness :
  let w := set_db (mkDatabase "notes.json" (PList [Db.note_a; Db.note_b]))
                  (Db.start_world "notes.json" None [] Db.test_time) in
  exists rs, search_notes (Str.lit "MOM") w = (Ok rs, w) /\ rs `sublist_of` enumerate 1 [Db.note_a; Db.note_b] /\
    forall i n, (i, n) ∈ enumerate 1 [Db.note_a; Db.note_b] ->
      ((i, n) ∈ rs <->
       exists t a b, note_text n = Some t /\ Str.lower t = a ++ Str.lower (Str.lit "MOM") ++ b).
Proof. apply search_notes_spec; [reflexivity | repeat econstructor]. Defined.

(** A text of spaces and a tab is refused. *)
Lemma add_note_validates_witness :
  let w := Db.start_world "notes.json" None [] Db.test_time in
  add_note [32; 9; 32]%N w = (Ok false, set_out [MEmptyText] w).
Proof.
  exact (add_note_validates (Db.start_world "notes.json" None [] Db.test_time) [] [32; 9; 32]%N
           ltac:(unfold Db.db_inv, Db.fs_ok; split_and!; [reflexivity | reflexivity | simpl; set_solver..])
           eq_refl eq_refl).
Defined.

(** [delete_note(database, 1)] on one note (spec, section 8). *)
Lemma delete_note_spec_witness :
  let w := set_db (mkDatabase "notes.json" (PList [Db.note_a]))
             (set_fs (mk_fsys {["notes.json"%string := Db.dump_bytes (PList [Db.note_a])]} ∅ ∅)
                (Db.start_world "notes.json" None [] Db.test_time)) in
  exists w', delete_note 1 w = (Ok true, w') /\ notes (w_db w') = PList (delete 0 [Db.note_a]) /\
    w_out w' = w_out w ++ [MDeleted 1] /\ Db.db_inv w'.
Proof.
  apply (delete_note_spec _ [Db.note_a] 1); [|reflexivity].
  unfold Db.db_inv, Db.fs_ok; split_and!; [reflexivity | vm_compute; reflexivity | simpl; set_solver..].
Defined.

Lemma show_all_notes_spec_witness :
  let w := set_db (mkDatabase "notes.json" (PList [Db.note_a; Db.note_b]))
                  (Db.start_world "notes.json" None [] Db.test_time) in
  show_all_notes w = (Ok tt, set_out (w_out w ++ listing [Db.note_a; Db.note_b]) w).
Proof. apply show_all_notes_spec; [reflexivity | repeat constructor]. Defined.

End Utils.

#[export] Hint Resolve Utils.add_note_text_not_exit Utils.show_all_notes_not_exit
  Utils.delete_note_not_exit Utils.search_notes_not_exit Utils.display_search_results_not_exit : notes.
