(* ===== verification/Main.v ===== *)
(** * [main.py]: the handlers and the menu loop

    The four [handle_*] functions, one iteration of the [while True] loop
    of [main()] with its two [except] clauses, and the program: the start
    of [main()] followed by iterations of the loop on fuel, ending with the
    exit status of [sys.exit], an uncaught exception, or still running when
    the fuel runs out.  [main()] is never run without its input: the lines
    typed (and the [Ctrl-C]s) are the [w_in] field of the world.

    The theorems show that an iteration of the loop raises nothing but
    [SystemExit(0)] (every other exception is caught), that [0] and
    [Ctrl-C] at the menu exit with status 0, what [handle_add_note] stores
    (the stripped line), how [Ctrl-C] is handled at the prompts of the add
    and delete handlers, that a save error in a deletion is reported as an
    invalid number, that a notes file holding a value without a length
    stops [main()] before the menu, and that at the end of input the loop
    never ends. *)

From stdpp Require Import base list gmap sets strings.
From Stdlib Require Import ZArith NArith Lia.
From S2P Require Import Prelude PyStr PyObj Utf8 JsonEncode JsonDecode Json World Database Utils.

Module Main.

Local Open Scope py_scope.

Section Program.
Context `{JsonLib} `{Str.CaseMap}.

  (** [handle_add_note(db)] *)
Definition handle_add_note : PyW unit :=
    print MAddTitle ;;
    line <- input PNoteText ;;
    let text := Str.strip line in
    _ <- Utils.add_note text ;;
    ret tt.

  (** [handle_show_notes(db)] *)
Definition handle_show_notes : PyW unit := Utils.show_all_notes.

  (** [handle_delete_note(db)] *)
Definition handle_delete_note : PyW unit :=
    Utils.show_all_notes ;;
    n <- Db.get_notes_count ;;
    if (n =? 0)%Z then ret tt
    else
      try_excepts
        (line <- input PNoteNumber ;;
         note_num <- lift (py_int (Str.strip line)) ;;
         _ <- Utils.delete_note note_num ;;
         ret tt)
        [([CValueError], fun _ => print MInvalidNumber);
         ([CKeyboardInterrupt], fun _ => print MCancelled)].

  (** [handle_search_notes(db)] *)
Definition handle_search_notes : PyW unit :=
    print MSearchTitle ;;
    line <- input PKeyword ;;
    let keyword := Str.strip line in
    if bool_decide (keyword = []) then print MEmptyKeyword
    else
      results <- Utils.search_notes keyword ;;
      Utils.display_search_results results.

  (** The [if]/[elif] chain on the choice. *)
Definition dispatch (choice : pystr) : PyW unit :=
    if bool_decide (choice = Str.lit "1") then handle_add_note
    else if bool_decide (choice = Str.lit "2") then handle_show_notes
    else if bool_decide (choice = Str.lit "3") then handle_delete_note
    else if bool_decide (choice = Str.lit "4") then handle_search_notes
    else if bool_decide (choice = Str.lit "0") then print MGoodbye ;; throw (SystemExit 0)
    else print MInvalidChoice.

  (** The [try] block of the loop. *)
Definition menu_step : PyW unit :=
    print MMenu ;;
    line <- input PChoice ;;
    dispatch (Str.strip line).

  (** One iteration of [while True:]. *)
Definition loop_body : PyW unit :=
    try_excepts menu_step
      [([CKeyboardInterrupt], fun _ => print MGoodbye ;; throw (SystemExit 0));
       ([CException], fun e => print (MError e))].

  (** [main()] up to the loop. *)
Definition main_start : PyW unit :=
    print MWelcome ;;
    modify (set_db (Db.init "notes.json")) ;;
    _ <- Db.load ;;
    n <- Db.get_notes_count ;;
    print (MLoaded n).

  (** How a run ends. *)
Inductive run_result :=
  | Exited (code : Z) (w : world)
  | Crashed (e : exc) (w : world)
  | Running (w : world).

  (** [fuel] iterations of the loop at most. *)
Fixpoint run_loop (fuel : nat) (w : world) : run_result :=
    match fuel with
    | O => Running w
    | S f =>
        match loop_body w with
        | (Ok _, w') => run_loop f w'
        | (Raise (SystemExit c), w') => Exited c w'
        | (Raise e, w') => Crashed e w'
        end
    end.

  (** [main()] *)
Definition main (fuel : nat) (w : world) : run_result :=
    match main_start w with
    | (Ok _, w') => run_loop fuel w'
    | (Raise (SystemExit c), w') => Exited c w'
    | (Raise e, w') => Crashed e w'
    end.

  (** The iterations of the loop as a step relation. *)
Inductive step : world -> world -> Prop :=
  | step_loop w w' : loop_body w = (Ok tt, w') -> step w w'.
End Program.

(** ** Lemmas *)

(** The exceptions of the loop's [try] block: [sys.exit(0)] and the
    exceptions that are not [SystemExit]. *)
Definition body_exc (e : exc) : Prop := not_exit e \/ e = SystemExit 0.

Section Lemmas.
Context `{JsonLib} `{Str.CaseMap}.

Lemma not_exit_body_exc {A} (m : PyW A) : raises_in not_exit m -> raises_in body_exc m.
  Proof. intros Hm. apply (raises_in_weaken _ not_exit); [done | by left]. Qed.

Lemma handle_add_note_not_exit : raises_in not_exit handle_add_note.
  Proof. unfold handle_add_note. eauto 10 with notes. Qed.

Lemma handle_delete_note_not_exit : raises_in not_exit handle_delete_note.
  Proof.
    unfold handle_delete_note.
    apply raises_in_bind; [eauto with notes | intros _; cbv beta].
    apply raises_in_bind; [eauto with notes | intros n; cbv beta].
    apply raises_in_if; [eauto with notes|].
    apply raises_in_try_excepts; [eauto 10 with notes|].
    repeat constructor; intros; simpl; eauto with notes.
  Qed.

Lemma handle_search_notes_not_exit : raises_in not_exit handle_search_notes.
  Proof. unfold handle_search_notes. eauto 10 with notes. Qed.

#[local] Hint Resolve handle_add_note_not_exit handle_delete_note_not_exit
    handle_search_notes_not_exit : notes.

Lemma dispatch_body_exc c : raises_in body_exc (dispatch c).
  Proof.
    unfold dispatch, handle_show_notes.
    do 4 (destruct (bool_decide _); [apply not_exit_body_exc; eauto with notes|]).
    destruct (bool_decide _); [|apply not_exit_body_exc; eauto with notes].
    apply raises_in_bind; [apply not_exit_body_exc; eauto with notes | intros _].
    apply raises_in_throw. by right.
  Qed.

  (** An iteration of the loop with no input left. *)
Lemma loop_body_eof w :
    w_in w = [] ->
    loop_body w = (Ok tt, set_out (w_out w ++ [MMenu; MPrompt PChoice; MError EOFError]) w).
  Proof.
    intros Hin. destruct w as [d fs o i t]; simpl in Hin; subst i.
    cbv [loop_body menu_step try_excepts handle bind print modify input set_out set_in]; simpl.
    by rewrite <- !List.app_assoc.
  Qed.
End Lemmas.

(** ** Properties *)

Section Properties.
Context `{JsonLib} `{Str.CaseMap}.

  (** C4: The loop does not crash (spec, section 7): whatever the state
      (the notes, the file system, the input), an iteration of
      [while True:] either returns, going on to the next iteration, or
      raises [SystemExit(0)]: every exception other than [KeyboardInterrupt]
      and [SystemExit] is caught and printed, and [KeyboardInterrupt] is
      turned into [sys.exit(0)]. *)
Theorem loop_body_safe w :
    fst (loop_body w) = Ok tt \/ fst (loop_body w) = Raise (SystemExit 0).
  Proof.
    assert (Hb : raises_in body_exc menu_step).
    { unfold menu_step. apply raises_in_bind; [apply not_exit_body_exc, print_not_exit | intros _].
      apply raises_in_bind; [apply not_exit_body_exc, input_not_exit | intros line].
      apply dispatch_body_exc. }
    specialize (Hb w). unfold loop_body, try_excepts.
    destruct (menu_step w) as [[[]|e] w']; [by left|]. simpl in Hb.
    destruct e; simpl; try (left; reflexivity); [right; reflexivity|].
    destruct Hb as [[]| ->]. by right.
  Qed.

  (** C20: [0] at the menu (spec, section 6): the iteration prints the
      menu, the prompt and the farewell, and raises [SystemExit(0)]: the
      program exits with status 0, the notes and the file untouched. *)
Theorem exit_on_zero w s rest :
    w_in w = Line s :: rest -> Str.strip s = Str.lit "0" ->
    loop_body w =
      (Raise (SystemExit 0), set_in rest (set_out (w_out w ++ [MMenu; MPrompt PChoice; MGoodbye]) w)).
  Proof.
    intros Hin Hs. destruct w as [d fs o i t]; simpl in Hin; subst i.
    cbv [loop_body menu_step try_excepts bind print modify input set_out set_in]; cbn.
    rewrite Hs. cbv [dispatch]. simpl. unfold set_out. by rewrite <- !List.app_assoc.
  Qed.

  (** C21: [Ctrl-C] at the menu (spec, section 6): the [KeyboardInterrupt]
      raised by [input()] is caught by the loop, which prints the farewell
      and raises [SystemExit(0)]. *)
Theorem interrupt_at_menu w rest :
    w_in w = CtrlC :: rest ->
    loop_body w =
      (Raise (SystemExit 0), set_in rest (set_out (w_out w ++ [MMenu; MPrompt PChoice; MGoodbye]) w)).
  Proof.
    intros Hin. destruct w as [d fs o i t]; simpl in Hin; subst i.
    cbv [loop_body menu_step try_excepts handle bind print modify input set_out set_in throw]; simpl.
    by rewrite <- !List.app_assoc.
  Qed.

  (** C11: At the end of input the program never ends: [input()] raises
      [EOFError], which the loop's [except Exception] catches and prints,
      so each iteration prints the menu, the prompt and the error again,
      with the state otherwise unchanged, for ever: no amount of fuel
      reaches an exit. *)
Theorem eof_loops_forever fuel w :
    w_in w = [] ->
    run_loop fuel w =
      Running (set_out (w_out w ++ concat (replicate fuel [MMenu; MPrompt PChoice; MError EOFError])) w).
  Proof.
    revert w; induction fuel as [|fuel IH]; intros w Hin; simpl.
    - rewrite app_nil_r. by destruct w.
    - rewrite loop_body_eof by done. rewrite IH by (by destruct w).
      destruct w; simpl. unfold set_out; simpl. by rewrite <- List.app_assoc.
  Qed.
End Properties.

Section Handlers.
Context `{JsonLibLaws} `{Str.CaseMap}.

  (** C14: [handle_add_note(db)] (spec, sections 4.2 and 6): it prints the
      title and the prompt and reads a line [s]; when [s] is all
      whitespace the empty-text error is printed and nothing else changes;
      otherwise the note stored is [s.strip()], not the line typed:
      [main.py] strips the input before [add_note], while the spec
      (section 4.2) says the raw text is stored verbatim. *)
Theorem handle_add_note_strips w xs s rest :
    Db.db_inv w -> notes (w_db w) = PList xs -> w_in w = Line s :: rest -> str_ok s = true ->
    if decide (Str.all_space s)
    then handle_add_note w =
           (Ok tt, set_in rest (set_out (w_out w ++ [MAddTitle; MPrompt PNoteText; MEmptyText]) w))
    else exists w', handle_add_note w = (Ok tt, w') /\
      notes (w_db w') =
        PList (xs ++ [PDict [(Str.lit "text", PStr (Str.strip s));
                             (Str.lit "created", PStr (Utils.strftime (w_now w)))]]) /\
      w_out w' = w_out w ++ [MAddTitle; MPrompt PNoteText; MAdded (Z.of_nat (length xs) + 1)] /\
      w_in w' = rest /\ Db.db_inv w'.
  Proof.
    intros Hinv Hn Hin Hs.
    set (w1 := set_in rest (set_out (w_out w ++ [MAddTitle; MPrompt PNoteText]) w)).
    assert (Hh : handle_add_note w = bind (Utils.add_note (Str.strip s)) (fun _ => ret tt) w1).
    { subst w1. destruct w as [d fs o i t]; simpl in Hin; subst i.
      cbv [handle_add_note print modify input set_out set_in]. unfold bind at 1 2 3 4. simpl.
      rewrite <- List.app_assoc. reflexivity. }
    rewrite Hh. case_decide as Hb.
    - unfold Utils.add_note.
      rewrite (bool_decide_eq_true_2 (Str.strip s = [])) by (by apply Str.strip_nil_iff). cbn [orb].
      subst w1. destruct w. cbv [bind print modify ret set_out set_in]; simpl.
      by rewrite <- List.app_assoc.
    - destruct (Utils.add_note_accept w1 xs (Str.strip s)) as [bs [Had Hi]];
        [exact Hinv | exact Hn | by apply Str.strip_forallb | by rewrite Str.strip_all_space |].
      unfold bind. rewrite Had. eexists; split_and!; [reflexivity | reflexivity | | reflexivity | exact Hi].
      subst w1; simpl. by rewrite <- List.app_assoc.
  Qed.
  (** C22: [Ctrl-C] while the text of a new note is typed (spec, section
      6): [handle_add_note] does not catch the [KeyboardInterrupt], and the
      loop's [except KeyboardInterrupt] prints the farewell and raises
      [SystemExit(0)]: the program ends, where the spec says an interrupt
      during input aborts the current operation. *)
Theorem interrupt_in_add w s rest :
    w_in w = Line s :: CtrlC :: rest -> Str.strip s = Str.lit "1" ->
    loop_body w =
      (Raise (SystemExit 0),
       set_in rest (set_out (w_out w ++ [MMenu; MPrompt PChoice; MAddTitle; MPrompt PNoteText; MGoodbye]) w)).
  Proof.
    intros Hin Hs. destruct w as [d fs o i t]; simpl in Hin; subst i.
    cbv [loop_body menu_step try_excepts bind print modify input set_out set_in]; cbn.
    rewrite Hs. cbv [dispatch handle_add_note]. simpl.
    cbv [throw]. by rewrite <- !List.app_assoc.
  Qed.

  (** C23: [Ctrl-C] at the prompt for the number of the note to delete:
      after listing the notes, [handle_delete_note] catches the
      [KeyboardInterrupt], prints that the operation is cancelled and
      returns, the notes and the file unchanged. *)
Theorem interrupt_in_delete w xs rest :
    notes (w_db w) = PList xs -> xs <> [] ->
    Forall (fun n => Utils.has_key "created" n && Utils.has_key "text" n = true) xs ->
    w_in w = CtrlC :: rest ->
    handle_delete_note w =
      (Ok tt, set_in rest (set_out (w_out w ++ Utils.listing xs ++ [MPrompt PNoteNumber; MCancelled]) w)).
  Proof.
    intros Hn Hne Hall Hin. unfold handle_delete_note. unfold bind at 1.
    rewrite (Utils.show_all_notes_listing w xs Hn Hall).
    cbv [Db.get_notes_count bind gets lift]. simpl. rewrite Hn. cbn [py_len].
    rewrite (proj2 (Z.eqb_neq _ _)) by (destruct xs; [done | simpl; lia]).
    destruct w as [d fs o i t]; simpl in Hin; subst i.
    cbv [try_excepts handle input print modify set_out set_in]; simpl.
    by rewrite <- !List.app_assoc.
  Qed.

  (** C15: A save error reported as a wrong number: when the notes left
      after the deletion have a string that UTF-8 cannot encode (a note
      added with a lone surrogate), [delete_note] removes the note and the
      [save()] of [remove_note] raises [UnicodeEncodeError], a subclass of
      [ValueError]; [handle_delete_note]'s [except ValueError], meant for
      [int()], prints that the number is invalid.  The user is told the
      number was wrong although the note is gone, and the file is left
      truncated. *)
Theorem delete_save_error_misreported w xs s rest n pre c post bs e :
    notes (w_db w) = PList xs ->
    Forall (fun x => Utils.has_key "created" x && Utils.has_key "text" x = true) xs ->
    filename (w_db w) ∉ unwritable (w_fs w) ->
    w_in w = Line s :: rest -> py_int (Str.strip s) = Ok n -> (1 <= n <= Z.of_nat (length xs))%Z ->
    json_dump_chunks (PList (delete (Z.to_nat (n - 1)) xs)) = pre ++ c :: post ->
    Utf8.encode (concat pre) = Ok bs -> Utf8.encode c = Raise e ->
    handle_delete_note w =
      (Ok tt, set_out (w_out w ++ Utils.listing xs ++ [MPrompt PNoteNumber; MInvalidNumber])
                (set_in rest (Db.saved (PList (delete (Z.to_nat (n - 1)) xs)) bs w))).
  Proof.
    intros Hn Hall Hw Hin Hint Hrange Hch Hpre Hc.
    pose proof (Utf8.encode_raise _ _ Hc) as ->.
    unfold handle_delete_note. unfold bind at 1.
    rewrite (Utils.show_all_notes_listing w xs Hn Hall).
    cbv [Db.get_notes_count bind gets lift]. simpl. rewrite Hn. cbn [py_len].
    rewrite (proj2 (Z.eqb_neq _ _)) by lia.
    set (w1 := set_in rest (set_out (w_out w ++ Utils.listing xs ++ [MPrompt PNoteNumber]) w)).
    assert (Hrm : Db.remove_note (n - 1) w1 =
                  (Raise UnicodeEncodeError, Db.saved (PList (delete (Z.to_nat (n - 1)) xs)) bs w1))
      by (apply Db.remove_note_unencodable with pre c post; [exact Hn | lia | done ..]).
    assert (Hi : input PNoteNumber (set_out (w_out w ++ Utils.listing xs) w) = (Ok s, w1)).
    { subst w1. destruct w as [d fs o i t]; simpl in Hin; subst i.
      cbv [input bind print modify set_out set_in]; simpl. by rewrite <- List.app_assoc. }
    unfold try_excepts. rewrite Hi, Hint. unfold Utils.delete_note, bind. rewrite Hrm.
    subst w1. destruct w as [d fs o i t]. cbv [handle print modify set_out set_in]; simpl.
    by rewrite <- !List.app_assoc.
  Qed.

  (** C24: A notes file whose JSON value has no length (a number, [true],
      [false] or [null]): [load()] accepts it without a warning, and the
      [get_notes_count()] of [main()], outside the loop's [try], raises
      [TypeError]: the program stops with a traceback after the welcome
      line, before the menu, whatever the input and the fuel.  The spec
      (sections 4.1 and 7) says a corrupt file gives an empty store and the
      program goes on. *)
Theorem unsized_file_crashes fuel w bs s v :
    files (w_fs w) !! "notes.json"%string = Some bs -> "notes.json"%string ∉ unreadable (w_fs w) ->
    Utf8.decode bs = Ok s -> json_loads (translate_newlines s) = Ok v ->
    (forall xs, v <> PList xs) -> (forall t, v <> PStr t) -> (forall kvs, v <> PDict kvs) ->
    main fuel w = Crashed TypeError (set_db (mkDatabase "notes.json" v) (set_out (w_out w ++ [MWelcome]) w)).
  Proof.
    intros Hf Hr Hs Hj Hl Hstr Hd.
    set (w1 := set_db (Db.init "notes.json") (set_out (w_out w ++ [MWelcome]) w)).
    assert (Hload : Db.load w1 = (Ok v, set_db (mkDatabase "notes.json" v) w1))
      by (apply (Db.load_json w1 bs s v); done).
    unfold main, main_start. unfold bind at 1 2. cbv [print modify]. fold w1.
    unfold bind at 1. rewrite Hload. cbv [Db.get_notes_count bind gets lift]. simpl.
    destruct v as [| | | |t|xs|kvs]; [| | | | by destruct (Hstr t) | by destruct (Hl xs)
                                      | by destruct (Hd kvs)].
    all: cbn [py_len]; subst w1; by destruct w.
  Qed.
End Handlers.

(** ** Witnesses and runs, with the [json] module of [Json.v] *)

#[local] Existing Instances Json.json_lib Json.json_lib_laws Str.basic_case_map.

Lemma exit_on_zero_witness :
  let w := Db.start_world "notes.json" None [Line (Str.lit " 0 ")] Db.test_time in
  loop_body w = (Raise (SystemExit 0), set_in [] (set_out [MMenu; MPrompt PChoice; MGoodbye] w)).
Proof. intros w. exact (exit_on_zero w (Str.lit " 0 ") [] eq_refl eq_refl). Defined.

Lemma interrupt_at_menu_witness :
  let w := Db.start_world "notes.json" None [CtrlC; Line (Str.lit "1")] Db.test_time in
  loop_body w =
    (Raise (SystemExit 0), set_in [Line (Str.lit "1")] (set_out [MMenu; MPrompt PChoice; MGoodbye] w)).
Proof. intros w. exact (interrupt_at_menu w [Line (Str.lit "1")] eq_refl). Defined.

Lemma eof_loops_forever_witness :
  let w := Db.start_world "notes.json" None [] Db.test_time in
  run_loop 2 w = Running (set_out ([] ++ concat (replicate 2 [MMenu; MPrompt PChoice; MError EOFError])) w).
Proof. intros w. exact (eof_loops_forever 2 w eq_refl). Defined.

(** The line [  Buy milk  ] typed for the text: [Buy milk] is stored. *)
Lemma handle_add_note_strips_witness :
  let w := Db.start_world "notes.json" None [Line (Str.lit "  Buy milk  ")] Db.test_time in
  if decide (Str.all_space (Str.lit "  Buy milk  "))
  then handle_add_note w =
         (Ok tt, set_in [] (set_out (w_out w ++ [MAddTitle; MPrompt PNoteText; MEmptyText]) w))
  else exists w', handle_add_note w = (Ok tt, w') /\
    notes (w_db w') =
      PList ([] ++ [PDict [(Str.lit "text", PStr (Str.strip (Str.lit "  Buy milk  ")));
                           (Str.lit "created", PStr (Utils.strftime (w_now w)))]]) /\
    w_out w' = w_out w ++ [MAddTitle; MPrompt PNoteText; MAdded (Z.of_nat (length (@nil pyval)) + 1)] /\
    w_in w' = [] /\ Db.db_inv w'.
Proof.
  intros w. apply (handle_add_note_strips w [] (Str.lit "  Buy milk  ") []);
    [unfold Db.db_inv, Db.fs_ok; split_and!; [reflexivity | reflexivity | simpl; set_solver..]
    | reflexivity | reflexivity | reflexivity].
Defined.

Lemma interrupt_in_add_witness :
  let w := Db.start_world "notes.json" None [Line (Str.lit "1"); CtrlC; Line (Str.lit "2")] Db.test_time in
  loop_body w =
    (Raise (SystemExit 0),
     set_in [Line (Str.lit "2")]
       (set_out (w_out w ++ [MMenu; MPrompt PChoice; MAddTitle; MPrompt PNoteText; MGoodbye]) w)).
Proof. intros w. exact (interrupt_in_add w (Str.lit "1") [Line (Str.lit "2")] eq_refl eq_refl). Defined.

Lemma interrupt_in_delete_witness :
  let w := set_db (mkDatabase "notes.json" (PList [Db.note_a]))
             (Db.start_world "notes.json" None [CtrlC] Db.test_time) in
  handle_delete_note w =
    (Ok tt, set_in [] (set_out (w_out w ++ Utils.listing [Db.note_a] ++ [MPrompt PNoteNumber; MCancelled]) w)).
Proof.
  intros w. apply (interrupt_in_delete w [Db.note_a] []);
    [reflexivity | discriminate | repeat constructor | reflexivity].
Defined.

(** Notes [note_a] and [note_bad]; deleting note 1 leaves [note_bad],
    whose text is the sixth string of the dump. *)
Lemma delete_save_error_misreported_witness :
  let w := set_db (mkDatabase "notes.json" (PList [Db.note_a; Db.note_bad]))
             (Db.start_world "notes.json" None [Line (Str.lit " 1 ")] Db.test_time) in
  let ch := json_dump_chunks (PList (delete (Z.to_nat (1 - 1)) [Db.note_a; Db.note_bad])) in
  let bs := match Utf8.encode (concat (take 5 ch)) with Ok b => b | Raise _ => [] end in
  handle_delete_note w =
    (Ok tt, set_out (w_out w ++ Utils.listing [Db.note_a; Db.note_bad] ++ [MPrompt PNoteNumber; MInvalidNumber])
              (set_in [] (Db.saved (PList (delete (Z.to_nat (1 - 1)) [Db.note_a; Db.note_bad])) bs w))).
Proof.
  intros w ch bs.
  apply (delete_save_error_misreported w [Db.note_a; Db.note_bad] (Str.lit " 1 ") [] 1
           (take 5 ch) [34; 56448; 34]%N (drop 6 ch) bs UnicodeEncodeError);
    [reflexivity | repeat constructor | simpl; set_solver | reflexivity | reflexivity | simpl; lia
    | vm_compute; reflexivity | vm_compute; reflexivity | reflexivity].
Defined.

(** A file holding the number [5]. *)
Lemma unsized_file_crashes_witness :
  let w := Db.start_world "notes.json" (Some [53%N]) [Line (Str.lit "2")] Db.test_time in
  main 3 w = Crashed TypeError (set_db (mkDatabase "notes.json" (PInt 5)) (set_out (w_out w ++ [MWelcome]) w)).
Proof.
  intros w. apply (unsized_file_crashes 3 w [53%N] [53%N] (PInt 5));
    [reflexivity | simpl; set_solver | reflexivity | vm_compute; reflexivity | discriminate..].
Defined.

End Main.
